(** * TeamOS response generation: a shallow embedding of
      [src/ai_config.py], [src/ai_service.py] and the configuration route of
      [src/admin.py], with the properties of the response orchestrator.

    Conventions of the embedding.
    - A Python [dict] whose iteration order is observable (the request
      context, response metadata) is an association list in insertion order;
      the manager's dictionaries, which are only looked up by key, are
      [gmap]s.
    - Instants ([datetime]) are integers counting microseconds since the
      epoch; a [timedelta] is a number of microseconds.
    - Python [float]s that are only stored and multiplied by small integers
      ([temperature], [retry_delay]) are rationals.
    - An [async def] is run to completion: a computation is a function from
      the state before to an outcome and the state after, and a raised
      exception is an outcome (mutations made before the raise persist).
    - The remote model, the random generator and the process environment
      are inputs: an oracle indexed by the number of calls made so far.
    - The tables of the interpreter's Unicode database, and the rendering
      of format fields other than plain names, are inputs too. *)

From Stdlib Require Import ZArith QArith Qround Lia List Ascii String.
From stdpp Require Import base option list gmap strings pretty fin_maps.

Local Open Scope string_scope.
Local Open Scope list_scope.
Local Open Scope Z_scope.

(** ** Python values that a request context may hold *)

Inductive prim : Type :=
  | PNone
  | PBool (b : bool)
  | PInt (z : Z)
  | PStr (s : string).

#[global] Instance prim_eq_dec : EqDecision prim.
Proof. solve_decision. Defined.

#[global] Instance prim_countable : Countable prim.
Proof.
  refine (inj_countable'
    (fun v => match v with
              | PNone => inl (inl tt)
              | PBool b => inl (inr b)
              | PInt z => inr (inl z)
              | PStr s => inr (inr s)
              end)
    (fun c => match c with
              | inl (inl _) => PNone
              | inl (inr b) => PBool b
              | inr (inl z) => PInt z
              | inr (inr s) => PStr s
              end) _).
  by intros [].
Defined.

(** [bool(v)]: the truth value Python gives a primitive. *)
Definition truthy (v : prim) : bool :=
  match v with
  | PNone => false
  | PBool b => b
  | PInt z => negb (z =? 0)
  | PStr s => negb (String.eqb s "")
  end.

(** [s == v] for a [str] on the left: only an equal [str] is equal. *)
Definition str_eq_prim (s : string) (v : prim) : bool :=
  match v with
  | PStr t => String.eqb s t
  | _ => false
  end.

(** [str(v)], which is also [format(v, '')]. *)
Definition py_str (v : prim) : string :=
  match v with
  | PNone => "None"
  | PBool true => "True"
  | PBool false => "False"
  | PInt z => pretty z
  | PStr s => s
  end.

(** *** Characters

    A string stands for the Python [str] whose UTF-8 encoding it holds, and
    the functions of the interpreter that work character by character
    ([repr], [str.format]) are given the code points.  A byte that belongs
    to no well-formed sequence is read as one of the code points U+DC80 to
    U+DCFF, as CPython's surrogateescape handler reads it. *)

Record uchar : Type := mkUchar {
  code_point : N;
  encoding : string        (* the bytes that encode it *)
}.

Definition continuation_byte (b : N) : bool := ((128 <=? b) && (b <=? 191))%N.

Definition two_bytes (b0 b1 : N) : bool :=
  ((194 <=? b0) && (b0 <=? 223))%N && continuation_byte b1.

(** Overlong forms and the surrogates U+D800 to U+DFFF are not well formed. *)
Definition three_bytes (b0 b1 b2 : N) : bool :=
  ((224 <=? b0) && (b0 <=? 239))%N && continuation_byte b1 && continuation_byte b2
  && negb ((b0 =? 224) && (b1 <? 160))%N
  && negb ((b0 =? 237) && (160 <=? b1))%N.

(** Overlong forms and code points above U+10FFFF are not well formed. *)
Definition four_bytes (b0 b1 b2 b3 : N) : bool :=
  ((240 <=? b0) && (b0 <=? 244))%N
  && continuation_byte b1 && continuation_byte b2 && continuation_byte b3
  && negb ((b0 =? 240) && (b1 <? 144))%N
  && negb ((b0 =? 244) && (144 <=? b1))%N.

Definition bytes_string (bytes : list N) : string :=
  string_of_list_ascii (map ascii_of_N bytes).

Definition escaped_byte (b : N) : uchar := mkUchar (56320 + b) (bytes_string [b]).

Fixpoint code_points (bytes : list N) : list uchar :=
  match bytes with
  | [] => []
  | b0 :: rest =>
      if (b0 <? 128)%N then mkUchar b0 (bytes_string [b0]) :: code_points rest
      else
        match rest with
        | [] => [escaped_byte b0]
        | b1 :: rest1 =>
            if two_bytes b0 b1
            then mkUchar ((b0 - 192) * 64 + (b1 - 128)) (bytes_string [b0; b1])
                   :: code_points rest1
            else
              match rest1 with
              | [] => escaped_byte b0 :: code_points rest
              | b2 :: rest2 =>
                  if three_bytes b0 b1 b2
                  then mkUchar ((b0 - 224) * 4096 + (b1 - 128) * 64 + (b2 - 128))
                               (bytes_string [b0; b1; b2])
                         :: code_points rest2
                  else
                    match rest2 with
                    | [] => escaped_byte b0 :: code_points rest
                    | b3 :: rest3 =>
                        if four_bytes b0 b1 b2 b3
                        then mkUchar ((b0 - 240) * 262144 + (b1 - 128) * 4096
                                      + (b2 - 128) * 64 + (b3 - 128))
                                     (bytes_string [b0; b1; b2; b3])
                               :: code_points rest3
                        else escaped_byte b0 :: code_points rest
                    end
              end
        end
  end.

Definition chars (s : string) : list uchar :=
  code_points (map N_of_ascii (list_ascii_of_string s)).

Definition text_of (cs : list uchar) : string :=
  String.concat "" (map encoding cs).

(** *** [repr] of strings and dictionaries

    CPython quotes with an apostrophe unless the string has an apostrophe
    and no double quote; it escapes the backslash, the chosen quote, tab,
    newline and carriage return, writes the other control characters of ASCII
    as [\xhh], keeps a character above 127 when [str.isprintable] holds of
    it and writes it as [\xhh], [\uhhhh] or [\Uhhhhhhhh] otherwise.  Which
    characters above 127 are printable is a table of the interpreter's
    Unicode database: the parameter [printable]. *)

Definition dquote : ascii := ascii_of_N 34.
Definition squote : ascii := ascii_of_N 39.
Definition backslash : ascii := ascii_of_N 92.

Definition hex_digit (n : N) : ascii :=
  ascii_of_N (if (n <? 10)%N then 48 + n else 87 + n)%N.

Fixpoint hex_digits (width : nat) (n : N) : string :=
  match width with
  | O => ""
  | S width' => hex_digits width' (n / 16) +:+ String (hex_digit (n mod 16)) ""
  end.

Definition contains_char (c : ascii) (s : string) : bool :=
  existsb (Ascii.eqb c) (list_ascii_of_string s).

Definition repr_char (printable : N -> bool) (quote : ascii) (c : uchar) : string :=
  let n := code_point c in
  if (n =? N_of_ascii quote)%N || (n =? 92)%N
  then String backslash (encoding c)
  else if (n =? 9)%N then "\t"
  else if (n =? 10)%N then "\n"
  else if (n =? 13)%N then "\r"
  else if ((n <? 32) || (n =? 127))%N then "\x" +:+ hex_digits 2 n
  else if (n <? 127)%N then encoding c
  else if printable n then encoding c
  else if (n <? 256)%N then "\x" +:+ hex_digits 2 n
  else if (n <? 65536)%N then "\u" +:+ hex_digits 4 n
  else "\U" +:+ hex_digits 8 n.

Definition repr_str (printable : N -> bool) (s : string) : string :=
  let quote :=
    if contains_char squote s && negb (contains_char dquote s)
    then dquote else squote in
  String quote
    (String.concat "" (map (repr_char printable quote) (chars s))
       +:+ String quote "").

Definition py_repr (printable : N -> bool) (v : prim) : string :=
  match v with
  | PStr s => repr_str printable s
  | _ => py_str v
  end.

(** A dictionary with string keys, in insertion order. *)
Definition pydict : Type := list (string * prim).

Fixpoint dict_get (k : string) (d : pydict) : option prim :=
  match d with
  | [] => None
  | (k', v) :: d' => if String.eqb k k' then Some v else dict_get k d'
  end.

(** [d.get(k, default)] *)
Definition dict_get_default (k : string) (dflt : prim) (d : pydict) : prim :=
  match dict_get k d with
  | Some v => v
  | None => dflt
  end.

Definition repr_dict (printable : N -> bool) (d : pydict) : string :=
  "{" +:+ String.concat ", "
            (map (fun kv => repr_str printable (fst kv) +:+ ": "
                            +:+ py_repr printable (snd kv)) d)
      +:+ "}".

(** [a == b] on primitives: [bool] is a subtype of [int], so [True == 1]. *)
Definition prim_as_int (v : prim) : option Z :=
  match v with
  | PBool b => Some (if b then 1 else 0)
  | PInt z => Some z
  | _ => None
  end.

Definition py_eq (a b : prim) : bool :=
  match a, b with
  | PNone, PNone => true
  | PStr s, PStr t => String.eqb s t
  | _, _ =>
      match prim_as_int a, prim_as_int b with
      | Some x, Some y => x =? y
      | _, _ => false
      end
  end.

(** ** [str.format] with the context as keyword arguments

    The format string is read as CPython (3.9 and later, 64-bit) reads it,
    character by character: literal text in which a doubled brace stands
    for one brace, and replacement fields [{name!c:spec}].  The scanner
    below is the markup iterator of [str.format]; a string it cannot read
    ends in a [Malformed] piece, whose [ValueError] is raised when the
    rendering reaches it, after the fields before it. *)

Record ReplacementField : Type := mkField {
  field_name : string;        (* the text before [!] or [:] *)
  conversion : option N;      (* the character after [!] *)
  format_spec : string        (* the text after [:] *)
}.

Inductive piece : Type :=
  | Lit (text : string)
  | Field (field : ReplacementField)
  | Malformed (msg : string).

Definition template : Type := list piece.

Definition lit (text : string) (rest : template) : template :=
  if String.eqb text "" then rest else Lit text :: rest.

(** [scan_text], the literal text before the next brace; [scan_name], the
    name of a field up to its closing brace, [!] or [:], where a bracket
    hides everything up to its closing bracket ([scan_bracket]);
    [scan_conversion], the character after [!]; [scan_spec], the format
    specification, in which braces nest. *)
Fixpoint scan_text (text : string) (s : list uchar) {struct s} : template :=
  match s with
  | [] => lit text []
  | c :: s' =>
      if (code_point c =? 123)%N then
        match s' with
        | [] => lit text [Malformed "Single '{' encountered in format string"]
        | c' :: s'' =>
            if (code_point c' =? 123)%N then scan_text (text +:+ "{") s''
            else lit text (scan_name "" s')
        end
      else if (code_point c =? 125)%N then
        match s' with
        | [] => lit text [Malformed "Single '}' encountered in format string"]
        | c' :: s'' =>
            if (code_point c' =? 125)%N then scan_text (text +:+ "}") s''
            else lit text [Malformed "Single '}' encountered in format string"]
        end
      else scan_text (text +:+ encoding c) s'
  end
with scan_name (name : string) (s : list uchar) {struct s} : template :=
  match s with
  | [] => [Malformed "expected '}' before end of string"]
  | c :: s' =>
      if (code_point c =? 123)%N then [Malformed "unexpected '{' in field name"]
      else if (code_point c =? 91)%N then scan_bracket (name +:+ "[") s'
      else if (code_point c =? 125)%N
      then Field (mkField name None "") :: scan_text "" s'
      else if (code_point c =? 58)%N then scan_spec name None "" 1 s'
      else if (code_point c =? 33)%N then scan_conversion name s'
      else scan_name (name +:+ encoding c) s'
  end
with scan_bracket (name : string) (s : list uchar) {struct s} : template :=
  match s with
  | [] => [Malformed "expected '}' before end of string"]
  | c :: s' =>
      if (code_point c =? 93)%N then scan_name (name +:+ "]") s'
      else scan_bracket (name +:+ encoding c) s'
  end
with scan_conversion (name : string) (s : list uchar) {struct s} : template :=
  match s with
  | [] => [Malformed "end of string while looking for conversion specifier"]
  | conv :: s' =>
      match s' with
      | [] => [Malformed "unmatched '{' in format spec"]
      | c :: s'' =>
          if (code_point c =? 125)%N
          then Field (mkField name (Some (code_point conv)) "") :: scan_text "" s''
          else if (code_point c =? 58)%N
          then scan_spec name (Some (code_point conv)) "" 1 s''
          else [Malformed "expected ':' after conversion specifier"]
      end
  end
with scan_spec (name : string) (conv : option N) (spec : string) (depth : nat)
               (s : list uchar) {struct s} : template :=
  match s with
  | [] => [Malformed "unmatched '{' in format spec"]
  | c :: s' =>
      if (code_point c =? 123)%N
      then scan_spec name conv (spec +:+ "{") (S depth) s'
      else if (code_point c =? 125)%N then
        match depth with
        | S (S depth') => scan_spec name conv (spec +:+ "}") (S depth') s'
        | _ => Field (mkField name conv spec) :: scan_text "" s'
        end
      else scan_spec name conv (spec +:+ encoding c) depth s'
  end.

Definition scan (format_string : string) : template :=
  scan_text "" (chars format_string).

(** *** The argument a field names

    The name up to its first [.] or [[] is a position when it is empty or
    a decimal number and a keyword otherwise.  Decimal digits outside ASCII
    count as digits, and which characters are such digits is again a table
    of the interpreter: a name in which the question arises is [ArgOther]. *)

Inductive Argument : Type :=
  | ArgPosition (index : Z)
  | ArgTooManyDigits
  | ArgKeyword (key : string)
  | ArgOther.

Definition PY_SSIZE_T_MAX : Z := 9223372036854775807.

Inductive IntegerScan : Type :=
  | IsInteger (value : Z)
  | NotInteger
  | TooManyDigits
  | DigitOutsideAscii.

(** [get_integer] on a name that is not empty: the digits are accumulated
    until a character that is no digit, or until the number no longer fits. *)
Fixpoint get_integer (accumulator : Z) (name : list uchar) : IntegerScan :=
  match name with
  | [] => IsInteger accumulator
  | c :: name' =>
      let n := code_point c in
      if (128 <=? n)%N then DigitOutsideAscii
      else if ((48 <=? n) && (n <=? 57))%N then
        let digitval := Z.of_N n - 48 in
        if (PY_SSIZE_T_MAX - digitval) / 10 <? accumulator then TooManyDigits
        else get_integer (accumulator * 10 + digitval) name'
      else NotInteger
  end.

(** The part of a field name before its first [.] or [[], and the rest. *)
Fixpoint field_name_split (name : list uchar) : list uchar * list uchar :=
  match name with
  | [] => ([], [])
  | c :: name' =>
      if ((code_point c =? 46) || (code_point c =? 91))%N then ([], name)
      else let '(first, rest) := field_name_split name' in (c :: first, rest)
  end.

(** An empty name numbers the fields automatically, from 0; the first
    positional field is the last one looked up, since no positional
    argument is passed. *)
Definition argument_of (field : ReplacementField) : Argument :=
  let first := fst (field_name_split (chars (field_name field))) in
  match first with
  | [] => ArgPosition 0
  | _ =>
      match get_integer 0 first with
      | IsInteger index => ArgPosition index
      | TooManyDigits => ArgTooManyDigits
      | NotInteger => ArgKeyword (text_of first)
      | DigitOutsideAscii => ArgOther
      end
  end.

(** The field is [{name}] or [{name:}]: no attribute or index is taken of
    the argument, no conversion is applied and the format specification is
    empty, so that the argument is rendered as [format(value, '')]. *)
Definition undecorated (field : ReplacementField) : bool :=
  match snd (field_name_split (chars (field_name field))), conversion field with
  | [], None => String.eqb (format_spec field) ""
  | _, _ => false
  end.

(** Exceptions raised in the modelled code. *)
Inductive Exc : Type :=
  | AIServiceError (msg : string)
  | KeyError (key : string)
  | TypeError (msg : string)
  | ValueError (msg : string)
  | IndexError (msg : string)
  | OverflowError (msg : string).

Inductive result (A : Type) : Type :=
  | Ok (a : A)
  | Raise (e : Exc).
Arguments Ok {A} a.
Arguments Raise {A} e.

(** ** Enumerations of [ai_config.py] *)

Inductive AIProvider : Type := OPENAI | ANTHROPIC | LOCAL | FALLBACK.

Inductive SubjectMatter : Type :=
  | TASK_CREATION | TASK_COMPLETION | MOTIVATION | CELEBRATION
  | ENCOURAGEMENT | PRODUCTIVITY_TIPS | GOAL_SETTING | TIME_MANAGEMENT
  | HABIT_FORMATION | STRESS_MANAGEMENT | TEAM_COLLABORATION
  | PROJECT_PLANNING.

#[global] Instance AIProvider_eq_dec : EqDecision AIProvider.
Proof. solve_decision. Defined.

#[global] Instance SubjectMatter_eq_dec : EqDecision SubjectMatter.
Proof. solve_decision. Defined.

Definition all_providers : list AIProvider := [OPENAI; ANTHROPIC; LOCAL; FALLBACK].

Definition all_subjects : list SubjectMatter :=
  [TASK_CREATION; TASK_COMPLETION; MOTIVATION; CELEBRATION; ENCOURAGEMENT;
   PRODUCTIVITY_TIPS; GOAL_SETTING; TIME_MANAGEMENT; HABIT_FORMATION;
   STRESS_MANAGEMENT; TEAM_COLLABORATION; PROJECT_PLANNING].

Definition provider_value (p : AIProvider) : string :=
  match p with
  | OPENAI => "openai"
  | ANTHROPIC => "anthropic"
  | LOCAL => "local"
  | FALLBACK => "fallback"
  end.

Definition subject_value (s : SubjectMatter) : string :=
  match s with
  | TASK_CREATION => "task_creation"
  | TASK_COMPLETION => "task_completion"
  | MOTIVATION => "motivation"
  | CELEBRATION => "celebration"
  | ENCOURAGEMENT => "encouragement"
  | PRODUCTIVITY_TIPS => "productivity_tips"
  | GOAL_SETTING => "goal_setting"
  | TIME_MANAGEMENT => "time_management"
  | HABIT_FORMATION => "habit_formation"
  | STRESS_MANAGEMENT => "stress_management"
  | TEAM_COLLABORATION => "team_collaboration"
  | PROJECT_PLANNING => "project_planning"
  end.

(** [AIProvider(v)] and [SubjectMatter(v)]: lookup by value, [None] standing
    for the [ValueError] of an unknown value. *)
Definition provider_of_value (v : string) : option AIProvider :=
  find (fun p => String.eqb (provider_value p) v) all_providers.

Definition subject_of_value (v : string) : option SubjectMatter :=
  find (fun s => String.eqb (subject_value s) v) all_subjects.

Fixpoint index_of {A} `{EqDecision A} (l : list A) (x : A) : nat :=
  match l with
  | [] => O
  | y :: l' => if decide (x = y) then O else S (index_of l' x)
  end.

#[global] Instance AIProvider_countable : Countable AIProvider.
Proof.
  refine (inj_countable' (index_of all_providers)
            (fun n => default FALLBACK (all_providers !! n)) _).
  by intros [].
Defined.

#[global] Instance SubjectMatter_countable : Countable SubjectMatter.
Proof.
  refine (inj_countable' (index_of all_subjects)
            (fun n => default TASK_CREATION (all_subjects !! n)) _).
  by intros [].
Defined.

(** ** Data classes of [ai_config.py] *)

Module AIModelConfig.
Record t : Type := mk {
  provider : AIProvider;
  model_name : string;
  api_key : option string;
  api_base : option string;
  max_tokens : Z;
  temperature : Q;
  timeout : Z;
  retry_attempts : Z;
  retry_delay : Q
}.

(** Field defaults of the data class. *)
Definition default_max_tokens : Z := 150.
Definition default_temperature : Q := 7 # 10.
Definition default_timeout : Z := 10.
Definition default_retry_attempts : Z := 3.
Definition default_retry_delay : Q := 1.
End AIModelConfig.

Module SubjectMatterConfig.
Record t : Type := mk {
  subject : SubjectMatter;
  primary_model : AIModelConfig.t;
  fallback_model : option AIModelConfig.t;
  system_prompt : string;
  context_template : string;
  response_format : string;
  max_context_length : Z;
  cache_responses : bool;
  cache_duration_hours : Z
}.
End SubjectMatterConfig.

Module FallbackResponse.
Record t : Type := mk {
  subject : SubjectMatter;
  context_type : prim;
  mood : string;
  response_text : string;
  animation_type : string;
  weight : Z;
  created_at : Z
}.
End FallbackResponse.

(** ** [AIResponse] of [ai_service.py] *)

Module AIResponse.
Record t : Type := mk {
  text : string;
  animation_type : string;
  mood : string;
  source : string;
  metadata : pydict;
  timestamp : Z
}.

(** The parameters of [__init__] after [self]. *)
Definition init_params : list string :=
  ["text"; "animation_type"; "mood"; "source"; "metadata"].

Definition with_source (src : string) (r : t) : t :=
  mk (text r) (animation_type r) (mood r) src (metadata r) (timestamp r).
End AIResponse.

(** The dictionary built by [AIResponse.to_dict]: its keys are fixed, so it
    is a record; [keys] lists them in insertion order.  The timestamp entry
    is the instant whose ISO-8601 text the dictionary holds. *)
Module ResponseDict.
Record t : Type := mk {
  text : string;
  animation_type : string;
  mood : string;
  source : string;
  metadata : pydict;
  timestamp : Z
}.

Definition keys : list string :=
  ["text"; "animation_type"; "mood"; "source"; "metadata"; "timestamp"].

(** [d['source'] = src] *)
Definition set_source (src : string) (d : t) : t :=
  mk (text d) (animation_type d) (mood d) src (metadata d) (timestamp d).
End ResponseDict.

Definition to_dict (r : AIResponse.t) : ResponseDict.t :=
  ResponseDict.mk (AIResponse.text r) (AIResponse.animation_type r)
    (AIResponse.mood r) (AIResponse.source r) (AIResponse.metadata r)
    (AIResponse.timestamp r).

(** ** Dates *)

Definition datetime_min : Z := -62135596800000000.
Definition datetime_max : Z := 253402300799999999.
Definition microseconds_per_hour : Z := 3600000000.
Definition five_minutes : Z := 300000000.

(** ** The remote model, seen from the client *)

Record ModelRequest : Type := mkRequest {
  req_client : AIModelConfig.t;   (* the configuration held by the client object *)
  req_system_prompt : string;
  req_user_prompt : string;
  req_context : pydict
}.

Inductive Completion : Type :=
  | Completed (content : string) (total_tokens : option Z)
  | TimedOut
  | Failed (why : string).

Record Reply : Type := mkReply {
  completion : Completion;
  elapsed : N        (* microseconds the call took *)
}.

(** The interpreter's part of the environment: [unicode_printable] is
    [str.isprintable] on the characters above 127, which [repr] consults,
    and [format_field] is what [str.format] makes of a replacement field
    that takes an attribute or an index of its argument, converts it or
    gives a format specification, or whose name may be a number written in
    digits outside ASCII. *)
Record Env : Type := mkEnv {
  model_reply : nat -> ModelRequest -> Reply;  (* n-th call to a model *)
  random : nat -> Q;                           (* n-th value of random.random() *)
  unicode_printable : N -> bool;
  format_field : ReplacementField -> pydict -> result string
}.

(** ** Rendering a format string

    The argument of a field is looked up first: a position raises
    [IndexError], since [format] is called with keyword arguments only, and
    a keyword that is missing raises [KeyError].  An undecorated field is
    then [str] of its value; what CPython makes of any other field is taken
    from the environment. *)

Definition format_one (env : Env) (field : ReplacementField) (kwargs : pydict)
  : result string :=
  match argument_of field with
  | ArgPosition index =>
      Raise (IndexError ("Replacement index " +:+ pretty index
                           +:+ " out of range for positional args tuple"))
  | ArgTooManyDigits => Raise (ValueError "Too many decimal digits in format string")
  | ArgKeyword key =>
      match dict_get key kwargs with
      | None => Raise (KeyError key)
      | Some v =>
          if undecorated field then Ok (py_str v) else format_field env field kwargs
      end
  | ArgOther => format_field env field kwargs
  end.

Fixpoint render (env : Env) (t : template) (kwargs : pydict) : result string :=
  match t with
  | [] => Ok ""
  | Lit text :: t' =>
      match render env t' kwargs with
      | Ok rest => Ok (text +:+ rest)
      | Raise e => Raise e
      end
  | Field field :: t' =>
      match format_one env field kwargs with
      | Ok value =>
          match render env t' kwargs with
          | Ok rest => Ok (value +:+ rest)
          | Raise e => Raise e
          end
      | Raise e => Raise e
      end
  | Malformed msg :: _ => Raise (ValueError msg)
  end.

(** [format_string.format] applied to the keyword arguments [kwargs]. *)
Definition str_format (env : Env) (format_string : string) (kwargs : pydict)
  : result string :=
  render env (scan format_string) kwargs.

(** What the service did, in order: entered [check_connectivity] for a
    provider, sent a request through the client of a provider, slept. *)
Inductive Event : Type :=
  | EvCheckConnectivity (p : AIProvider)
  | EvCall (p : AIProvider) (req : ModelRequest)
  | EvSleep (seconds : Q).

(** ** State: the configuration manager, the service and the world *)

Definition loc : Type := positive.

Abbreviation CacheKey := (SubjectMatter * gmap string prim)%type.

(** A cache slot [{'response': ..., 'expiry': ...}]; the response is a
    reference to the dictionary object, which the cache shares with whoever
    reads it. *)
Record CacheEntry : Type := mkEntry {
  entry_response : loc;
  entry_expiry : Z
}.

Record State : Type := mkState {
  (* AIConfigurationManager *)
  subject_configs : gmap SubjectMatter SubjectMatterConfig.t;
  fallback_responses : gmap SubjectMatter (list FallbackResponse.t);
  connectivity_status : gmap AIProvider bool;
  last_sync_attempt : gmap AIProvider Z;
  response_cache : gmap CacheKey CacheEntry;
  (* AIService: the client objects, each with the configuration it was built from *)
  providers : gmap AIProvider AIModelConfig.t;
  (* dictionary objects *)
  heap : gmap loc ResponseDict.t;
  (* the world *)
  environ : gmap string string;
  now : Z;
  calls : nat;
  draws : nat;
  trace : list Event
}.

Definition with_subject_configs v (s : State) : State :=
  mkState v (fallback_responses s) (connectivity_status s) (last_sync_attempt s)
    (response_cache s) (providers s) (heap s) (environ s) (now s) (calls s)
    (draws s) (trace s).
Definition with_fallback_responses v (s : State) : State :=
  mkState (subject_configs s) v (connectivity_status s) (last_sync_attempt s)
    (response_cache s) (providers s) (heap s) (environ s) (now s) (calls s)
    (draws s) (trace s).
Definition with_connectivity v w (s : State) : State :=
  mkState (subject_configs s) (fallback_responses s) v w
    (response_cache s) (providers s) (heap s) (environ s) (now s) (calls s)
    (draws s) (trace s).
Definition with_response_cache v (s : State) : State :=
  mkState (subject_configs s) (fallback_responses s) (connectivity_status s)
    (last_sync_attempt s) v (providers s) (heap s) (environ s) (now s) (calls s)
    (draws s) (trace s).
Definition with_providers v (s : State) : State :=
  mkState (subject_configs s) (fallback_responses s) (connectivity_status s)
    (last_sync_attempt s) (response_cache s) v (heap s) (environ s) (now s)
    (calls s) (draws s) (trace s).
Definition with_heap v (s : State) : State :=
  mkState (subject_configs s) (fallback_responses s) (connectivity_status s)
    (last_sync_attempt s) (response_cache s) (providers s) v (environ s) (now s)
    (calls s) (draws s) (trace s).
Definition with_now v (s : State) : State :=
  mkState (subject_configs s) (fallback_responses s) (connectivity_status s)
    (last_sync_attempt s) (response_cache s) (providers s) (heap s) (environ s) v
    (calls s) (draws s) (trace s).
Definition with_calls v (s : State) : State :=
  mkState (subject_configs s) (fallback_responses s) (connectivity_status s)
    (last_sync_attempt s) (response_cache s) (providers s) (heap s) (environ s)
    (now s) v (draws s) (trace s).
Definition with_draws v (s : State) : State :=
  mkState (subject_configs s) (fallback_responses s) (connectivity_status s)
    (last_sync_attempt s) (response_cache s) (providers s) (heap s) (environ s)
    (now s) (calls s) v (trace s).
Definition log (e : Event) (s : State) : State :=
  mkState (subject_configs s) (fallback_responses s) (connectivity_status s)
    (last_sync_attempt s) (response_cache s) (providers s) (heap s) (environ s)
    (now s) (calls s) (draws s) (trace s ++ [e]).

(** ** Computations *)

Definition M (A : Type) : Type := State -> result A * State.

Definition ret {A} (a : A) : M A := fun s => (Ok a, s).
Definition raise {A} (e : Exc) : M A := fun s => (Raise e, s).
Definition bind {A B} (c : M A) (k : A -> M B) : M B :=
  fun s => match c s with
           | (Ok a, s') => k a s'
           | (Raise e, s') => (Raise e, s')
           end.
Definition get_state : M State := fun s => (Ok s, s).
Definition modify (f : State -> State) : M unit := fun s => (Ok tt, f s).

(** [try: body except ...: handler]; the handler sees the state the body
    left behind. *)
Definition try_except {A} (body : M A) (handler : Exc -> M A) : M A :=
  fun s => match body s with
           | (Ok a, s') => (Ok a, s')
           | (Raise e, s') => handler e s'
           end.

Declare Scope m_scope.
Delimit Scope m_scope with M.
Notation "x <- c ;; k" := (bind c (fun x => k))
  (at level 100, c at next level, right associativity) : m_scope.
Notation "c ;;; k" := (bind c (fun _ => k))
  (at level 100, right associativity) : m_scope.

Local Open Scope m_scope.

(** ** [random.choices(population, weights=weights, k=1)[0]]

    CPython (3.9 and later) accumulates the weights, requires as many of
    them as there are elements, converts their total to a [float], rejects a
    total that is not positive and returns
    [population[bisect(cum_weights, random() * total, 0, n - 1)]].

    [random()] returns a multiple of 2^-53 below one, and both the
    conversion of the total and the product are rounded to the 53
    significant bits of a [float], ties to even; the comparisons of
    [bisect] between the product and the integer weights are exact.  The
    exponent of a [float] is not bounded here: a total of 2^1024 or more,
    at which the conversion raises [OverflowError], is outside the model. *)

Fixpoint accumulate_from (acc : Z) (ws : list Z) : list Z :=
  match ws with
  | [] => []
  | w :: ws' => (acc + w) :: accumulate_from (acc + w) ws'
  end.

Definition accumulate (ws : list Z) : list Z := accumulate_from 0 ws.

(** A natural number rounded to 53 significant bits. *)
Definition float_significand (n : Z) : Z :=
  let bits := Z.log2 n + 1 in
  if bits <=? 53 then n
  else
    let shift := bits - 53 in
    let q := Z.shiftr n shift in
    let r := n - Z.shiftl q shift in
    let half := Z.shiftl 1 (shift - 1) in
    Z.shiftl (if (half <? r) || ((r =? half) && Z.odd q) then q + 1 else q) shift.

(** [n + 0.0], an integer again. *)
Definition float_of_int (n : Z) : Z :=
  if n <? 0 then - float_significand (- n) else float_significand n.

(** The numerator [k] of the value [k / 2^53] that [random()] returns,
    for the number the environment lists. *)
Definition random_numerator (u : Q) : Z :=
  Z.max 0 (Z.min (2 ^ 53 - 1) (Qfloor (u * inject_Z (2 ^ 53)))).

(** [k / 2^53 * total] in [float] arithmetic, for a positive [total]. *)
Definition float_product (k total : Z) : Q :=
  inject_Z (float_significand (k * total)) / inject_Z (2 ^ 53).

(** [bisect.bisect_right(a, x, lo, hi)]; [fuel] bounds the iterations of
    its [while lo < hi] loop, which halves [hi - lo]. *)
Fixpoint bisect (fuel : nat) (a : list Z) (x : Q) (lo hi : nat) : nat :=
  match fuel with
  | O => lo
  | S fuel' =>
      if (lo <? hi)%nat then
        let mid := ((lo + hi) / 2)%nat in
        if negb (Qle_bool (inject_Z (nth mid a 0)) x)      (* x < a[mid] *)
        then bisect fuel' a x lo mid
        else bisect fuel' a x (mid + 1)%nat hi
      else lo
  end.

(** ** [AIConfigurationManager] *)

Section Manager.
Context (env : Env).

Definition random_choices {A} (population : list A) (weights : list Z) : M A :=
  fun s =>
    let cum_weights := accumulate weights in
    if negb (length cum_weights =? length population)%nat
    then (Raise (ValueError "The number of weights does not match the population"), s)
    else
      match last cum_weights with
      | None => (Raise (IndexError "list index out of range"), s)
      | Some last_weight =>
          let total := float_of_int last_weight in
          if total <=? 0
          then (Raise (ValueError "Total of weights must be greater than zero"), s)
          else
            let k := random_numerator (random env (draws s)) in
            let s' := with_draws (S (draws s)) s in
            let hi := (length population - 1)%nat in
            let i := bisect (length cum_weights) cum_weights
                            (float_product k total) 0 hi in
            match population !! i with
            | Some x => (Ok x, s')
            | None => (Raise (IndexError "list index out of range"), s')
            end
      end.

Definition get_subject_config (subject : SubjectMatter)
  : M (option SubjectMatterConfig.t) :=
  fun s => (Ok (subject_configs s !! subject), s).

(** [_save_configuration] writes the file and swallows its own errors; the
    file is not part of the state. *)
Definition update_subject_config (subject : SubjectMatter)
    (config : SubjectMatterConfig.t) : M unit :=
  modify (fun s => with_subject_configs (<[subject := config]> (subject_configs s)) s).

(** [bool(api_key and api_base)] *)
Definition env_nonempty (name : string) (s : State) : bool :=
  match environ s !! name with
  | Some v => negb (String.eqb v "")
  | None => false
  end.

(** The probe only inspects the environment and cannot fail, so the
    [except] clause of the source is not reached. *)
Definition check_connectivity (provider : AIProvider) : M bool :=
  fun s0 =>
    let s := log (EvCheckConnectivity provider) s0 in
    if decide (provider = FALLBACK) then (Ok true, s)
    else
      let last_attempt := default datetime_min (last_sync_attempt s !! provider) in
      if now s - last_attempt <? five_minutes
      then (Ok (default false (connectivity_status s !! provider)), s)
      else
        let connected :=
          if decide (provider = OPENAI)
          then env_nonempty "OPENAI_API_KEY" s && env_nonempty "OPENAI_API_BASE" s
          else true in
        (Ok connected,
         with_connectivity (<[provider := connected]> (connectivity_status s))
                           (<[provider := now s]> (last_sync_attempt s)) s).

(** The candidates among which [get_fallback_response] draws: the two
    filters, each dropped when it leaves nothing; the mood filter is
    applied only when [mood] is true as a condition. *)
Definition fallback_candidates (responses : list FallbackResponse.t)
    (context_type mood : prim) : list FallbackResponse.t :=
  let by_context :=
    List.filter (fun r => py_eq (FallbackResponse.context_type r) context_type)
                responses in
  let filtered_responses :=
    match by_context with [] => responses | _ => by_context end in
  if truthy mood then
    let mood_filtered :=
      List.filter (fun r => str_eq_prim (FallbackResponse.mood r) mood)
                  filtered_responses in
    match mood_filtered with [] => filtered_responses | _ => mood_filtered end
  else filtered_responses.

Definition generic_fallback (subject : SubjectMatter) (context_type : prim)
    (created : Z) : FallbackResponse.t :=
  FallbackResponse.mk subject context_type "cheerful"
    "🎂 Sweet! Let's keep the productivity celebration going! ✨"
    "bounce" 1 created.

Definition get_fallback_response (subject : SubjectMatter)
    (context_type mood : prim) : M FallbackResponse.t :=
  fun s =>
    match default [] (fallback_responses s !! subject) with
    | [] => (Ok (generic_fallback subject context_type (now s)), s)
    | responses =>
        let filtered_responses := fallback_candidates responses context_type mood in
        let weights := map FallbackResponse.weight filtered_responses in
        random_choices filtered_responses weights s
    end.

Definition add_fallback_response (response : FallbackResponse.t) : M unit :=
  modify (fun s =>
    let subject := FallbackResponse.subject response in
    let old := default [] (fallback_responses s !! subject) in
    with_fallback_responses (<[subject := old ++ [response]]> (fallback_responses s)) s).

(** [response] is the reference to the dictionary to store. *)
Definition cache_response (cache_key : CacheKey) (response : loc)
    (duration_hours : Z) : M unit :=
  fun s =>
    let expiry := now s + duration_hours * microseconds_per_hour in
    if (datetime_min <=? expiry) && (expiry <=? datetime_max)
    then (Ok tt,
          with_response_cache
            (<[cache_key := mkEntry response expiry]> (response_cache s)) s)
    else (Raise (OverflowError "date value out of range"), s).

Definition get_cached_response (cache_key : CacheKey) : M (option loc) :=
  fun s =>
    match response_cache s !! cache_key with
    | Some cached =>
        if now s <? entry_expiry cached
        then (Ok (Some (entry_response cached)), s)
        else (Ok None, with_response_cache (delete cache_key (response_cache s)) s)
    | None => (Ok None, s)
    end.

Definition clear_cache : M unit :=
  modify (with_response_cache ∅).

End Manager.

(** ** [OpenAIProvider] *)

Definition ascii_lower (c : ascii) : ascii :=
  let n := N_of_ascii c in
  if ((65 <=? n) && (n <=? 90))%N then ascii_of_N (n + 32) else c.

(** [str.lower] on the ASCII letters. *)
Fixpoint str_lower (s : string) : string :=
  match s with
  | EmptyString => EmptyString
  | String c s' => String (ascii_lower c) (str_lower s')
  end.

(** [needle in hay] *)
Fixpoint str_contains (needle hay : string) : bool :=
  String.prefix needle hay ||
  match hay with
  | EmptyString => false
  | String _ hay' => str_contains needle hay'
  end.

Definition any_word_in (words : list string) (response_text : string) : bool :=
  existsb (fun word => str_contains word (str_lower response_text)) words.

(** Returns [(mood, animation)]. *)
Definition _parse_response_metadata (response_text : string) : string * string :=
  if any_word_in ["amazing"; "incredible"; "fantastic"] response_text
  then ("excited", "celebration_bounce")
  else if any_word_in ["gentle"; "soft"; "calm"] response_text
  then ("gentle", "gentle_sway")
  else if any_word_in ["celebrate"; "party"; "woohoo"] response_text
  then ("celebratory", "confetti_explosion")
  else ("cheerful", "bounce").

Definition prim_of_tokens (t : option Z) : prim :=
  match t with
  | Some n => PInt n
  | None => PNone
  end.

(** [asyncio.sleep(seconds)]: returns at once for a delay that is not
    positive. *)
Definition sleep_microseconds (seconds : Q) : Z :=
  Z.max 0 (Qceiling (seconds * 1000000)).

Definition asyncio_sleep (seconds : Q) : M unit :=
  modify (fun s => with_now (now s + sleep_microseconds seconds) (log (EvSleep seconds) s)).

Section Service.
Context (env : Env).

(** [OpenAIProvider.generate_response] of the client registered for
    provider [p], built from [client].  Every failure inside becomes an
    [AIServiceError].  The text of a [Completed] reply is the completion
    after [strip()]. *)
Definition provider_generate_response (p : AIProvider) (client : AIModelConfig.t)
    (system_prompt user_prompt : string) (context : pydict) : M AIResponse.t :=
  fun s =>
    let req := mkRequest client system_prompt user_prompt context in
    let reply := model_reply env (calls s) req in
    let s' := with_now (now s + Z.of_N (elapsed reply))
                (with_calls (S (calls s)) (log (EvCall p req) s)) in
    match completion reply with
    | Completed response_text total_tokens =>
        let '(mood, animation) := _parse_response_metadata response_text in
        (Ok (AIResponse.mk response_text animation mood "ai"
               [("model", PStr (AIModelConfig.model_name client));
                ("provider", PStr "openai");
                ("tokens_used", prim_of_tokens total_tokens)]
               (now s')), s')
    | TimedOut => (Raise (AIServiceError "AI service timeout"), s')
    | Failed why => (Raise (AIServiceError ("AI generation failed: " +:+ why)), s')
    end.

(** ** [AIService] *)

(** The digest [md5(subject.value + ":" + json.dumps(context, sort_keys=True))]
    is a function of the subject and of the context as a finite map (the
    serialisation sorts the keys); the key is that pair, which idealises
    MD5 as free of collisions. *)
Definition _generate_cache_key (subject : SubjectMatter) (context : pydict)
  : CacheKey :=
  (subject, list_to_map context).

(** [not config.context_template] holds of the empty string.  Only the
    [KeyError] of a missing key is caught; any other error of the
    formatting goes to the caller. *)
Definition _format_user_prompt (subject : SubjectMatter) (context : pydict)
  : M string :=
  config <- get_subject_config subject;;
  match config with
  | Some config =>
      if String.eqb (SubjectMatterConfig.context_template config) ""
      then ret ("Generate a response for " +:+ subject_value subject
                  +:+ " with context: " +:+ repr_dict (unicode_printable env) context)
      else
        match str_format env (SubjectMatterConfig.context_template config) context with
        | Ok prompt => ret prompt
        | Raise (KeyError _) =>
            ret ("Generate a response for " +:+ subject_value subject
                   +:+ " with available context: "
                   +:+ repr_dict (unicode_printable env) context)
        | Raise e => raise e
        end
  | None =>
      ret ("Generate a response for " +:+ subject_value subject
             +:+ " with context: " +:+ repr_dict (unicode_printable env) context)
  end.

Definition _get_fallback_response (subject : SubjectMatter) (context : pydict)
  : M AIResponse.t :=
  let context_type := dict_get_default "context_type" (PStr "general") context in
  let mood := dict_get_default "mood" (PStr "cheerful") context in
  fallback <- get_fallback_response env subject context_type mood;;
  s <- get_state;;
  ret (AIResponse.mk (FallbackResponse.response_text fallback)
         (FallbackResponse.animation_type fallback)
         (FallbackResponse.mood fallback)
         "fallback"
         [("fallback_reason", PStr "ai_unavailable");
          ("context_type", context_type)]
         (now s)).

(** The [for attempt in range(retry_attempts)] loop of
    [_generate_ai_response]: [remaining] iterations are left and [attempt]
    is the loop variable. *)
Fixpoint retry_loop (remaining : nat) (attempt : Z) (last_error : option Exc)
    (config : SubjectMatterConfig.t) (client : AIModelConfig.t)
    (user_prompt : string) (context : pydict) : M AIResponse.t :=
  let primary := SubjectMatterConfig.primary_model config in
  match remaining with
  | O => raise (default (AIServiceError "AI generation failed after retries")
                        last_error)
  | S remaining' =>
      try_except
        (provider_generate_response (AIModelConfig.provider primary) client
           (SubjectMatterConfig.system_prompt config) user_prompt context)
        (fun e =>
           match e with
           | AIServiceError _ =>
               (if attempt <? AIModelConfig.retry_attempts primary - 1
                then asyncio_sleep
                       (AIModelConfig.retry_delay primary * inject_Z (attempt + 1))
                else ret tt);;;
               retry_loop remaining' (attempt + 1) (Some e) config client
                 user_prompt context
           | _ => raise e
           end)
  end.

Definition _generate_ai_response (config : SubjectMatterConfig.t)
    (context : pydict) : M AIResponse.t :=
  let primary := SubjectMatterConfig.primary_model config in
  s <- get_state;;
  match providers s !! AIModelConfig.provider primary with
  | None =>
      raise (AIServiceError ("Provider "
               +:+ provider_value (AIModelConfig.provider primary)
               +:+ " not available"))
  | Some client =>
      user_prompt <- _format_user_prompt (SubjectMatterConfig.subject config) context;;
      retry_loop (Z.to_nat (AIModelConfig.retry_attempts primary)) 0 None
        config client user_prompt context
  end.

Definition _try_fallback_model (subject : SubjectMatter) (context : pydict)
    (config : SubjectMatterConfig.t) : M AIResponse.t :=
  attempt <-
    match SubjectMatterConfig.fallback_model config with
    | Some fallback_model =>
        if decide (AIModelConfig.provider fallback_model = FALLBACK)
        then ret None
        else
          try_except
            (s <- get_state;;
             match providers s !! AIModelConfig.provider fallback_model with
             | Some client =>
                 user_prompt <- _format_user_prompt subject context;;
                 response <- provider_generate_response
                               (AIModelConfig.provider fallback_model) client
                               (SubjectMatterConfig.system_prompt config)
                               user_prompt context;;
                 ret (Some (AIResponse.with_source "fallback_ai" response))
             | None => ret None
             end)
            (fun _ => ret None)
    | None => ret None
    end;;
  match attempt with
  | Some response => ret response
  | None => _get_fallback_response subject context
  end.

(** [AIResponse] called with a dictionary unpacked into keyword arguments:
    a key that names no parameter of [__init__] is a [TypeError], and so
    is the absence of the required [text]. *)
Definition bind_kwargs (keys : list string) : result unit :=
  match find (fun k => negb (bool_decide (k ∈ AIResponse.init_params))) keys with
  | Some k =>
      Raise (TypeError ("AIResponse.__init__() got an unexpected keyword argument '"
                          +:+ k +:+ "'"))
  | None =>
      if bool_decide ("text" ∈ keys) then Ok tt
      else Raise (TypeError
             "AIResponse.__init__() missing 1 required positional argument: 'text'")
  end.

Definition AIResponse_of_dict (d : ResponseDict.t) (created : Z)
  : result AIResponse.t :=
  match bind_kwargs ResponseDict.keys with
  | Ok _ =>
      Ok (AIResponse.mk (ResponseDict.text d) (ResponseDict.animation_type d)
            (ResponseDict.mood d) (ResponseDict.source d)
            (ResponseDict.metadata d) created)
  | Raise e => Raise e
  end.

(** [ai_response.to_dict()] creates a dictionary object. *)
Definition new_dict (d : ResponseDict.t) : M loc :=
  fun s =>
    let l := fresh (dom (heap s)) in
    (Ok l, with_heap (<[l := d]> (heap s)) s).

(** [context] is the dictionary after [context = context or {}].  A cached
    dictionary has six keys, so [if cached_response:] holds whenever the
    lookup returns one; a slot of a started service always refers to a
    dictionary, and the branch for a reference without object is there to
    make the lookup total. *)
Definition generate_response (subject : SubjectMatter) (context : pydict)
    (force_ai : bool) : M AIResponse.t :=
  config <- get_subject_config subject;;
  match config with
  | None => _get_fallback_response subject context
  | Some config =>
      cached <-
        (if negb force_ai && SubjectMatterConfig.cache_responses config
         then get_cached_response (_generate_cache_key subject context)
         else ret None);;
      match cached with
      | Some cached_response =>
          (* cached_response['source'] = 'cache' *)
          modify (fun s =>
            with_heap (alter (ResponseDict.set_source "cache") cached_response
                             (heap s)) s);;;
          s <- get_state;;
          match heap s !! cached_response with
          | Some d =>
              match AIResponse_of_dict d (now s) with
              | Ok response => ret response
              | Raise e => raise e
              end
          | None => raise (KeyError "no object at this reference")
          end
      | None =>
          try_except
            (provider_available <-
               (if negb force_ai
                then check_connectivity
                       (AIModelConfig.provider
                          (SubjectMatterConfig.primary_model config))
                else ret true);;
             if negb provider_available
             then _try_fallback_model subject context config
             else
               ai_response <- _generate_ai_response config context;;
               (if SubjectMatterConfig.cache_responses config
                then
                  d <- new_dict (to_dict ai_response);;
                  cache_response (_generate_cache_key subject context) d
                    (SubjectMatterConfig.cache_duration_hours config)
                else ret tt);;;
               ret ai_response)
            (fun e =>
               match e with
               | AIServiceError _ => _try_fallback_model subject context config
               | _ => _get_fallback_response subject context
               end)
      end
  end.

End Service.

(** ** Start-up: the defaults of [ai_config.py] and the clients of
       [ai_service.py] *)

Definition default_system_prompt (subject : SubjectMatter) : string :=
  match subject with
  | TASK_CREATION =>
      "You are a cheerful Birthday Cake AI assistant helping users create tasks. 
                Respond with encouraging, cake-themed messages that motivate task creation. 
                Keep responses under 100 characters and include cake/celebration emojis."
  | TASK_COMPLETION =>
      "You are an enthusiastic Birthday Cake AI celebrating task completion. 
                Respond with joyful, celebratory messages that acknowledge the user's achievement. 
                Include celebration emojis and cake-themed language."
  | MOTIVATION =>
      "You are a supportive Birthday Cake AI providing motivation. 
                Give encouraging, uplifting messages that inspire productivity. 
                Use sweet, cake-themed metaphors and positive language."
  | CELEBRATION =>
      "You are an excited Birthday Cake AI leading celebrations. 
                Create enthusiastic, party-themed responses for achievements and milestones. 
                Use lots of celebration emojis and festive language."
  | ENCOURAGEMENT =>
      "You are a gentle, supportive Birthday Cake AI offering encouragement. 
                Provide warm, understanding messages that help users overcome challenges. 
                Use comforting, sweet language with cake metaphors."
  | PRODUCTIVITY_TIPS =>
      "You are a wise Birthday Cake AI sharing productivity wisdom. 
                Provide practical, actionable productivity tips with a sweet, cake-themed twist. 
                Make advice memorable and fun."
  | _ => ""
  end.

Definition default_context_template (subject : SubjectMatter) : string :=
  match subject with
  | TASK_CREATION =>
      "User is creating a task: {task_title} with priority {priority} and difficulty {difficulty}"
  | TASK_COMPLETION =>
      "User completed task: {task_title} in {duration} minutes, difficulty {difficulty}, streak: {streak}"
  | MOTIVATION =>
      "User needs motivation. Current streak: {streak}, completed tasks: {completed_tasks}, mood: {mood}"
  | CELEBRATION =>
      "Celebrating: {achievement_type} - {achievement_details}"
  | ENCOURAGEMENT =>
      "User needs encouragement. Challenge: {challenge}, current_state: {state}"
  | PRODUCTIVITY_TIPS =>
      "User asking for productivity help with: {topic}, experience_level: {level}"
  | _ => ""
  end.

(** The subjects that [_create_default_configuration] configures. *)
Definition default_subjects : list SubjectMatter :=
  [TASK_CREATION; TASK_COMPLETION; MOTIVATION; CELEBRATION; ENCOURAGEMENT; PRODUCTIVITY_TIPS].

(** The responses of [_load_fallback_responses], created at [created]. *)
Definition default_fallback_data (created : Z)
  : list (SubjectMatter * list FallbackResponse.t) :=
  [
    (TASK_CREATION,
     [
      FallbackResponse.mk TASK_CREATION (PStr "general") "cheerful"
        "🎂 Wonderful! A new task to celebrate! Let's make this one extra sweet! ✨"
        "bounce" 3 created;
      FallbackResponse.mk TASK_CREATION (PStr "high_priority") "encouraging"
        "🍰 Important task ahead! You've got the skills to make it delicious! 💪"
        "glow" 2 created;
      FallbackResponse.mk TASK_CREATION (PStr "difficult") "supportive"
        "🧁 Challenging tasks make the sweetest victories! I believe in you! 🌟"
        "warm_glow" 2 created
     ]);
    (TASK_COMPLETION,
     [
      FallbackResponse.mk TASK_COMPLETION (PStr "general") "celebratory"
        "🎉 Sweet success! You've earned another slice of productivity! Time to celebrate! 🍰"
        "celebration_bounce" 3 created;
      FallbackResponse.mk TASK_COMPLETION (PStr "streak") "excited"
        "🔥 Amazing streak! You're on a roll that's sweeter than my frosting! 🎊"
        "confetti_explosion" 2 created;
      FallbackResponse.mk TASK_COMPLETION (PStr "difficult") "proud"
        "🏆 Incredible! You conquered that challenge like a true cake master! 👑"
        "victory_dance" 2 created
     ]);
    (MOTIVATION,
     [
      FallbackResponse.mk MOTIVATION (PStr "low_energy") "gentle"
        "🎂 Every expert baker started with their first cupcake! You're doing great! 💕"
        "gentle_sway" 3 created;
      FallbackResponse.mk MOTIVATION (PStr "overwhelmed") "supportive"
        "🍰 Take it one sprinkle at a time! Big cakes are made layer by layer! 🌈"
        "warm_glow" 2 created
     ]);
    (ENCOURAGEMENT,
     [
      FallbackResponse.mk ENCOURAGEMENT (PStr "setback") "understanding"
        "🧁 Even the best bakers have batches that don't turn out perfect. Let's try again! 💪"
        "gentle_bounce" 3 created;
      FallbackResponse.mk ENCOURAGEMENT (PStr "doubt") "reassuring"
        "🎂 You're not behind, you're just preparing for an even sweeter success! ✨"
        "warm_glow" 2 created
     ])
  ].

Definition default_openai (environment : gmap string string) : AIModelConfig.t :=
  AIModelConfig.mk OPENAI "gpt-3.5-turbo"
    (environment !! "OPENAI_API_KEY") (environment !! "OPENAI_API_BASE")
    150 (8 # 10) 10
    AIModelConfig.default_retry_attempts AIModelConfig.default_retry_delay.

Definition fallback_config : AIModelConfig.t :=
  AIModelConfig.mk FALLBACK "static_responses" None None
    AIModelConfig.default_max_tokens AIModelConfig.default_temperature 1
    AIModelConfig.default_retry_attempts AIModelConfig.default_retry_delay.

Definition default_subject_config (environment : gmap string string)
    (subject : SubjectMatter) : SubjectMatterConfig.t :=
  SubjectMatterConfig.mk subject (default_openai environment) (Some fallback_config)
    (default_system_prompt subject) (default_context_template subject)
    "text" 1000 true 24.

(** [AIConfigurationManager()] when no configuration file exists. *)
Definition manager_init (environment : gmap string string) (clock : Z) : State :=
  mkState
    (list_to_map (map (fun subject => (subject, default_subject_config environment subject))
                      default_subjects))
    (list_to_map (default_fallback_data clock))
    (list_to_map (map (fun p => (p, true)) [OPENAI; ANTHROPIC; LOCAL]))
    (list_to_map (map (fun p => (p, clock)) [OPENAI; ANTHROPIC; LOCAL]))
    ∅ ∅ ∅ environment clock O O [].

(** [AIService._initialize_providers]: a client for OpenAI, built from the
    first primary model that names it, is registered when the [openai]
    package can be imported; a failure is logged and leaves no client.
    Subjects are visited here in the order of the enumeration, which is the
    order in which the defaults are inserted. *)
Definition _initialize_providers (openai_importable : bool) (s : State) : State :=
  let openai_configs :=
    omap (fun subject =>
            match subject_configs s !! subject with
            | Some config =>
                let primary := SubjectMatterConfig.primary_model config in
                if decide (AIModelConfig.provider primary = OPENAI)
                then Some primary else None
            | None => None
            end) all_subjects in
  match openai_configs with
  | sample_config :: _ =>
      if openai_importable
      then with_providers (<[OPENAI := sample_config]> (providers s)) s
      else s
  | [] => s
  end.

(** ** The configuration route of [admin.py] *)

(** The JSON body of the request: an absent key is [None]. *)
Record ModelData : Type := mkModelData {
  md_provider : option string;
  md_model_name : option string;
  md_api_key : option (option string);
  md_api_base : option (option string);
  md_max_tokens : option Z;
  md_temperature : option Q;
  md_timeout : option Z
}.

Record UpdateData : Type := mkUpdateData {
  upd_primary_model : option ModelData;
  upd_system_prompt : option string;
  upd_context_template : option string;
  upd_cache_responses : option bool;
  upd_cache_duration_hours : option Z
}.

Record HttpResponse : Type := mkHttp {
  http_status : Z;
  http_success : bool;
  http_message : string
}.

(** The handler changes the stored configuration object field by field and
    then stores it again; no step after the first change can fail, so the
    effect is the single replacement written here.  A provider value outside
    the enumeration is refused before anything is changed.  The primary
    model is rebuilt without [retry_attempts] and [retry_delay], which fall
    back to the defaults of the data class. *)
Definition update_subject_configuration (subject : string) (data : UpdateData)
  : State -> HttpResponse * State :=
  fun s =>
    match subject_of_value subject with
    | None => (mkHttp 422 false "Invalid subject matter", s)
    | Some subject_enum =>
        match subject_configs s !! subject_enum with
        | None => (mkHttp 404 false "Subject configuration not found", s)
        | Some current_config =>
            let current := SubjectMatterConfig.primary_model current_config in
            let new_primary :=
              match upd_primary_model data with
              | None => Some current
              | Some model_data =>
                  match provider_of_value
                          (default (provider_value (AIModelConfig.provider current))
                                   (md_provider model_data)) with
                  | None => None
                  | Some provider =>
                      Some (AIModelConfig.mk provider
                              (default (AIModelConfig.model_name current)
                                       (md_model_name model_data))
                              (default (AIModelConfig.api_key current)
                                       (md_api_key model_data))
                              (default (AIModelConfig.api_base current)
                                       (md_api_base model_data))
                              (default (AIModelConfig.max_tokens current)
                                       (md_max_tokens model_data))
                              (default (AIModelConfig.temperature current)
                                       (md_temperature model_data))
                              (default (AIModelConfig.timeout current)
                                       (md_timeout model_data))
                              AIModelConfig.default_retry_attempts
                              AIModelConfig.default_retry_delay)
                  end
              end in
            match new_primary with
            | None => (mkHttp 422 false "Invalid provider", s)
            | Some primary =>
                let updated :=
                  SubjectMatterConfig.mk
                    (SubjectMatterConfig.subject current_config)
                    primary
                    (SubjectMatterConfig.fallback_model current_config)
                    (default (SubjectMatterConfig.system_prompt current_config)
                             (upd_system_prompt data))
                    (default (SubjectMatterConfig.context_template current_config)
                             (upd_context_template data))
                    (SubjectMatterConfig.response_format current_config)
                    (SubjectMatterConfig.max_context_length current_config)
                    (default (SubjectMatterConfig.cache_responses current_config)
                             (upd_cache_responses data))
                    (default (SubjectMatterConfig.cache_duration_hours current_config)
                             (upd_cache_duration_hours data)) in
                (mkHttp 200 true ("Configuration updated for " +:+ subject),
                 snd (update_subject_config subject_enum updated s))
            end
        end
    end.

(** ** A running instance

    The service started over the defaults with both OpenAI variables set,
    and a model that answers every request with the same sentence. *)

Definition scenario_environ : gmap string string :=
  {[ "OPENAI_API_KEY" := "sk-test"; "OPENAI_API_BASE" := "https://api.openai.com/v1" ]}.

Definition scenario_clock : Z := 1700000000000000.

Definition scenario_state : State :=
  _initialize_providers true (manager_init scenario_environ scenario_clock).

(** The strings of the scenarios are ASCII and their templates hold plain
    fields, so the two tables of the interpreter are never consulted in
    them. *)
Definition no_unicode_table : N -> bool := fun _ => false.

Definition no_decorated_field : ReplacementField -> pydict -> result string :=
  fun _ _ => Raise (ValueError "Invalid format specifier").

Definition answering_env : Env :=
  mkEnv (fun _ _ => mkReply (Completed "Amazing job, keep the streak!" (Some 12)) 800000)
        (fun _ => 0%Q) no_unicode_table no_decorated_field.

(** ** Stored responses

    The responses authored for a subject, and the two conditions every
    response of the repository meets: a weight of at least one and a mood
    that is named.  [_load_fallback_responses] and the responses appended by
    [sync_with_ai] (weight 1, mood taken from [_parse_response_metadata])
    satisfy both. *)

Definition subject_responses (s : State) (subject : SubjectMatter)
  : list FallbackResponse.t :=
  default [] (fallback_responses s !! subject).

Definition weights_ok (s : State) : bool :=
  forallb (fun subject =>
             forallb (fun r => 1 <=? FallbackResponse.weight r)
                     (subject_responses s subject))
          all_subjects.

Definition moods_ok (s : State) : bool :=
  forallb (fun subject =>
             forallb (fun r => negb (String.eqb (FallbackResponse.mood r) ""))
                     (subject_responses s subject))
          all_subjects.

(** The response [sync_with_ai] appends for a live answer to a scenario. *)
Definition synced_response (subject : SubjectMatter) (scenario_context_type : string)
    (response : AIResponse.t) : FallbackResponse.t :=
  FallbackResponse.mk subject (PStr scenario_context_type)
    (AIResponse.mood response) (AIResponse.text response)
    (AIResponse.animation_type response) 1 (AIResponse.timestamp response).

(** ** The two-stage filter, as the specification words it

    First by context tag: if no response matches, the filter is ignored and
    all responses of the subject are used; then by mood: if no candidate
    matches, that filter is ignored too. *)

Definition filter_or_ignore {A} (matches : A -> bool) (candidates : list A) : list A :=
  if existsb matches candidates then List.filter matches candidates else candidates.

Definition two_stage_filter (responses : list FallbackResponse.t)
    (context_tag mood : prim) : list FallbackResponse.t :=
  filter_or_ignore (fun r => str_eq_prim (FallbackResponse.mood r) mood)
    (filter_or_ignore (fun r => py_eq (FallbackResponse.context_type r) context_tag)
       responses).

(** ** What a computation leaves alone

    [quiet s s'] relates the state before a computation to the state after
    when the computation changed neither the configuration, the stored
    responses, the clients, the environment, the connectivity records, the
    cache nor the dictionaries, and logged no connectivity check: only the
    clock, the oracle counters and the trace moved. *)

Definition is_check (e : Event) : bool :=
  match e with
  | EvCheckConnectivity _ => true
  | _ => false
  end.

Record quiet (s s' : State) : Prop := mkQuiet {
  quiet_configs : subject_configs s' = subject_configs s;
  quiet_responses : fallback_responses s' = fallback_responses s;
  quiet_providers : providers s' = providers s;
  quiet_environ : environ s' = environ s;
  quiet_status : connectivity_status s' = connectivity_status s;
  quiet_last : last_sync_attempt s' = last_sync_attempt s;
  quiet_cache : response_cache s' = response_cache s;
  quiet_heap : heap s' = heap s;
  quiet_trace : exists evs, trace s' = trace s ++ evs /\ existsb is_check evs = false
}.

(** The outcomes of a call to a model: a live response or [AIServiceError]. *)
Definition live_outcome (res : result AIResponse.t) : Prop :=
  match res with
  | Ok r => AIResponse.source r = "ai"
  | Raise (AIServiceError _) => True
  | Raise _ => False
  end.

(** The outcomes of the fallback tiers. *)
Definition fallback_outcome (res : result AIResponse.t) : Prop :=
  match res with
  | Ok r => AIResponse.source r = "fallback_ai" \/ AIResponse.source r = "fallback"
  | Raise _ => False
  end.

(** ** Lenient formatting, as the specification words it

    Named context values are substituted into the template and a
    placeholder with no matching key is left as a literal marker.  This is
    said of templates whose replacement fields are plain names. *)








(** ** The live attempt of [generate_response]

    Names for the statements of its [try] block that follow the connectivity
    check, and for its two [except] clauses; [generate_response] above is
    written with these statements in place. *)

Definition attempt_primary (env : Env) (subject : SubjectMatter) (context : pydict)
    (config : SubjectMatterConfig.t) : M AIResponse.t :=
  ai_response <- _generate_ai_response env config context;;
  (if SubjectMatterConfig.cache_responses config
   then
     d <- new_dict (to_dict ai_response);;
     cache_response (_generate_cache_key subject context) d
       (SubjectMatterConfig.cache_duration_hours config)
   else ret tt);;;
  ret ai_response.

Definition on_failure (env : Env) (subject : SubjectMatter) (context : pydict)
    (config : SubjectMatterConfig.t) (e : Exc) : M AIResponse.t :=
  match e with
  | AIServiceError _ => _try_fallback_model env subject context config
  | _ => _get_fallback_response env subject context
  end.

(** The state after the live response [r] was stored under [key] from state
    [s1]: a new dictionary and a cache slot that refers to it. *)
Definition stored (key : CacheKey) (r : AIResponse.t) (hours : Z) (s1 : State) : State :=
  let l := fresh (dom (heap s1)) in
  with_response_cache
    (<[key := mkEntry l (now s1 + hours * microseconds_per_hour)]> (response_cache s1))
    (with_heap (<[l := to_dict r]> (heap s1)) s1).

(** The statements [generate_response] runs on a cache hit. *)
Definition serve_cached (cached_response : loc) : M AIResponse.t :=
  modify (fun s =>
    with_heap (alter (ResponseDict.set_source "cache") cached_response (heap s)) s);;;
  s <- get_state;;
  match heap s !! cached_response with
  | Some d =>
      match AIResponse_of_dict d (now s) with
      | Ok response => ret response
      | Raise e => raise e
      end
  | None => raise (KeyError "no object at this reference")
  end.

(** The error a cache hit ends in. *)
Definition unexpected_timestamp : Exc :=
  TypeError "AIResponse.__init__() got an unexpected keyword argument 'timestamp'".

(** ** The retry schedule

    What a primary model that fails on each of its [attempts] tries leaves in
    the trace: every try but the last is followed by a sleep of
    [retry_delay] times the number of that try, counted from [first]. *)

Definition backoff_from (p : AIProvider) (req : ModelRequest) (retry_delay : Q)
    (first : Z) (attempts : nat) : list Event :=
  match attempts with
  | O => []
  | S retries =>
      flat_map (fun k => [EvCall p req;
                          EvSleep (retry_delay * inject_Z (first + Z.of_nat k))])
               (seq 0 retries)
      ++ [EvCall p req]
  end.

Definition backoff_trace (p : AIProvider) (req : ModelRequest) (retry_delay : Q)
    (attempts : nat) : list Event :=
  backoff_from p req retry_delay 1 attempts.

(** The delays slept, in order. *)
Definition sleeps (evs : list Event) : list Q :=
  omap (fun e => match e with EvSleep d => Some d | _ => None end) evs.


Definition completed (c : Completion) : bool :=
  match c with
  | Completed _ _ => true
  | _ => false
  end.

(** ** A configuration with a second remote model

    The [motivation] subject as a configuration file can describe it: OpenAI
    first, Anthropic as the fallback model. *)




(** A model that refuses its first three calls and answers afterwards. *)
Definition failing_three_times : Env :=
  mkEnv (fun n _ =>
           if (n <? 3)%nat then mkReply (Failed "connection refused") 50000
           else mkReply (Completed "You can do it!" (Some 9)) 700000)
        (fun _ => 0%Q) no_unicode_table no_decorated_field.

(** The [motivation] subject with a second OpenAI model as its fallback
    model; the one OpenAI client serves both. *)
Definition backup_model : AIModelConfig.t :=
  AIModelConfig.mk OPENAI "gpt-4" None None
    AIModelConfig.default_max_tokens AIModelConfig.default_temperature 1
    AIModelConfig.default_retry_attempts AIModelConfig.default_retry_delay.

Definition motivation_with_backup : SubjectMatterConfig.t :=
  SubjectMatterConfig.mk MOTIVATION (default_openai scenario_environ)
    (Some backup_model)
    (default_system_prompt MOTIVATION) (default_context_template MOTIVATION)
    "text" 1000 true 24.

Definition backup_state : State :=
  let configured := manager_init scenario_environ scenario_clock in
  _initialize_providers true
    (with_subject_configs
       (<[MOTIVATION := motivation_with_backup]> (subject_configs configured))
       configured).

(** No remote model stands behind the primary: no fallback model is
    configured, or it names the static provider, or the service holds no
    client for its provider. *)
Definition static_only (s : State) (config : SubjectMatterConfig.t) : Prop :=
  match SubjectMatterConfig.fallback_model config with
  | None => True
  | Some fallback_model =>
      AIModelConfig.provider fallback_model = FALLBACK \/
      providers s !! AIModelConfig.provider fallback_model = None
  end.

(** A model that refuses its first call and answers afterwards. *)
Definition failing_once : Env :=
  mkEnv (fun n _ =>
           if (n <? 1)%nat then mkReply TimedOut 10000000
           else mkReply (Completed "Fantastic, one more step!" (Some 7)) 600000)
        (fun _ => 0%Q) no_unicode_table no_decorated_field.

(** ** [AIService.sync_with_ai] and [AIService.test_connectivity] *)

(** [str(e)] *)
Definition exc_str (env : Env) (e : Exc) : string :=
  match e with
  | AIServiceError msg => msg
  | KeyError key => repr_str (unicode_printable env) key
  | TypeError msg => msg
  | ValueError msg => msg
  | IndexError msg => msg
  | OverflowError msg => msg
  end.

Definition sync_scenarios : list pydict :=
  [[("context_type", PStr "general"); ("mood", PStr "cheerful")];
   [("context_type", PStr "celebration"); ("mood", PStr "excited")];
   [("context_type", PStr "encouragement"); ("mood", PStr "supportive")]].

(** The [for scenario in scenarios] loop for one subject: each scenario is
    generated with [force_ai=True] and a live answer is appended to the
    stored responses with weight 1. *)
Fixpoint sync_scenarios_loop (env : Env) (subject : SubjectMatter)
    (scenarios : list pydict) : M unit :=
  match scenarios with
  | [] => ret tt
  | scenario :: rest =>
      response <- generate_response env subject scenario true;;
      (if String.eqb (AIResponse.source response) "ai"
       then
         match dict_get "context_type" scenario with
         | Some context_type =>
             s <- get_state;;
             add_fallback_response
               (FallbackResponse.mk subject context_type (AIResponse.mood response)
                  (AIResponse.text response) (AIResponse.animation_type response)
                  1 (now s))
         | None => raise (KeyError "context_type")
         end
       else ret tt);;;
      sync_scenarios_loop env subject rest
  end.

(** The [for subject in SubjectMatter] loop; [sync_results] is the
    dictionary built so far.  An exception raised for a subject is recorded
    for it and the loop goes on. *)
Fixpoint sync_subjects (env : Env) (subjects : list SubjectMatter)
    (sync_results : list (string * string)) : M (list (string * string)) :=
  match subjects with
  | [] => ret sync_results
  | subject :: rest =>
      outcome <-
        try_except
          (sync_scenarios_loop env subject sync_scenarios;;; ret "synced")
          (fun e => ret ("error: " +:+ exc_str env e));;
      sync_subjects env rest (sync_results ++ [(subject_value subject, outcome)])
  end.

(** The [force] argument is not used by the method. *)
Definition sync_with_ai (env : Env) (force : bool) : M (list (string * string)) :=
  sync_subjects env all_subjects [].

(** One entry of the dictionary [test_connectivity] returns; the response
    time is the difference of two clock readings, in microseconds. *)
Record ProbeReport : Type := mkProbe {
  probe_status : string;
  probe_error : option string;
  probe_response_time : Z
}.

Fixpoint test_connectivity_loop (env : Env) (remaining : list AIProvider)
    (results : list (string * ProbeReport)) : M (list (string * ProbeReport)) :=
  match remaining with
  | [] => ret results
  | provider :: rest =>
      if decide (provider = FALLBACK)
      then test_connectivity_loop env rest
             (results ++ [(provider_value provider, mkProbe "always_available" None 0)])
      else
        started <- get_state;;
        report <-
          try_except
            (connected <- check_connectivity provider;;
             finished <- get_state;;
             ret (mkProbe (if connected : bool then "connected" else "disconnected") None
                          (now finished - now started)))
            (fun e =>
               finished <- get_state;;
               ret (mkProbe "error" (Some (exc_str env e)) (now finished - now started)));;
        test_connectivity_loop env rest (results ++ [(provider_value provider, report)])
  end.

Definition test_connectivity (env : Env) : M (list (string * ProbeReport)) :=
  test_connectivity_loop env all_providers [].

(** ** More routes of [admin.py] *)

(** The status and message of a route's answer together with the payload
    the properties look at. *)
Record TestAnswer : Type := mkTestAnswer {
  test_http : HttpResponse;
  test_ai_response : option AIResponse.t
}.

(** [test_subject_ai]: [context] and [force_ai] are the keys of the body,
    absent keys being [None]. *)
Definition test_subject_ai (env : Env) (subject : string) (context : option pydict)
    (force_ai : option bool) : State -> TestAnswer * State :=
  fun s =>
    match subject_of_value subject with
    | None => (mkTestAnswer (mkHttp 422 false "Invalid subject matter") None, s)
    | Some subject_enum =>
        let test_context := default [] context in
        let force := default true force_ai in
        match generate_response env subject_enum test_context force s with
        | (Ok ai_response, s') =>
            (mkTestAnswer (mkHttp 200 true ("AI test completed for " +:+ subject))
                          (Some ai_response), s')
        | (Raise e, s') =>
            (mkTestAnswer (mkHttp 500 false "AI test failed") None, s')
        end
    end.

Definition clear_ai_cache : State -> HttpResponse * State :=
  fun s =>
    match clear_cache s with
    | (Ok _, s') => (mkHttp 200 true "AI cache cleared successfully", s')
    | (Raise e, s') => (mkHttp 500 false "Failed to clear cache", s')
    end.

(** [d[k] = v] on a dictionary kept as an association list in insertion
    order: a key that is present keeps its place. *)
Definition dict_set {V} (k : string) (v : V) (d : list (string * V)) : list (string * V) :=
  if existsb (String.eqb k) (map fst d)
  then map (fun kv => if String.eqb (fst kv) k then (k, v) else kv) d
  else d ++ [(k, v)].

Definition name_outcome (subject_name : string) : string :=
  match subject_of_value subject_name with
  | Some _ => "synced"
  | None => "invalid_subject"
  end.

(** [sync_ai_fallbacks]: with a non-empty [subjects] list the route only
    checks the names; otherwise it runs [sync_with_ai]. *)
Definition sync_ai_fallbacks (env : Env) (force : option bool) (subjects : list string)
  : State -> (HttpResponse * list (string * string)) * State :=
  fun s =>
    match subjects with
    | _ :: _ =>
        let sync_results :=
          fold_left
            (fun results subject_name =>
               dict_set subject_name (name_outcome subject_name) results)
            subjects [] in
        ((mkHttp 200 true "AI sync completed", sync_results), s)
    | [] =>
        match sync_with_ai env (default false force) s with
        | (Ok sync_results, s') => ((mkHttp 200 true "AI sync completed", sync_results), s')
        | (Raise e, s') => ((mkHttp 500 false "AI sync failed", []), s')
        end
    end.

(** What one subject's scenarios do to the state. *)
Definition synced_from (subject : SubjectMatter) (bound : nat) (s s' : State) : Prop :=
  weights_ok s' = true /\ moods_ok s' = true /\
  subject_configs s' = subject_configs s /\
  (forall other, other <> subject ->
     subject_responses s' other = subject_responses s other) /\
  exists added,
    subject_responses s' subject = subject_responses s subject ++ added /\
    (length added <= bound)%nat /\
    Forall (fun r => FallbackResponse.weight r = 1 /\
                     FallbackResponse.subject r = subject) added /\
    (subject_configs s !! subject = None -> added = []).

(** The status [test_connectivity] derives from an answer of
    [check_connectivity]. *)
Definition status_of (answer : result bool) : string :=
  match answer with
  | Ok true => "connected"
  | Ok false => "disconnected"
  | Raise _ => "error"
  end.

(** A configuration of [motivation] with five attempts and no delay. *)
Definition patient_state : State :=
  let config := default_subject_config scenario_environ MOTIVATION in
  let primary := SubjectMatterConfig.primary_model config in
  with_subject_configs
    (<[MOTIVATION :=
         SubjectMatterConfig.mk MOTIVATION
           (AIModelConfig.mk (AIModelConfig.provider primary)
              (AIModelConfig.model_name primary) (AIModelConfig.api_key primary)
              (AIModelConfig.api_base primary) (AIModelConfig.max_tokens primary)
              (AIModelConfig.temperature primary) (AIModelConfig.timeout primary)
              5 0)
           (SubjectMatterConfig.fallback_model config)
           (SubjectMatterConfig.system_prompt config)
           (SubjectMatterConfig.context_template config)
           (SubjectMatterConfig.response_format config)
           (SubjectMatterConfig.max_context_length config)
           (SubjectMatterConfig.cache_responses config)
           (SubjectMatterConfig.cache_duration_hours config)]>
       (subject_configs scenario_state))
    scenario_state.

(** ** The responses of [cake.py]

    The functions are embedded as they are written.  The module imports
    [CakePersonality] from [gamification.py], which defines
    [CarrotPersonality] and no class of that name, so as the files stand the
    import fails before any of these functions can be called: what follows
    is said of the function bodies. *)

(** [d.get(k)] on a dictionary kept as an association list. *)
Fixpoint dict_lookup {V} (k : string) (d : list (string * V)) : option V :=
  match d with
  | [] => None
  | (k', v) :: d' => if String.eqb k k' then Some v else dict_lookup k d'
  end.

Definition animations : list (string * string) :=
  [("cheerful", "bounce"); ("encouraging", "glow"); ("excited", "celebration_bounce");
   ("celebratory", "confetti_explosion"); ("gentle", "gentle_sway");
   ("motivating", "pulse"); ("supportive", "warm_glow")].

Definition get_animation_for_mood (mood : string) : string :=
  default "bounce" (dict_lookup mood animations).

Definition subject_mapping : list (string * SubjectMatter) :=
  [("task_created", TASK_CREATION); ("task_completed", TASK_COMPLETION);
   ("task_overdue", MOTIVATION); ("streak_milestone", CELEBRATION);
   ("level_up", CELEBRATION); ("encouragement", ENCOURAGEMENT);
   ("motivation", MOTIVATION); ("productivity_tips", PRODUCTIVITY_TIPS)].

(** The dictionary both response functions return; the static one has no
    [metadata] key. *)
Record CakeResponse : Type := mkCake {
  cake_text : string;
  cake_mood : string;
  cake_animation : string;
  cake_category : string;
  cake_source : string;
  cake_metadata : option pydict
}.

Definition encouragement_responses : list (string * list string) :=
  [("supportive",
    ["🎂 Remember, every expert baker started with their first cupcake! You're doing great! 💪";
     "🍰 Productivity is like baking - it takes time, patience, and lots of love! 💕"])].

Definition CAKE_RESPONSES : list (string * list (string * list string)) :=
  [("task_created",
    [("cheerful",
      ["🎂 Wonderful! A new task to celebrate! Let's make this one extra sweet! ✨";
       "🍰 Oh my! Another delicious challenge awaits! I'm so excited to see you succeed! 🎉"])]);
   ("task_completed",
    [("cheerful",
      ["🎂 Sweet success! You've earned another slice of productivity! Time to celebrate! 🍰";
       "🎉 Magnificent! That task is now perfectly baked and ready to enjoy! Well done! ✨"])]);
   ("encouragement", encouragement_responses)].

(** [random.choice(seq)] where [draw] is the number the generator gives,
    reduced below the length of the sequence. *)
Definition random_choice {A} (draw : nat) (seq : list A) : result A :=
  match seq with
  | [] => Raise (IndexError "Cannot choose from an empty sequence")
  | _ :: _ =>
      match seq !! (draw mod length seq)%nat with
      | Some x => Ok x
      | None => Raise (IndexError "list index out of range")
      end
  end.

Definition get_cake_response_static (draw : nat) (category user_mood : string)
    (user_level : Z) : result CakeResponse :=
  let category_responses :=
    default encouragement_responses (dict_lookup category CAKE_RESPONSES) in
  match map snd category_responses with
  | [] => Raise (IndexError "list index out of range")
  | mood_responses :: _ =>
      match random_choice draw mood_responses with
      | Ok response_text =>
          Ok (mkCake response_text user_mood "bounce" category "static_fallback" None)
      | Raise e => Raise e
      end
  end.

(** The context [get_cake_response_ai] hands to the service: the caller's
    context with four keys set. *)
Definition enhanced_context (category user_mood : string) (user_level : Z)
    (context : pydict) : pydict :=
  dict_set "context_type" (dict_get_default "context_type" (PStr "general") context)
    (dict_set "category" (PStr category)
       (dict_set "user_level" (PInt user_level)
          (dict_set "user_mood" (PStr user_mood) context))).

Definition get_cake_response_ai (env : Env) (draw : nat) (category user_mood : string)
    (user_level : Z) (context : option pydict) : M CakeResponse :=
  let context := default [] context in
  let subject := default ENCOURAGEMENT (dict_lookup category subject_mapping) in
  try_except
    (ai_response <-
       generate_response env subject
         (enhanced_context category user_mood user_level context) false;;
     ret (mkCake (AIResponse.text ai_response) (AIResponse.mood ai_response)
                 (AIResponse.animation_type ai_response) category
                 (AIResponse.source ai_response)
                 (Some (AIResponse.metadata ai_response))))
    (fun _ s => (get_cake_response_static draw category user_mood user_level, s)).

(** ** The gamification methods of [user.py] and [task.py]

    The objects are persisted ones, so their numeric columns hold numbers;
    instants are microseconds as everywhere else. *)

Module User.
Record t : Type := mk {
  total_xp : Z;
  carrot_personality_level : Z;
  current_streak : Z;
  longest_streak : Z;
  last_task_completion : option Z
}.
End User.

Definition microseconds_per_day : Z := 86400000000.

(** [datetime.date()] as a day number. *)
Definition date_of (instant : Z) : Z := instant / microseconds_per_day.

(** [User.update_streak] at the instant [utcnow]. *)
Definition update_streak (utcnow : Z) (self : User.t) : User.t :=
  let current_streak :=
    match User.last_task_completion self with
    | Some last =>
        let days_diff := date_of utcnow - date_of last in
        if days_diff =? 1 then User.current_streak self + 1
        else if 1 <? days_diff then 1
        else User.current_streak self
    | None => 1
    end in
  let longest_streak :=
    if User.longest_streak self <? current_streak
    then current_streak else User.longest_streak self in
  User.mk (User.total_xp self) (User.carrot_personality_level self)
          current_streak longest_streak (Some utcnow).

(** [User.add_xp]: the flag tells whether the level went up. *)
Definition add_xp (amount : Z) (self : User.t) : bool * User.t :=
  let total_xp := User.total_xp self + amount in
  let new_level := Z.min 10 (total_xp / 1000 + 1) in
  if User.carrot_personality_level self <? new_level
  then (true, User.mk total_xp new_level (User.current_streak self)
                      (User.longest_streak self) (User.last_task_completion self))
  else (false, User.mk total_xp (User.carrot_personality_level self)
                       (User.current_streak self) (User.longest_streak self)
                       (User.last_task_completion self)).

Module Task.
Record t : Type := mk {
  status : string;
  completed_at : option Z;
  progress : Z;
  xp_reward : Z;
  bonus_xp : Z
}.
End Task.

(** [Task.mark_completed] on a task and the user it belongs to, if any;
    [utcnow] and [streak_utcnow] are the two readings of the clock, the
    second one made by [update_streak]. *)
Definition mark_completed (utcnow streak_utcnow : Z) (self : Task.t)
    (user : option User.t) : bool * (Task.t * option User.t) :=
  if negb (String.eqb (Task.status self) "completed")
  then
    (true,
     (Task.mk "completed" (Some utcnow) 100 (Task.xp_reward self) (Task.bonus_xp self),
      match user with
      | Some u =>
          Some (update_streak streak_utcnow
                  (snd (add_xp (Task.xp_reward self + Task.bonus_xp self) u)))
      | None => None
      end))
  else (false, (self, user)).

(** A task with its subtasks, each with its own. *)
#[local] Unset Elimination Schemes.
Inductive TaskTree : Type :=
| TaskNode (progress : Z) (subtasks : list TaskTree).
#[local] Set Elimination Schemes.

Fixpoint get_completion_percentage (self : TaskTree) : Z :=
  match self with
  | TaskNode progress subtasks =>
      match subtasks with
      | [] => progress
      | _ :: _ =>
          fold_left (fun total_progress subtask =>
                       total_progress + get_completion_percentage subtask)
                    subtasks progress
          / (Z.of_nat (length subtasks) + 1)
      end
  end.

(** Every progress column of the tree is a percentage. *)
Fixpoint progress_in_range (task : TaskTree) : bool :=
  match task with
  | TaskNode progress subtasks =>
      (0 <=? progress) && (progress <=? 100) && forallb progress_in_range subtasks
  end.

(** * Properties *)

(** ** Weighted choice *)

(** The fuel given to [bisect] does not cut its loop short: any larger
    amount gives the same index. *)
Lemma bisect_fuel_enough fuel extra a x lo hi :
  (hi - lo <= fuel)%nat ->
  bisect (fuel + extra) a x lo hi = bisect fuel a x lo hi.
Proof.
  revert lo hi. induction fuel as [|fuel IH]; intros lo hi Hfuel.
  - destruct extra as [|extra]; cbn [Nat.add bisect]; [done|].
    destruct (Nat.ltb_spec lo hi); [lia|done].
  - cbn [Nat.add bisect]. destruct (Nat.ltb_spec lo hi); [|done]. cbv zeta.
    assert (lo <= (lo + hi) / 2 < hi)%nat as [H1 H2].
    { pose proof (Nat.div_mod_eq (lo + hi) 2).
      pose proof (Nat.mod_upper_bound (lo + hi) 2). lia. }
    destruct (negb _); apply IH; lia.
Qed.

Lemma accumulate_from_length acc ws :
  length (accumulate_from acc ws) = length ws.
Proof. revert acc. induction ws as [|w ws IH]; intros acc; simpl; [done|]. by rewrite IH. Qed.

Lemma last_accumulate_from acc w ws :
  last (accumulate_from acc (w :: ws)) = Some (acc + foldr Z.add 0 (w :: ws)).
Proof.
  revert acc w. induction ws as [|w' ws IH]; intros acc w.
  - simpl. f_equal. lia.
  - change (accumulate_from acc (w :: w' :: ws))
      with ((acc + w) :: accumulate_from (acc + w) (w' :: ws)).
    rewrite last_cons, IH. simpl. f_equal. lia.
Qed.

Lemma bisect_bounds fuel a x lo hi :
  (lo <= hi)%nat ->
  (lo <= bisect fuel a x lo hi <= hi)%nat.
Proof.
  revert lo hi. induction fuel as [|fuel IH]; intros lo hi Hle; cbn [bisect]; [lia|].
  destruct (lo <? hi)%nat eqn:Hlt; [|lia].
  apply Nat.ltb_lt in Hlt. cbv zeta.
  assert (lo <= (lo + hi) / 2 < hi)%nat as [H1 H2].
  { pose proof (Nat.div_mod_eq (lo + hi) 2).
    pose proof (Nat.mod_upper_bound (lo + hi) 2). lia. }
  destruct (negb _).
  - specialize (IH lo ((lo + hi) / 2)%nat H1). lia.
  - assert ((lo + hi) / 2 + 1 <= hi)%nat as H3 by lia.
    specialize (IH _ _ H3). lia.
Qed.

Lemma foldr_add_lower_bound (ws : list Z) :
  Forall (fun w => 1 <= w) ws -> Z.of_nat (length ws) <= foldr Z.add 0 ws.
Proof. induction 1; simpl; lia. Qed.

(** Rounding to 53 bits keeps a positive number positive. *)
Lemma float_significand_pos n : 0 < n -> 0 < float_significand n.
Proof.
  intros Hn. unfold float_significand.
  destruct (Z.leb_spec (Z.log2 n + 1) 53) as [_|Hbits]; [done|].
  set (shift := Z.log2 n + 1 - 53).
  assert (0 < shift <= Z.log2 n) as Hshift by (subst shift; lia).
  assert (1 <= Z.shiftr n shift) as Hq.
  { rewrite Z.shiftr_div_pow2 by lia.
    apply Z.div_le_lower_bound; [apply Z.pow_pos_nonneg; lia|].
    rewrite Z.mul_1_r. destruct (Z.log2_spec n Hn) as [Hlow _].
    etransitivity; [|exact Hlow]. apply Z.pow_le_mono_r; lia. }
  rewrite Z.shiftl_mul_pow2 by lia.
  apply Z.mul_pos_pos; [|apply Z.pow_pos_nonneg; lia].
  destruct (_ || _); lia.
Qed.

Lemma float_of_int_pos n : 0 < n -> 0 < float_of_int n.
Proof.
  intros Hn. unfold float_of_int.
  destruct (Z.ltb_spec n 0); [lia|]. by apply float_significand_pos.
Qed.

Section ChoiceFacts.
Context (env : Env).

(** A draw over a non-empty population whose weights sum to a positive
    total returns a member and uses one random number. *)
Lemma random_choices_ok {A} (population : list A) (weights : list Z) (s : State) :
  population <> [] ->
  length weights = length population ->
  0 < foldr Z.add 0 weights ->
  exists x, x ∈ population /\
            random_choices env population weights s
            = (Ok x, with_draws (S (draws s)) s).
Proof.
  intros Hne Hlen Hpos. unfold random_choices, accumulate.
  rewrite accumulate_from_length, Hlen, Nat.eqb_refl. cbn [negb].
  destruct weights as [|w ws].
  { destruct population; simpl in *; [done|lia]. }
  rewrite last_accumulate_from. rewrite Z.add_0_l.
  pose proof (float_of_int_pos _ Hpos) as Hfloat.
  destruct (Z.leb_spec (float_of_int (foldr Z.add 0 (w :: ws))) 0) as [Hle|_]; [lia|].
  set (i := bisect _ _ _ _ _).
  assert (i <= length population - 1)%nat as Hi.
  { subst i. apply bisect_bounds. lia. }
  assert (i < length population)%nat as Hlt.
  { destruct population; simpl in *; [done|lia]. }
  destruct (lookup_lt_is_Some_2 population i Hlt) as [x Hx].
  exists x. rewrite Hx. split; [|done].
  by eapply list_elem_of_lookup_2.
Qed.
End ChoiceFacts.

(** ** The fallback lookup *)

Lemma all_subjects_complete (subject : SubjectMatter) : In subject all_subjects.
Proof. destruct subject; simpl; tauto. Qed.

Lemma weights_ok_elim s subject r :
  weights_ok s = true -> In r (subject_responses s subject) ->
  1 <= FallbackResponse.weight r.
Proof.
  unfold weights_ok. rewrite forallb_forall. intros H Hin.
  specialize (H subject (all_subjects_complete subject)).
  rewrite forallb_forall in H. apply Z.leb_le. by apply H.
Qed.

Lemma moods_ok_elim s subject r :
  moods_ok s = true -> In r (subject_responses s subject) ->
  FallbackResponse.mood r <> "".
Proof.
  unfold moods_ok. rewrite forallb_forall. intros H Hin.
  specialize (H subject (all_subjects_complete subject)).
  rewrite forallb_forall in H. specialize (H r Hin).
  apply negb_true_iff, String.eqb_neq in H. done.
Qed.

Lemma filter_or_ignore_match {A} (matches : A -> bool) (l : list A) :
  filter_or_ignore matches l
  = match List.filter matches l with [] => l | _ => List.filter matches l end.
Proof.
  unfold filter_or_ignore. destruct (existsb matches l) eqn:E.
  - destruct (List.filter matches l) eqn:F; [|done].
    apply existsb_exists in E as (x & Hin & Hx).
    assert (In x (List.filter matches l)) as Hf by (by apply filter_In).
    rewrite F in Hf. done.
  - destruct (List.filter matches l) as [|a l'] eqn:F; [done|].
    assert (In a (List.filter matches l)) as Hf by (rewrite F; by left).
    apply filter_In in Hf as [Hin Ha].
    assert (existsb matches l = true) by (apply existsb_exists; eauto).
    congruence.
Qed.

Lemma filter_or_ignore_incl {A} (matches : A -> bool) (l : list A) x :
  In x (filter_or_ignore matches l) -> In x l.
Proof.
  unfold filter_or_ignore. destruct (existsb matches l); [|done].
  rewrite filter_In. tauto.
Qed.

Lemma filter_or_ignore_nonempty {A} (matches : A -> bool) (l : list A) :
  l <> [] -> filter_or_ignore matches l <> [].
Proof.
  intros Hne. unfold filter_or_ignore.
  destruct (existsb matches l) eqn:E; [|done].
  apply existsb_exists in E as (x & Hin & Hx).
  intros Hnil. assert (In x (List.filter matches l)) as Hf by (apply filter_In; done).
  rewrite Hnil in Hf. done.
Qed.

Lemma two_stage_filter_incl responses context_tag mood r :
  In r (two_stage_filter responses context_tag mood) -> In r responses.
Proof. intros H. by do 2 apply filter_or_ignore_incl in H. Qed.

Lemma two_stage_filter_nonempty responses context_tag mood :
  responses <> [] -> two_stage_filter responses context_tag mood <> [].
Proof. intros H. by do 2 apply filter_or_ignore_nonempty. Qed.

(** A mood that is false as a condition equals no named mood, so skipping
    the filter for it is the same as applying a filter that matches nothing. *)
Lemma falsy_mood_matches_nothing (mood : prim) (candidates : list FallbackResponse.t) :
  truthy mood = false ->
  (forall r, In r candidates -> FallbackResponse.mood r <> "") ->
  List.filter (fun r => str_eq_prim (FallbackResponse.mood r) mood) candidates = [].
Proof.
  intros Hfalsy Hnamed. induction candidates as [|r l IH]; [done|].
  simpl. destruct (str_eq_prim (FallbackResponse.mood r) mood) eqn:E.
  - exfalso. destruct mood as [| | |m]; simpl in *; try discriminate.
    apply negb_false_iff, String.eqb_eq in Hfalsy. subst m.
    apply String.eqb_eq in E. eapply Hnamed; [by left|done].
  - apply IH. intros r' Hr'. apply Hnamed. by right.
Qed.

Lemma fallback_candidates_two_stage responses context_type mood :
  (forall r, In r responses -> FallbackResponse.mood r <> "") ->
  fallback_candidates responses context_type mood
  = two_stage_filter responses context_type mood.
Proof.
  intros Hnamed. unfold fallback_candidates, two_stage_filter.
  rewrite !filter_or_ignore_match.
  set (by_context := List.filter _ responses).
  set (filtered := match by_context with [] => responses | _ => by_context end).
  destruct (truthy mood) eqn:Hmood; [done|].
  rewrite falsy_mood_matches_nothing; [done|done|].
  intros r Hr. apply Hnamed. subst filtered by_context.
  destruct (List.filter _ responses) eqn:E; [done|].
  rewrite <- E in Hr. apply filter_In in Hr. tauto.
Qed.

(** C8. For every subject, context tag and mood the fallback lookup returns
    a response: the synthesized generic one when nothing is authored for the
    subject, and otherwise a member of the non-empty candidate list obtained
    by filtering on the context tag (all responses when none matches) and
    then on the mood (unfiltered when none matches). *)
Theorem fallback_lookup_nonempty (env : Env) (s : State) (subject : SubjectMatter)
    (context_type mood : prim) :
  weights_ok s = true ->
  moods_ok s = true ->
  exists r,
    get_fallback_response env subject context_type mood s
    = (Ok r, match subject_responses s subject with
             | [] => s
             | _ => with_draws (S (draws s)) s
             end) /\
    match subject_responses s subject with
    | [] => r = generic_fallback subject context_type (now s)
    | responses =>
        two_stage_filter responses context_type mood <> [] /\
        In r (two_stage_filter responses context_type mood)
    end.
Proof.
  intros Hw Hm. unfold get_fallback_response.
  pose proof (fun r => weights_ok_elim s subject r Hw) as Hweights.
  pose proof (fun r => moods_ok_elim s subject r Hm) as Hmoods.
  unfold subject_responses in *.
  destruct (default [] (fallback_responses s !! subject)) as [|r0 rs] eqn:E.
  { eexists. split; reflexivity. }
  rewrite fallback_candidates_two_stage by done.
  assert (two_stage_filter (r0 :: rs) context_type mood <> []) as Hne
    by (by apply two_stage_filter_nonempty).
  destruct (random_choices_ok env (two_stage_filter (r0 :: rs) context_type mood)
              (map FallbackResponse.weight (two_stage_filter (r0 :: rs) context_type mood)) s)
    as (r & Hin & Hrun).
  - done.
  - by rewrite length_map.
  - pose proof (foldr_add_lower_bound
        (map FallbackResponse.weight (two_stage_filter (r0 :: rs) context_type mood))) as Hb.
    rewrite length_map in Hb.
    assert (0 < Z.of_nat (length (two_stage_filter (r0 :: rs) context_type mood))).
    { destruct (two_stage_filter (r0 :: rs) context_type mood); simpl; [done|lia]. }
    enough (Forall (fun w => 1 <= w)
              (map FallbackResponse.weight (two_stage_filter (r0 :: rs) context_type mood)))
      as HF by (specialize (Hb HF); lia).
    apply Forall_forall. intros w Hwin. apply list_elem_of_In, in_map_iff in Hwin.
    destruct Hwin as (r & <- & Hr). apply Hweights.
    by eapply two_stage_filter_incl.
  - exists r. split; [done|]. split; [done|]. by apply list_elem_of_In.
Qed.

Lemma fallback_lookup_nonempty_witness :
  weights_ok scenario_state = true /\ moods_ok scenario_state = true /\
  exists r,
    get_fallback_response answering_env TASK_COMPLETION (PStr "general")
      (PStr "celebratory") scenario_state
    = (Ok r, match subject_responses scenario_state TASK_COMPLETION with
             | [] => scenario_state
             | _ => with_draws (S (draws scenario_state)) scenario_state
             end) /\
    match subject_responses scenario_state TASK_COMPLETION with
    | [] => r = generic_fallback TASK_COMPLETION (PStr "general") (now scenario_state)
    | responses =>
        two_stage_filter responses (PStr "general") (PStr "celebratory") <> [] /\
        In r (two_stage_filter responses (PStr "general") (PStr "celebratory"))
    end.
Proof.
  split; [vm_compute; reflexivity|]. split; [vm_compute; reflexivity|].
  apply (fallback_lookup_nonempty answering_env scenario_state TASK_COMPLETION
           (PStr "general") (PStr "celebratory")); vm_compute; reflexivity.
Defined.

(** ** The response cache *)

Lemma cold_lookup (s : State) (key : CacheKey) :
  response_cache s !! key = None -> get_cached_response key s = (Ok None, s).
Proof. intros H. unfold get_cached_response. by rewrite H. Qed.

(** C9. A cache read never returns an entry whose expiry instant has
    passed; the read removes the entry (and no other), so every later read
    of the key, whatever the clock then shows, is the read of a cache that
    has no such key. *)
Theorem expired_entry_is_purged (s : State) (key : CacheKey) (e : CacheEntry) :
  response_cache s !! key = Some e ->
  entry_expiry e <= now s ->
  fst (get_cached_response key s) = Ok None /\
  response_cache (snd (get_cached_response key s)) = delete key (response_cache s) /\
  heap (snd (get_cached_response key s)) = heap s /\
  forall later : State,
    response_cache later = response_cache (snd (get_cached_response key s)) ->
    get_cached_response key later = (Ok None, later).
Proof.
  intros Hentry Hexpired. unfold get_cached_response at 1 2 3 4. rewrite Hentry.
  destruct (Z.ltb_spec (now s) (entry_expiry e)) as [Hlt|_]; [lia|].
  simpl. repeat split.
  intros later Hsame. apply cold_lookup. rewrite Hsame. apply lookup_delete_eq.
Qed.

Lemma expired_entry_is_purged_witness :
  let key : CacheKey := (MOTIVATION, ∅) in
  let e := mkEntry 1%positive 5 in
  let s := with_response_cache {[ key := e ]} scenario_state in
  fst (get_cached_response key s) = Ok None /\
  response_cache (snd (get_cached_response key s)) = delete key (response_cache s).
Proof.
  intros key e s.
  destruct (expired_entry_is_purged s key e) as (H1 & H2 & _).
  - apply lookup_singleton_eq.
  - vm_compute. discriminate.
  - split; [exact H1|exact H2].
Defined.

(** ** Frame and outcome of each step *)

Lemma quiet_refl s : quiet s s.
Proof. split; try done. exists []. by rewrite app_nil_r. Qed.

Lemma quiet_trans s1 s2 s3 : quiet s1 s2 -> quiet s2 s3 -> quiet s1 s3.
Proof.
  intros [? ? ? ? ? ? ? ? (e1 & H1 & C1)] [? ? ? ? ? ? ? ? (e2 & H2 & C2)].
  split; try congruence.
  exists (e1 ++ e2). rewrite H2, H1, app_assoc. split; [done|].
  rewrite existsb_app, C1, C2. done.
Qed.

Lemma quiet_weights_ok s s' : quiet s s' -> weights_ok s = true -> weights_ok s' = true.
Proof.
  intros Hq H. unfold weights_ok, subject_responses in *.
  by rewrite (quiet_responses _ _ Hq).
Qed.

Ltac run := unfold bind, ret, raise, get_state, modify, try_except in *.

Lemma fallback_candidates_unfold responses context_type mood :
  fallback_candidates responses context_type mood
  = let filtered :=
      filter_or_ignore (fun r => py_eq (FallbackResponse.context_type r) context_type)
                       responses in
    if truthy mood
    then filter_or_ignore (fun r => str_eq_prim (FallbackResponse.mood r) mood) filtered
    else filtered.
Proof. unfold fallback_candidates. by rewrite !filter_or_ignore_match. Qed.

Lemma fallback_candidates_incl responses context_type mood r :
  In r (fallback_candidates responses context_type mood) -> In r responses.
Proof.
  rewrite fallback_candidates_unfold. cbv zeta. destruct (truthy mood); intros H.
  - by do 2 apply filter_or_ignore_incl in H.
  - by apply filter_or_ignore_incl in H.
Qed.

Lemma fallback_candidates_nonempty responses context_type mood :
  responses <> [] -> fallback_candidates responses context_type mood <> [].
Proof.
  intros Hne. rewrite fallback_candidates_unfold. cbv zeta. destruct (truthy mood).
  - by do 2 apply filter_or_ignore_nonempty.
  - by apply filter_or_ignore_nonempty.
Qed.

Section StepFacts.
Context (env : Env).

Lemma get_fallback_response_ok s subject context_type mood :
  weights_ok s = true ->
  exists r s', get_fallback_response env subject context_type mood s = (Ok r, s') /\
               quiet s s' /\ now s' = now s.
Proof.
  intros Hw. unfold get_fallback_response.
  pose proof (fun r => weights_ok_elim s subject r Hw) as Hweights.
  unfold subject_responses in Hweights.
  destruct (default [] (fallback_responses s !! subject)) as [|r0 rs] eqn:E.
  { eexists _, _. split; [done|]. split; [apply quiet_refl|done]. }
  set (candidates := fallback_candidates (r0 :: rs) context_type mood).
  assert (candidates <> []) as Hne by (by apply fallback_candidates_nonempty).
  destruct (random_choices_ok env candidates (map FallbackResponse.weight candidates) s)
    as (r & Hin & Hrun).
  - done.
  - by rewrite length_map.
  - pose proof (foldr_add_lower_bound (map FallbackResponse.weight candidates)) as Hb.
    rewrite length_map in Hb.
    assert (0 < Z.of_nat (length candidates)) by (destruct candidates; simpl; [done|lia]).
    enough (Forall (fun w => 1 <= w) (map FallbackResponse.weight candidates))
      as HF by (specialize (Hb HF); lia).
    apply Forall_forall. intros w Hwin. apply list_elem_of_In, in_map_iff in Hwin.
    destruct Hwin as (r & <- & Hr). apply Hweights.
    by eapply fallback_candidates_incl.
  - exists r, (with_draws (S (draws s)) s). split; [done|]. split; [|done].
    split; try done. exists []. by rewrite app_nil_r.
Qed.

(** The static tier answers with source [fallback] and reason
    [ai_unavailable]. *)
Lemma _get_fallback_response_ok s subject context :
  weights_ok s = true ->
  exists fb s',
    get_fallback_response env subject
      (dict_get_default "context_type" (PStr "general") context)
      (dict_get_default "mood" (PStr "cheerful") context) s = (Ok fb, s') /\
    _get_fallback_response env subject context s
    = (Ok (AIResponse.mk (FallbackResponse.response_text fb)
             (FallbackResponse.animation_type fb) (FallbackResponse.mood fb)
             "fallback"
             [("fallback_reason", PStr "ai_unavailable");
              ("context_type",
               dict_get_default "context_type" (PStr "general") context)]
             (now s)), s') /\
    quiet s s'.
Proof.
  intros Hw.
  destruct (get_fallback_response_ok s subject
              (dict_get_default "context_type" (PStr "general") context)
              (dict_get_default "mood" (PStr "cheerful") context) Hw)
    as (fb & s' & Hrun & Hq & Hnow).
  exists fb, s'. split; [done|]. split; [|done].
  unfold _get_fallback_response. run. rewrite Hrun. simpl. by rewrite Hnow.
Qed.


(** The static tier calls no model, logs nothing and leaves the cache
    alone, whether it returns or not. *)
Lemma _get_fallback_response_counters s subject context :
  let s' := snd (_get_fallback_response env subject context s) in
  calls s' = calls s /\ trace s' = trace s /\ response_cache s' = response_cache s.
Proof.
  unfold _get_fallback_response, get_fallback_response. run.
  destruct (default [] (fallback_responses s !! subject)) as [|r0 rs]; [done|].
  unfold random_choices.
  destruct (negb _); [done|].
  destruct (last _); [|done].
  destruct (_ <=? 0); [done|].
  by destruct (_ !! _).
Qed.

Lemma provider_generate_response_spec p client system_prompt user_prompt context s :
  let req := mkRequest client system_prompt user_prompt context in
  let res := provider_generate_response env p client system_prompt user_prompt context s in
  live_outcome (fst res) /\
  (fst res = Raise (AIServiceError "AI service timeout") \/
   (exists why, fst res = Raise (AIServiceError ("AI generation failed: " +:+ why))) \/
   exists text tokens, completion (model_reply env (calls s) req) = Completed text tokens
                       /\ exists r, fst res = Ok r /\ AIResponse.text r = text) /\
  quiet s (snd res) /\
  trace (snd res) = trace s ++ [EvCall p req] /\
  calls (snd res) = S (calls s) /\
  response_cache (snd res) = response_cache s /\
  heap (snd res) = heap s.
Proof.
  intros req res. subst res. unfold provider_generate_response. fold req.
  assert (forall s', s' = with_now (now s + Z.of_N (elapsed (model_reply env (calls s) req)))
                         (with_calls (S (calls s)) (log (EvCall p req) s)) ->
                     quiet s s') as Hq.
  { intros s' ->. split; try done. exists [EvCall p req]. done. }
  destruct (completion (model_reply env (calls s) req)) as [text tokens| |why].
  - destruct (_parse_response_metadata text) as [mood animation]. simpl.
    repeat split; try done; [|by apply Hq].
    right. right. exists text, tokens. split; [done|]. eexists. split; [done|done].
  - simpl. repeat split; try done; [by left|by apply Hq].
  - simpl. repeat split; try done; [|by apply Hq]. right. left. by exists why.
Qed.

(** Formatting the prompt changes nothing. *)
Lemma _format_user_prompt_frame subject context s :
  snd (_format_user_prompt env subject context s) = s.
Proof.
  unfold _format_user_prompt, get_subject_config. run.
  destruct (subject_configs s !! subject) as [config|]; [|done].
  destruct (String.eqb _ ""); [done|].
  by destruct (str_format env _ context) as [prompt|[]].
Qed.

Lemma _format_user_prompt_eq subject context s :
  _format_user_prompt env subject context s
  = (fst (_format_user_prompt env subject context s), s).
Proof.
  rewrite <- (_format_user_prompt_frame subject context s) at 3.
  by destruct (_format_user_prompt env subject context s).
Qed.

Lemma asyncio_sleep_quiet seconds s :
  quiet s (snd (asyncio_sleep seconds s)).
Proof. split; try done. exists [EvSleep seconds]. done. Qed.

Lemma retry_loop_spec remaining attempt last_error config client user_prompt context s :
  match last_error with Some (AIServiceError _) | None => True | _ => False end ->
  let res := retry_loop env remaining attempt last_error config client
               user_prompt context s in
  live_outcome (fst res) /\ quiet s (snd res).
Proof.
  revert attempt last_error s.
  induction remaining as [|n IH]; intros attempt last_error s Hlast; simpl.
  - split; [|apply quiet_refl]. unfold raise. simpl.
    destruct last_error as [[]|]; done.
  - unfold try_except.
    pose proof (provider_generate_response_spec
                  (AIModelConfig.provider (SubjectMatterConfig.primary_model config))
                  client (SubjectMatterConfig.system_prompt config) user_prompt
                  context s) as (Hlive & _ & Hq & _).
    destruct (provider_generate_response _ _ _ _ _ _ s) as [[r|e] s1]; simpl in *.
    + done.
    + destruct e; try done. unfold bind.
      destruct (attempt <? _).
      * specialize (IH (attempt + 1) (Some (AIServiceError msg))
                       (snd (asyncio_sleep
                               (AIModelConfig.retry_delay
                                  (SubjectMatterConfig.primary_model config)
                                * inject_Z (attempt + 1)) s1)) I).
        simpl in IH. destruct IH as [IH1 IH2]. split; [done|].
        eapply quiet_trans; [exact Hq|].
        eapply quiet_trans; [apply asyncio_sleep_quiet|exact IH2].
      * specialize (IH (attempt + 1) (Some (AIServiceError msg)) s1 I).
        simpl in IH. destruct IH as [IH1 IH2]. split; [done|].
        eapply quiet_trans; [exact Hq|exact IH2].
Qed.

(** The primary tier ends in a live response or in [AIServiceError],
    unless the prompt cannot be formatted: the error of the formatting then
    goes out before any call is made. *)
Lemma _generate_ai_response_spec config context s :
  let res := _generate_ai_response env config context s in
  quiet s (snd res) /\
  (live_outcome (fst res) \/
   exists e,
     fst (_format_user_prompt env (SubjectMatterConfig.subject config) context s)
       = Raise e /\
     res = (Raise e, s)).
Proof.
  unfold _generate_ai_response. run.
  destruct (providers s !! _) as [client|]; simpl;
    [|split; [apply quiet_refl|by left]].
  rewrite (_format_user_prompt_eq (SubjectMatterConfig.subject config) context s).
  destruct (fst (_format_user_prompt env _ context s)) as [prompt|e].
  - destruct (retry_loop_spec (Z.to_nat (AIModelConfig.retry_attempts
                                          (SubjectMatterConfig.primary_model config)))
                0 None config client prompt context s I) as [Hlive Hq].
    split; [exact Hq|by left].
  - split; [apply quiet_refl|]. right. by exists e.
Qed.

Lemma _try_fallback_model_spec subject context config s :
  weights_ok s = true ->
  let res := _try_fallback_model env subject context config s in
  fallback_outcome (fst res) /\ quiet s (snd res).
Proof.
  intros Hw. unfold _try_fallback_model.
  assert (forall s1, quiet s s1 ->
            fallback_outcome (fst (_get_fallback_response env subject context s1)) /\
            quiet s (snd (_get_fallback_response env subject context s1))) as Hstatic.
  { intros s1 Hq.
    destruct (_get_fallback_response_ok s1 subject context) as (fb & s' & _ & -> & Hq').
    - by eapply quiet_weights_ok.
    - simpl. split; [by right|]. by eapply quiet_trans. }
  run.
  destruct (SubjectMatterConfig.fallback_model config) as [fallback_model|];
    [|apply Hstatic, quiet_refl].
  destruct (decide (AIModelConfig.provider fallback_model = FALLBACK));
    [apply Hstatic, quiet_refl|].
  destruct (providers s !! _) as [client|]; [|apply Hstatic, quiet_refl].
  rewrite (_format_user_prompt_eq subject context s).
  destruct (fst (_format_user_prompt env subject context s)) as [prompt|e0];
    [|apply Hstatic, quiet_refl].
  pose proof (provider_generate_response_spec
                (AIModelConfig.provider fallback_model) client
                (SubjectMatterConfig.system_prompt config) prompt context s)
    as (Hlive & _ & Hq & _).
  destruct (provider_generate_response _ _ _ _ _ _ s) as [[r|e] s1]; simpl in *.
  - split; [by left|done].
  - by apply Hstatic.
Qed.

End StepFacts.

(** ** Unconfigured subjects *)

(** C3, as the code has it. For every subject that has no configuration,
    [generate_response] returns the static fallback selected with the
    context's [context_type] (default [general]) and [mood] (default
    [cheerful]); its source is [fallback] and its reason is
    [ai_unavailable], the reason of every static fallback. *)
Theorem unconfigured_subject_static_fallback (env : Env) (s : State)
    (subject : SubjectMatter) (context : pydict) (force_ai : bool) :
  subject_configs s !! subject = None ->
  weights_ok s = true ->
  exists fb s',
    get_fallback_response env subject
      (dict_get_default "context_type" (PStr "general") context)
      (dict_get_default "mood" (PStr "cheerful") context) s = (Ok fb, s') /\
    generate_response env subject context force_ai s
    = (Ok (AIResponse.mk (FallbackResponse.response_text fb)
             (FallbackResponse.animation_type fb) (FallbackResponse.mood fb)
             "fallback"
             [("fallback_reason", PStr "ai_unavailable");
              ("context_type",
               dict_get_default "context_type" (PStr "general") context)]
             (now s)), s').
Proof.
  intros Hconfig Hw.
  destruct (_get_fallback_response_ok env s subject context Hw)
    as (fb & s' & Hlookup & Hrun & _).
  exists fb, s'. split; [done|].
  unfold generate_response, get_subject_config. run. rewrite Hconfig. exact Hrun.
Qed.

Lemma unconfigured_subject_static_fallback_witness :
  exists fb s',
    get_fallback_response answering_env GOAL_SETTING
      (dict_get_default "context_type" (PStr "general") [("mood", PStr "excited")])
      (dict_get_default "mood" (PStr "cheerful") [("mood", PStr "excited")])
      scenario_state = (Ok fb, s') /\
    generate_response answering_env GOAL_SETTING [("mood", PStr "excited")] false
      scenario_state
    = (Ok (AIResponse.mk (FallbackResponse.response_text fb)
             (FallbackResponse.animation_type fb) (FallbackResponse.mood fb)
             "fallback"
             [("fallback_reason", PStr "ai_unavailable");
              ("context_type",
               dict_get_default "context_type" (PStr "general")
                 [("mood", PStr "excited")])]
             (now scenario_state)), s').
Proof.
  apply (unconfigured_subject_static_fallback answering_env scenario_state
           GOAL_SETTING [("mood", PStr "excited")] false);
    vm_compute; reflexivity.
Defined.

(** The claim as stated fails: for the unconfigured subject [goal_setting]
    the reason recorded in the metadata is [ai_unavailable], and no entry of
    the metadata says that the subject is unconfigured. *)
Lemma unconfigured_reason_counterexample :
  subject_configs scenario_state !! GOAL_SETTING = None /\
  exists r,
    fst (generate_response answering_env GOAL_SETTING [] false scenario_state) = Ok r /\
    AIResponse.source r = "fallback" /\
    dict_get "fallback_reason" (AIResponse.metadata r) = Some (PStr "ai_unavailable") /\
    Forall (fun kv => snd kv <> PStr "unconfigured-subject" /\
                      snd kv <> PStr "unconfigured_subject")
           (AIResponse.metadata r).
Proof.
  split; [vm_compute; reflexivity|].
  eexists. split; [vm_compute; reflexivity|].
  split; [reflexivity|]. split; [reflexivity|].
  repeat constructor; simpl; discriminate.
Qed.

(** ** The user prompt *)




Section FirstCall.
Context (env : Env).

(** A loop with an iteration left begins by calling the primary model. *)
Lemma retry_loop_first_call n attempt last_error config client user_prompt context s :
  match last_error with Some (AIServiceError _) | None => True | _ => False end ->
  exists evs,
    trace (snd (retry_loop env (S n) attempt last_error config client
                  user_prompt context s))
    = trace s
        ++ EvCall (AIModelConfig.provider (SubjectMatterConfig.primary_model config))
                  (mkRequest client (SubjectMatterConfig.system_prompt config)
                             user_prompt context) :: evs.
Proof.
  intros Hlast. cbn [retry_loop]. unfold try_except.
  pose proof (provider_generate_response_spec env
                (AIModelConfig.provider (SubjectMatterConfig.primary_model config))
                client (SubjectMatterConfig.system_prompt config) user_prompt
                context s) as (Hlive & _ & _ & Htrace & _).
  destruct (provider_generate_response _ _ _ _ _ _ s) as [[r|e] s1]; simpl in *.
  { exists []. done. }
  destruct e; try done. unfold bind.
  assert (forall s2, quiet s1 s2 ->
            exists evs, trace (snd (retry_loop env n (attempt + 1)
                                      (Some (AIServiceError msg)) config client
                                      user_prompt context s2))
                        = trace s ++ EvCall
                            (AIModelConfig.provider (SubjectMatterConfig.primary_model config))
                            (mkRequest client (SubjectMatterConfig.system_prompt config)
                                       user_prompt context) :: evs) as Hrest.
  { intros s2 Hq.
    pose proof (retry_loop_spec env n (attempt + 1) (Some (AIServiceError msg))
                  config client user_prompt context s2 I) as [_ Hq2].
    destruct (quiet_trace _ _ (quiet_trans _ _ _ Hq Hq2)) as (evs & Hevs & _).
    exists evs. rewrite Hevs, Htrace, <- app_assoc. done. }
  destruct (attempt <? _); simpl.
  - apply Hrest, asyncio_sleep_quiet.
  - apply Hrest, quiet_refl.
Qed.

Lemma _generate_ai_response_first_call s config context client prompt :
  providers s !! AIModelConfig.provider (SubjectMatterConfig.primary_model config)
    = Some client ->
  0 < AIModelConfig.retry_attempts (SubjectMatterConfig.primary_model config) ->
  _format_user_prompt env (SubjectMatterConfig.subject config) context s
    = (Ok prompt, s) ->
  exists evs,
    trace (snd (_generate_ai_response env config context s))
    = trace s
        ++ EvCall (AIModelConfig.provider (SubjectMatterConfig.primary_model config))
                  (mkRequest client (SubjectMatterConfig.system_prompt config)
                             prompt context) :: evs.
Proof.
  intros Hclient Hattempts Hprompt.
  unfold _generate_ai_response. run. rewrite Hclient, Hprompt.
  destruct (Z.to_nat _) as [|n] eqn:E; [lia|].
  by apply retry_loop_first_call.
Qed.

End FirstCall.




(** ** The live attempt *)

Section LiveAttempt.
Context (env : Env).

Lemma generate_response_forced_eq s subject context config :
  subject_configs s !! subject = Some config ->
  generate_response env subject context true s
  = try_except (attempt_primary env subject context config)
               (on_failure env subject context config) s.
Proof.
  intros Hconfig. unfold generate_response, get_subject_config.
  unfold bind at 1. unfold ret at 1. rewrite Hconfig. reflexivity.
Qed.

Lemma generate_response_miss_eq s subject context config force_ai :
  subject_configs s !! subject = Some config ->
  (force_ai = false -> SubjectMatterConfig.cache_responses config = true ->
   response_cache s !! _generate_cache_key subject context = None) ->
  generate_response env subject context force_ai s
  = try_except
      (provider_available <-
         (if negb force_ai
          then check_connectivity
                 (AIModelConfig.provider (SubjectMatterConfig.primary_model config))
          else ret true);;
       if negb provider_available
       then _try_fallback_model env subject context config
       else attempt_primary env subject context config)
      (on_failure env subject context config) s.
Proof.
  intros Hconfig Hcold. unfold generate_response, get_subject_config.
  unfold attempt_primary, on_failure.
  unfold bind at 1. unfold ret at 1. rewrite Hconfig.
  unfold bind at 1.
  destruct force_ai; [reflexivity|]. cbn [negb andb].
  destruct (SubjectMatterConfig.cache_responses config) eqn:E; [|reflexivity].
  rewrite cold_lookup by (by apply Hcold). reflexivity.
Qed.

(** The primary attempt either returns a live response, stored in the cache
    when the subject is eligible, or fails as the primary tier failed and
    with no other change, or fails to compute the expiry after the
    dictionary was made. *)
Lemma attempt_primary_spec s subject context config :
  let res := attempt_primary env subject context config s in
  let key := _generate_cache_key subject context in
  let hours := SubjectMatterConfig.cache_duration_hours config in
  let s1 := snd (_generate_ai_response env config context s) in
  quiet s s1 /\
  match fst res with
  | Ok r =>
      AIResponse.source r = "ai" /\
      fst (_generate_ai_response env config context s) = Ok r /\
      snd res = if SubjectMatterConfig.cache_responses config
                then stored key r hours s1 else s1
  | Raise e =>
      (fst (_generate_ai_response env config context s) = Raise e /\ snd res = s1) \/
      (exists r d,
         fst (_generate_ai_response env config context s) = Ok r /\
         SubjectMatterConfig.cache_responses config = true /\
         e = OverflowError "date value out of range" /\
         snd res = with_heap (<[fresh (dom (heap s1)) := d]> (heap s1)) s1)
  end.
Proof.
  intros res key hours s1. subst res s1. unfold attempt_primary. run.
  pose proof (_generate_ai_response_spec env config context s) as [Hq Hlive].
  destruct (_generate_ai_response env config context s) as [[r|e] s1]; simpl in *.
  - split; [done|].
    assert (AIResponse.source r = "ai") as Hsrc.
    { destruct Hlive as [H|(e & _ & H)]; [exact H|discriminate H]. }
    destruct (SubjectMatterConfig.cache_responses config) eqn:Hcache; [|done].
    unfold new_dict, cache_response. cbn [now with_heap].
    fold hours. destruct (_ && _); simpl; [done|]. right. by eexists _, _.
  - split; [done|]. by left.
Qed.

Lemma on_failure_spec s subject context config e :
  weights_ok s = true ->
  let res := on_failure env subject context config e s in
  fallback_outcome (fst res) /\ quiet s (snd res).
Proof.
  intros Hw. unfold on_failure.
  assert (fallback_outcome (fst (_get_fallback_response env subject context s)) /\
          quiet s (snd (_get_fallback_response env subject context s))) as Hstatic.
  { destruct (_get_fallback_response_ok env s subject context Hw)
      as (fb & s' & _ & -> & Hq). simpl. split; [by right|done]. }
  destruct e; try exact Hstatic. by apply _try_fallback_model_spec.
Qed.

(** After the primary attempt and its handlers: a response whose source is
    [ai], [fallback_ai] or [fallback]; nothing but the cache, the
    dictionaries, the clock and the counters changed, and no connectivity
    check was logged. *)
Lemma try_primary_spec s subject context config :
  weights_ok s = true ->
  let res := try_except (attempt_primary env subject context config)
                        (on_failure env subject context config) s in
  (exists r, fst res = Ok r /\
     (AIResponse.source r = "ai" \/ AIResponse.source r = "fallback_ai" \/
      AIResponse.source r = "fallback")) /\
  subject_configs (snd res) = subject_configs s /\
  fallback_responses (snd res) = fallback_responses s /\
  connectivity_status (snd res) = connectivity_status s /\
  last_sync_attempt (snd res) = last_sync_attempt s /\
  exists evs, trace (snd res) = trace s ++ evs /\ existsb is_check evs = false.
Proof.
  intros Hw res. subst res. unfold try_except.
  pose proof (attempt_primary_spec s subject context config) as (Hq & Hres).
  set (s1 := snd (_generate_ai_response env config context s)) in *.
  destruct (attempt_primary env subject context config s) as [[r|e] s2].
  - simpl in *. destruct Hres as (Hsrc & _ & ->). split; [exists r; auto|].
    destruct Hq. destruct (SubjectMatterConfig.cache_responses config); done.
  - simpl in Hres.
    assert (weights_ok s2 = true /\ subject_configs s2 = subject_configs s /\
            fallback_responses s2 = fallback_responses s /\
            connectivity_status s2 = connectivity_status s /\
            last_sync_attempt s2 = last_sync_attempt s /\
            exists evs, trace s2 = trace s ++ evs /\ existsb is_check evs = false)
      as (Hw2 & Hc & Hf & Hst & Hl & evs & Hevs & Hno).
    { destruct Hres as [[_ ->]|(r & d & _ & _ & _ & ->)].
      - split; [by eapply quiet_weights_ok|]. by destruct Hq.
      - split.
        + unfold weights_ok, subject_responses in *. simpl.
          by rewrite (quiet_responses _ _ Hq).
        + by destruct Hq. }
    pose proof (on_failure_spec s2 subject context config e Hw2) as [Hout Hq2].
    destruct (on_failure env subject context config e s2) as [[r|e'] s3]; simpl in *;
      [|done].
    split; [exists r; split; [done|tauto]|].
    destruct Hq2 as [? ? ? ? ? ? ? ? (evs2 & Hevs2 & Hno2)].
    repeat split; try congruence.
    exists (evs ++ evs2). rewrite Hevs2, Hevs, app_assoc. split; [done|].
    by rewrite existsb_app, Hno, Hno2.
Qed.

(** The trace of the whole attempt extends the trace of the primary
    attempt. *)
Lemma try_primary_trace s subject context config :
  weights_ok s = true ->
  exists evs,
    trace (snd (try_except (attempt_primary env subject context config)
                           (on_failure env subject context config) s))
    = trace (snd (_generate_ai_response env config context s)) ++ evs.
Proof.
  intros Hw. unfold try_except.
  pose proof (attempt_primary_spec s subject context config) as (Hq & Hres).
  set (s1 := snd (_generate_ai_response env config context s)) in *.
  destruct (attempt_primary env subject context config s) as [[r|e] s2].
  - simpl in *. destruct Hres as (_ & _ & ->). exists [].
    rewrite app_nil_r. by destruct (SubjectMatterConfig.cache_responses config).
  - simpl in Hres.
    assert (weights_ok s2 = true /\ trace s2 = trace s1) as [Hw2 Ht].
    { destruct Hres as [[_ ->]|(r & d & _ & _ & _ & ->)].
      - split; [by eapply quiet_weights_ok|done].
      - split; [|done].
        unfold weights_ok, subject_responses in *. simpl.
        by rewrite (quiet_responses _ _ Hq). }
    pose proof (on_failure_spec s2 subject context config e Hw2) as [_ Hq2].
    destruct (quiet_trace _ _ Hq2) as (evs & Hevs & _).
    exists evs. simpl. by rewrite Hevs, Ht.
Qed.

End LiveAttempt.

(** ** Forced generation *)

(** C7, as the code has it. With [force_ai] set, [generate_response]
    returns a response whose source is never [cache], whatever the cache
    holds, and it performs no connectivity check (the records are untouched
    and none is logged).  It attempts the primary model, and does so first,
    when the subject is configured, the service holds a client for the
    provider of the primary model, the primary allows an attempt and the
    prompt can be formatted.  For a subject that is not configured no model
    is called: the response is the static one. *)
Theorem force_ai_bypasses_cache_and_check (env : Env) (s : State)
    (subject : SubjectMatter) (context : pydict) :
  weights_ok s = true ->
  let res := generate_response env subject context true s in
  (exists r, fst res = Ok r /\ AIResponse.source r <> "cache") /\
  connectivity_status (snd res) = connectivity_status s /\
  last_sync_attempt (snd res) = last_sync_attempt s /\
  (exists evs, trace (snd res) = trace s ++ evs /\ existsb is_check evs = false) /\
  (forall config client prompt,
     subject_configs s !! subject = Some config ->
     providers s !! AIModelConfig.provider (SubjectMatterConfig.primary_model config)
       = Some client ->
     0 < AIModelConfig.retry_attempts (SubjectMatterConfig.primary_model config) ->
     _format_user_prompt env (SubjectMatterConfig.subject config) context s
       = (Ok prompt, s) ->
     exists evs,
       trace (snd res)
       = trace s
           ++ EvCall (AIModelConfig.provider (SubjectMatterConfig.primary_model config))
                     (mkRequest client (SubjectMatterConfig.system_prompt config)
                                prompt context) :: evs) /\
  (subject_configs s !! subject = None ->
   (exists r, fst res = Ok r /\ AIResponse.source r = "fallback") /\
   calls (snd res) = calls s /\
   trace (snd res) = trace s).
Proof.
  intros Hw res. subst res.
  destruct (subject_configs s !! subject) as [config|] eqn:Hconfig.
  - rewrite (generate_response_forced_eq env s subject context config Hconfig).
    pose proof (try_primary_spec env s subject context config Hw)
      as ((r & Hr & Hsrc) & _ & _ & Hst & Hl & Hevs).
    split.
    { exists r. split; [done|]. intros Hcache. rewrite Hcache in Hsrc.
      destruct Hsrc as [?|[?|?]]; discriminate. }
    do 3 (split; [done|]). split; [|discriminate].
    intros config' client prompt Heq Hclient Hattempts Hprompt. injection Heq as <-.
    destruct (_generate_ai_response_first_call env s config context client prompt
                Hclient Hattempts Hprompt) as (evs1 & Hfirst).
    destruct (try_primary_trace env s subject context config Hw) as (evs2 & Hrest).
    exists (evs1 ++ evs2).
    rewrite Hrest, Hfirst, <- app_assoc. reflexivity.
  - assert (generate_response env subject context true s
            = _get_fallback_response env subject context s) as ->.
    { unfold generate_response, get_subject_config. run. by rewrite Hconfig. }
    pose proof (_get_fallback_response_counters env s subject context)
      as (Hcalls & Htrace & _).
    destruct (_get_fallback_response_ok env s subject context Hw)
      as (fb & s' & _ & Hrun & Hq).
    rewrite Hrun in *. cbn [fst snd] in *.
    split; [eexists; split; [reflexivity|simpl; discriminate]|].
    destruct Hq. do 3 (split; [done|]). split; [discriminate|].
    intros _. split; [|done]. eexists. split; reflexivity.
Qed.

Lemma force_ai_bypasses_cache_and_check_witness :
  let written := snd (generate_response answering_env MOTIVATION [] false scenario_state) in
  is_Some (response_cache written !! _generate_cache_key MOTIVATION []) /\
  exists r,
    fst (generate_response answering_env MOTIVATION [] true written) = Ok r /\
    AIResponse.source r <> "cache".
Proof.
  intros written. split.
  - vm_compute. eexists. reflexivity.
  - apply (force_ai_bypasses_cache_and_check answering_env written MOTIVATION []).
    vm_compute. reflexivity.
Defined.

(** The claim as stated fails: [goal_setting] has no configuration in a
    service started over the defaults, and a forced call for it ends in the
    static response without a single call to a model, although the model
    would have answered. *)
Lemma forced_call_without_model_counterexample :
  let res := generate_response answering_env GOAL_SETTING [] true scenario_state in
  subject_configs scenario_state !! GOAL_SETTING = None /\
  (forall n req, completed (completion (model_reply answering_env n req)) = true) /\
  (exists r, fst res = Ok r /\ AIResponse.source r = "fallback") /\
  calls (snd res) = O /\
  trace (snd res) = [].
Proof.
  intros res. split; [vm_compute; reflexivity|]. split; [done|].
  split; [eexists; split; vm_compute; reflexivity|].
  split; vm_compute; reflexivity.
Qed.

(** ** Cache hits *)

Lemma bind_kwargs_to_dict : bind_kwargs ResponseDict.keys = Raise unexpected_timestamp.
Proof. vm_compute. reflexivity. Qed.

Lemma serve_cached_raises l s :
  exists e, fst (serve_cached l s) = Raise e.
Proof.
  unfold serve_cached. run. cbn [heap with_heap].
  destruct (alter _ l (heap s) !! l); [|by eexists].
  unfold AIResponse_of_dict. rewrite bind_kwargs_to_dict. by eexists.
Qed.

Section CacheHit.
Context (env : Env).

Lemma generate_response_unforced_eq s subject context config :
  subject_configs s !! subject = Some config ->
  generate_response env subject context false s
  = match (if SubjectMatterConfig.cache_responses config
           then get_cached_response (_generate_cache_key subject context) s
           else (Ok None, s)) with
    | (Ok (Some l), s0) => serve_cached l s0
    | (Ok None, s0) =>
        try_except
          (provider_available <-
             check_connectivity
               (AIModelConfig.provider (SubjectMatterConfig.primary_model config));;
           if negb provider_available
           then _try_fallback_model env subject context config
           else attempt_primary env subject context config)
          (on_failure env subject context config) s0
    | (Raise e, s0) => (Raise e, s0)
    end.
Proof.
  intros Hconfig. unfold generate_response, get_subject_config.
  unfold attempt_primary, on_failure, serve_cached.
  unfold bind at 1. unfold ret at 1. rewrite Hconfig.
  unfold bind at 1. cbn [negb andb].
  destruct (SubjectMatterConfig.cache_responses config); [|reflexivity].
  destruct (get_cached_response _ s) as [[[l|]|e] s0]; reflexivity.
Qed.

(** On a hit the stored dictionary is relabelled and the constructor then
    rejects its [timestamp] key. *)
Lemma cache_hit_run s subject context config e d :
  subject_configs s !! subject = Some config ->
  SubjectMatterConfig.cache_responses config = true ->
  response_cache s !! _generate_cache_key subject context = Some e ->
  now s < entry_expiry e ->
  heap s !! entry_response e = Some d ->
  generate_response env subject context false s
  = (Raise unexpected_timestamp,
     with_heap (<[entry_response e := ResponseDict.set_source "cache" d]> (heap s)) s).
Proof.
  intros Hconfig Heligible Hentry Hfresh Hdict.
  rewrite (generate_response_unforced_eq s subject context config Hconfig), Heligible.
  unfold get_cached_response. rewrite Hentry.
  destruct (Z.ltb_spec (now s) (entry_expiry e)) as [_|?]; [|lia].
  unfold serve_cached. run. cbn [heap with_heap].
  rewrite lookup_alter_eq, Hdict. cbn [fmap option_fmap option_map].
  unfold AIResponse_of_dict. rewrite bind_kwargs_to_dict.
  f_equal. f_equal. apply map_eq. intros l.
  destruct (decide (entry_response e = l)) as [<-|Hne].
  - by rewrite lookup_alter_eq, lookup_insert_eq, Hdict.
  - by rewrite lookup_alter_ne, lookup_insert_ne.
Qed.

End CacheHit.

(** C10. A cache hit is not a pure read: when [generate_response] finds an
    unexpired entry, the dictionary the cache refers to is changed in place,
    its [source] becoming [cache] whatever was recorded when it was written;
    the slot itself, the other dictionaries and the rest of the state are
    as before. *)
Theorem cache_hit_relabels_stored_entry (env : Env) (s : State)
    (subject : SubjectMatter) (context : pydict) (config : SubjectMatterConfig.t)
    (e : CacheEntry) (d : ResponseDict.t) :
  subject_configs s !! subject = Some config ->
  SubjectMatterConfig.cache_responses config = true ->
  response_cache s !! _generate_cache_key subject context = Some e ->
  now s < entry_expiry e ->
  heap s !! entry_response e = Some d ->
  let s' := snd (generate_response env subject context false s) in
  response_cache s' !! _generate_cache_key subject context = Some e /\
  heap s' !! entry_response e = Some (ResponseDict.set_source "cache" d) /\
  (exists stored_dict,
     heap s' !! entry_response e = Some stored_dict /\
     ResponseDict.source stored_dict = "cache" /\
     ResponseDict.text stored_dict = ResponseDict.text d) /\
  s' = with_heap (<[entry_response e := ResponseDict.set_source "cache" d]> (heap s)) s.
Proof.
  intros Hconfig Heligible Hentry Hfresh Hdict s'. subst s'.
  rewrite (cache_hit_run env s subject context config e d) by done.
  cbn [snd response_cache heap with_heap]. rewrite lookup_insert_eq.
  split; [done|]. split; [done|]. split; [|done].
  eexists. split; [reflexivity|]. done.
Qed.

Lemma cache_hit_relabels_stored_entry_witness :
  let written := snd (generate_response answering_env MOTIVATION [] false scenario_state) in
  exists e d,
    response_cache written !! _generate_cache_key MOTIVATION [] = Some e /\
    heap written !! entry_response e = Some d /\
    ResponseDict.source d = "ai" /\
    heap (snd (generate_response answering_env MOTIVATION [] false written))
      !! entry_response e = Some (ResponseDict.set_source "cache" d).
Proof.
  intros written.
  eexists _, _. split; [vm_compute; reflexivity|].
  split; [vm_compute; reflexivity|]. split; [reflexivity|].
  eapply (cache_hit_relabels_stored_entry answering_env written MOTIVATION []
            (default_subject_config scenario_environ MOTIVATION));
    vm_compute; reflexivity.
Defined.

(** ** Two calls in a row *)

Lemma get_cached_response_frame key s :
  subject_configs (snd (get_cached_response key s)) = subject_configs s /\
  fallback_responses (snd (get_cached_response key s)) = fallback_responses s /\
  providers (snd (get_cached_response key s)) = providers s /\
  calls (snd (get_cached_response key s)) = calls s /\
  trace (snd (get_cached_response key s)) = trace s.
Proof.
  unfold get_cached_response. destruct (response_cache s !! key); [|done].
  by destruct (now s <? _).
Qed.

Lemma check_connectivity_frame p s :
  exists b, fst (check_connectivity p s) = Ok b /\
    subject_configs (snd (check_connectivity p s)) = subject_configs s /\
    fallback_responses (snd (check_connectivity p s)) = fallback_responses s /\
    providers (snd (check_connectivity p s)) = providers s /\
    response_cache (snd (check_connectivity p s)) = response_cache s /\
    heap (snd (check_connectivity p s)) = heap s /\
    calls (snd (check_connectivity p s)) = calls s /\
    trace (snd (check_connectivity p s)) = trace s ++ [EvCheckConnectivity p].
Proof.
  unfold check_connectivity. destruct (decide (p = FALLBACK)); [by eexists|].
  cbn [now log last_sync_attempt]. destruct (_ <? five_minutes); by eexists.
Qed.

Lemma weights_ok_same_responses s s' :
  fallback_responses s' = fallback_responses s -> weights_ok s = true ->
  weights_ok s' = true.
Proof. intros H. unfold weights_ok, subject_responses. by rewrite H. Qed.

Section TwoCalls.
Context (env : Env).

(** A call that returns a live response for a cache-eligible subject leaves
    it stored under the key of the call. *)
Lemma live_result_stored s subject context config r :
  subject_configs s !! subject = Some config ->
  SubjectMatterConfig.cache_responses config = true ->
  weights_ok s = true ->
  fst (generate_response env subject context false s) = Ok r ->
  AIResponse.source r = "ai" ->
  exists s1,
    snd (generate_response env subject context false s)
    = stored (_generate_cache_key subject context) r
             (SubjectMatterConfig.cache_duration_hours config) s1 /\
    subject_configs s1 = subject_configs s.
Proof.
  intros Hconfig Heligible Hw.
  rewrite (generate_response_unforced_eq env s subject context config Hconfig), Heligible.
  pose proof (get_cached_response_frame (_generate_cache_key subject context) s)
    as (Hc0 & Hf0 & _).
  destruct (get_cached_response _ s) as [[[l|]|e] s0]; simpl in Hc0, Hf0.
  - destruct (serve_cached_raises l s0) as [e He]. rewrite He. discriminate.
  - unfold try_except, bind.
    destruct (check_connectivity_frame
                (AIModelConfig.provider (SubjectMatterConfig.primary_model config)) s0)
      as (b & Hb & Hc1 & Hf1 & _).
    destruct (check_connectivity _ s0) as [res1 s1]. simpl in Hb, Hc1, Hf1. subst res1.
    assert (weights_ok s1 = true) as Hw1.
    { eapply weights_ok_same_responses; [|exact Hw]. congruence. }
    assert (forall e s2, fallback_responses s2 = fallback_responses s1 ->
              fst (on_failure env subject context config e s2) = Ok r ->
              AIResponse.source r = "ai" -> False) as Hfail.
    { intros e s2 Hf2 Hres Hsrc.
      pose proof (on_failure_spec env s2 subject context config e
                    (weights_ok_same_responses _ _ Hf2 Hw1)) as [Hout _].
      rewrite Hres in Hout. simpl in Hout. rewrite Hsrc in Hout.
      destruct Hout; discriminate. }
    destruct b; cbn [negb].
    + pose proof (attempt_primary_spec env s1 subject context config) as (Hq & Hres).
      destruct (attempt_primary env subject context config s1) as [[r'|e] s2];
        simpl in Hres |- *.
      * destruct Hres as (_ & _ & ->). intros [= ->] _. rewrite Heligible.
        eexists. split; [reflexivity|]. rewrite (quiet_configs _ _ Hq). congruence.
      * intros Hr Hsrc. exfalso. apply (Hfail e s2); [|done|done].
        destruct Hres as [(_ & ->)|(r' & d & _ & _ & _ & ->)];
          cbn [fallback_responses with_heap]; by destruct Hq.
    + pose proof (_try_fallback_model_spec env subject context config s1 Hw1)
        as [Hout Hq].
      destruct (_try_fallback_model env subject context config s1) as [[r'|e] s2];
        simpl in Hout |- *; [|done].
      intros [= ->] Hsrc. rewrite Hsrc in Hout. destruct Hout; discriminate.
  - discriminate.
Qed.

End TwoCalls.

(** C2, evaluated on the code. After a call that returned a live
    response for a cache-eligible subject, the response is in the cache with
    the text of the first call and an expiry one time-to-live later; an
    identical call made before that expiry finds it, and ends in a
    [TypeError] instead of returning it with source [cache]. *)
Theorem second_call_raises_on_cached_entry (env : Env) (s : State)
    (subject : SubjectMatter) (context : pydict) (config : SubjectMatterConfig.t)
    (r1 : AIResponse.t) (t : Z) :
  subject_configs s !! subject = Some config ->
  SubjectMatterConfig.cache_responses config = true ->
  weights_ok s = true ->
  fst (generate_response env subject context false s) = Ok r1 ->
  AIResponse.source r1 = "ai" ->
  let s1 := snd (generate_response env subject context false s) in
  now s1 <= t <
    now s1 + SubjectMatterConfig.cache_duration_hours config * microseconds_per_hour ->
  (exists e d,
     response_cache s1 !! _generate_cache_key subject context = Some e /\
     heap s1 !! entry_response e = Some d /\
     ResponseDict.text d = AIResponse.text r1 /\
     t < entry_expiry e) /\
  fst (generate_response env subject context false (with_now t s1))
  = Raise unexpected_timestamp.
Proof.
  intros Hconfig Heligible Hw Hfirst Hsrc s1 Ht. subst s1.
  destruct (live_result_stored env s subject context config r1
              Hconfig Heligible Hw Hfirst Hsrc) as (s1 & Hs1 & Hc1).
  rewrite Hs1 in *. unfold stored in *. cbn [now with_response_cache with_heap] in Ht.
  split.
  - eexists _, _. cbn [response_cache heap with_response_cache with_heap].
    rewrite lookup_insert_eq. split; [reflexivity|]. cbn [entry_response entry_expiry].
    rewrite lookup_insert_eq. split; [reflexivity|]. split; [reflexivity|lia].
  - erewrite cache_hit_run; [reflexivity| | | | |].
    + cbn [subject_configs with_now with_response_cache with_heap]. by rewrite Hc1.
    + done.
    + cbn [response_cache with_now with_response_cache with_heap].
      apply lookup_insert_eq.
    + cbn [now with_now entry_expiry]. lia.
    + cbn [heap with_now with_response_cache with_heap entry_response].
      apply lookup_insert_eq.
Qed.

Lemma second_call_raises_on_cached_entry_witness :
  let s1 := snd (generate_response answering_env MOTIVATION [] false scenario_state) in
  fst (generate_response answering_env MOTIVATION [] false
         (with_now (now s1 + microseconds_per_hour) s1))
  = Raise unexpected_timestamp.
Proof.
  intros s1.
  eapply (second_call_raises_on_cached_entry answering_env scenario_state MOTIVATION []
            (default_subject_config scenario_environ MOTIVATION));
    vm_compute; try reflexivity.
  split; [discriminate|reflexivity].
Defined.

(** C1, evaluated on the code. The service started over its defaults, with
    a model that answers: the first call for [motivation] returns the live
    response, and the same call repeated raises [TypeError] to its caller. *)
Theorem generate_response_raises_on_repeat :
  let first := generate_response answering_env MOTIVATION [] false scenario_state in
  (exists r, fst first = Ok r /\ AIResponse.source r = "ai") /\
  fst (generate_response answering_env MOTIVATION [] false (snd first))
  = Raise unexpected_timestamp.
Proof. vm_compute. split; [eexists; split; reflexivity|reflexivity]. Qed.

(** ** The administrative update *)

Lemma subject_of_value_value subject : subject_of_value (subject_value subject) = Some subject.
Proof. by destruct subject. Qed.

Lemma provider_of_value_value p : provider_of_value (provider_value p) = Some p.
Proof. by destruct p. Qed.

(** C4, evaluated on the code. An update that carries only a temperature,
    whatever its value, is answered with status 200 and applied: the
    subject's primary model has that temperature afterwards. *)
Theorem temperature_update_is_applied_unchecked (s : State) (subject : SubjectMatter)
    (config : SubjectMatterConfig.t) (temperature : Q) :
  subject_configs s !! subject = Some config ->
  let data :=
    mkUpdateData
      (Some (mkModelData None None None None None (Some temperature) None))
      None None None None in
  let res := update_subject_configuration (subject_value subject) data s in
  http_status (fst res) = 200 /\
  http_success (fst res) = true /\
  exists updated,
    get_subject_config subject (snd res) = (Ok (Some updated), snd res) /\
    AIModelConfig.temperature (SubjectMatterConfig.primary_model updated) = temperature.
Proof.
  intros Hconfig data res. subst res data. unfold update_subject_configuration.
  rewrite subject_of_value_value, Hconfig. cbn [upd_primary_model md_provider default].
  rewrite provider_of_value_value. cbn [fst snd http_status http_success].
  split; [done|]. split; [done|].
  eexists. unfold get_subject_config, update_subject_config, modify.
  cbn [snd subject_configs with_subject_configs].
  rewrite lookup_insert_eq. split; reflexivity.
Qed.

Lemma temperature_update_is_applied_unchecked_witness :
  let data :=
    mkUpdateData (Some (mkModelData None None None None None (Some 5%Q) None))
                 None None None None in
  let res := update_subject_configuration "task_creation" data scenario_state in
  ~ (0 <= 5 <= 2)%Q /\
  http_status (fst res) = 200 /\
  exists updated,
    get_subject_config TASK_CREATION (snd res) = (Ok (Some updated), snd res) /\
    AIModelConfig.temperature (SubjectMatterConfig.primary_model updated) = 5%Q.
Proof.
  intros data res.
  split; [intros [_ H]; vm_compute in H; by apply H|].
  destruct (temperature_update_is_applied_unchecked scenario_state TASK_CREATION
              (default_subject_config scenario_environ TASK_CREATION) 5%Q)
    as (H1 & _ & H2).
  - vm_compute. reflexivity.
  - split; [exact H1|exact H2].
Defined.

(** ** Retries and the fallback model *)

Lemma backoff_from_step p req retry_delay first m :
  backoff_from p req retry_delay first (S (S m))
  = EvCall p req :: EvSleep (retry_delay * inject_Z first)
      :: backoff_from p req retry_delay (first + 1) (S m).
Proof.
  unfold backoff_from. rewrite <- cons_seq. cbn [flat_map app].
  rewrite Z.add_0_r. do 2 f_equal. f_equal.
  rewrite <- seq_shift, flat_map_concat_map, map_map, <- flat_map_concat_map.
  apply flat_map_ext. intros k.
  by replace (first + Z.of_nat (S k)) with (first + 1 + Z.of_nat k) by lia.
Qed.


Lemma backoff_sleeps p req retry_delay first n :
  sleeps (backoff_from p req retry_delay first n)
  = map (fun k => (retry_delay * inject_Z (first + Z.of_nat k))%Q) (seq 0 (n - 1)).
Proof.
  revert first. induction n as [|[|m] IH]; intros first.
  - done.
  - done.
  - rewrite backoff_from_step. unfold sleeps in *. cbn [omap list_omap].
    rewrite IH. cbn [Nat.sub]. rewrite Nat.sub_0_r, <- cons_seq. cbn [map].
    rewrite Z.add_0_r. f_equal.
    rewrite <- seq_shift, map_map. apply map_ext. intros k.
    by replace (first + Z.of_nat (S k)) with (first + 1 + Z.of_nat k) by lia.
Qed.


Section Retries.
Context (env : Env).

Lemma provider_call_fails p client system_prompt user_prompt context s :
  completed (completion (model_reply env (calls s)
               (mkRequest client system_prompt user_prompt context))) = false ->
  exists msg s1,
    provider_generate_response env p client system_prompt user_prompt context s
    = (Raise (AIServiceError msg), s1) /\
    quiet s s1 /\
    trace s1 = trace s ++ [EvCall p (mkRequest client system_prompt user_prompt context)] /\
    calls s1 = S (calls s).
Proof.
  intros Hfail.
  pose proof (provider_generate_response_spec env p client system_prompt user_prompt
                context s) as (_ & _ & Hq & Ht & Hc & _).
  unfold provider_generate_response in *.
  destruct (completion _) as [text tokens| |why]; [done| |]; eexists _, _; done.
Qed.

Lemma provider_call_answers p client system_prompt user_prompt context s :
  completed (completion (model_reply env (calls s)
               (mkRequest client system_prompt user_prompt context))) = true ->
  exists r s1,
    provider_generate_response env p client system_prompt user_prompt context s
    = (Ok r, s1) /\
    quiet s s1 /\
    trace s1 = trace s ++ [EvCall p (mkRequest client system_prompt user_prompt context)].
Proof.
  intros Hanswer.
  pose proof (provider_generate_response_spec env p client system_prompt user_prompt
                context s) as (_ & _ & Hq & Ht & _).
  unfold provider_generate_response in *.
  destruct (completion _) as [text tokens| |why]; [|done|done].
  destruct (_parse_response_metadata text). eexists _, _. done.
Qed.


End Retries.


Section FallbackModel.
Context (env : Env).


End FallbackModel.




(** ** When [generate_response] does return

    Apart from a cache hit, every path ends in a response: with the stored
    weights positive, a forced call, a call for a subject that is not
    cache-eligible and a call that misses the cache all return one. *)

Section Returns.
Context (env : Env).

Lemma generate_response_returns_without_hit s subject context force_ai :
  weights_ok s = true ->
  (forall config,
     subject_configs s !! subject = Some config ->
     force_ai = false -> SubjectMatterConfig.cache_responses config = true ->
     response_cache s !! _generate_cache_key subject context = None) ->
  exists r, fst (generate_response env subject context force_ai s) = Ok r /\
            AIResponse.source r <> "cache".
Proof.
  intros Hw Hcold.
  assert (forall r, AIResponse.source r = "ai" \/ AIResponse.source r = "fallback_ai"
                    \/ AIResponse.source r = "fallback" ->
                    AIResponse.source r <> "cache") as Hne.
  { intros r [H|[H|H]]; rewrite H; discriminate. }
  destruct (subject_configs s !! subject) as [config|] eqn:Hconfig.
  - rewrite (generate_response_miss_eq env s subject context config force_ai Hconfig
               (Hcold config eq_refl)).
    destruct force_ai; cbn [negb].
    + destruct (try_primary_spec env s subject context config Hw)
        as ((r & Hr & Hsrc) & _). exists r. split; [exact Hr|by apply Hne].
    + unfold try_except at 1, bind.
      destruct (check_connectivity_frame
                  (AIModelConfig.provider (SubjectMatterConfig.primary_model config)) s)
        as (b & Hb & _ & Hf & _).
      destruct (check_connectivity _ s) as [res0 s0]. simpl in Hb, Hf. subst res0.
      pose proof (weights_ok_same_responses _ _ Hf Hw) as Hw0.
      destruct b; cbn [negb].
      * destruct (try_primary_spec env s0 subject context config Hw0)
          as ((r & Hr & Hsrc) & _). exists r. split; [exact Hr|by apply Hne].
      * pose proof (_try_fallback_model_spec env subject context config s0 Hw0)
          as [Hout _].
        destruct (_try_fallback_model env subject context config s0) as [[r|e] s1];
          simpl in Hout |- *; [|done].
        exists r. split; [done|]. apply Hne. tauto.
  - assert (generate_response env subject context force_ai s
            = _get_fallback_response env subject context s) as ->.
    { unfold generate_response, get_subject_config. run. by rewrite Hconfig. }
    destruct (_get_fallback_response_ok env s subject context Hw)
      as (fb & s' & _ & -> & _).
    eexists. split; [reflexivity|]. simpl. discriminate.
Qed.

End Returns.

(** ** The stored responses stay well formed *)

Lemma manager_init_store_ok environment clock :
  weights_ok (manager_init environment clock) = true /\
  moods_ok (manager_init environment clock) = true.
Proof. split; vm_compute; reflexivity. Qed.

Lemma parsed_mood_named response_text :
  fst (_parse_response_metadata response_text) <> "".
Proof.
  unfold _parse_response_metadata.
  repeat (destruct (any_word_in _ _); [simpl; discriminate|]). simpl. discriminate.
Qed.

Lemma forallb_subject_responses_insert (ok : FallbackResponse.t -> bool) s response :
  forallb (fun subject => forallb ok (subject_responses s subject)) all_subjects = true ->
  ok response = true ->
  forallb (fun subject =>
             forallb ok (subject_responses
                           (snd (add_fallback_response response s)) subject))
          all_subjects = true.
Proof.
  rewrite !forallb_forall. intros Hall Hok subject Hin.
  unfold add_fallback_response, modify, subject_responses.
  cbn [snd fallback_responses with_fallback_responses].
  destruct (decide (FallbackResponse.subject response = subject)) as [<-|Hne].
  - rewrite lookup_insert_eq. unfold default at 1. cbn [from_option id].
    rewrite forallb_app.
    specialize (Hall _ Hin). unfold subject_responses in Hall. rewrite Hall.
    simpl. by rewrite Hok.
  - rewrite lookup_insert_ne by done. by apply Hall.
Qed.

(** Appending what [sync_with_ai] derives from a live response keeps the
    weights positive and the moods named. *)
Lemma synced_response_keeps_store_ok s subject scenario_context_type response :
  weights_ok s = true -> moods_ok s = true ->
  AIResponse.mood response <> "" ->
  let s' := snd (add_fallback_response
                   (synced_response subject scenario_context_type response) s) in
  weights_ok s' = true /\ moods_ok s' = true.
Proof.
  intros Hw Hm Hmood s'. subst s'. split.
  - by apply forallb_subject_responses_insert.
  - apply forallb_subject_responses_insert; [done|].
    cbn [synced_response FallbackResponse.mood].
    by apply negb_true_iff, String.eqb_neq.
Qed.

(** ** Connectivity records *)

(** X1. Within five minutes of the last check of a provider,
    [check_connectivity] answers with the recorded status ([False] when none
    is recorded) and probes nothing: the records stay as they are, whatever
    the environment holds. *)
Theorem check_connectivity_within_cooldown (s : State) (provider : AIProvider) (last : Z) :
  provider <> FALLBACK ->
  last_sync_attempt s !! provider = Some last ->
  now s - last < five_minutes ->
  fst (check_connectivity provider s)
    = Ok (default false (connectivity_status s !! provider)) /\
  connectivity_status (snd (check_connectivity provider s)) = connectivity_status s /\
  last_sync_attempt (snd (check_connectivity provider s)) = last_sync_attempt s.
Proof.
  intros Hp Hlast Hwin. unfold check_connectivity.
  rewrite decide_False by done. cbn [now log last_sync_attempt connectivity_status].
  rewrite Hlast. cbn [default from_option id].
  destruct (Z.ltb_spec (now s - last) five_minutes); [done|lia].
Qed.

Lemma check_connectivity_within_cooldown_witness :
  let s := with_now (scenario_clock + 299999999)
             (manager_init ∅ scenario_clock) in
  fst (check_connectivity OPENAI s) = Ok true /\
  environ s !! "OPENAI_API_KEY" = None.
Proof.
  intros s. split; [|reflexivity].
  destruct (check_connectivity_within_cooldown s OPENAI scenario_clock) as (H & _).
  - discriminate.
  - vm_compute. reflexivity.
  - vm_compute. reflexivity.
  - exact H.
Defined.

(** X2. Once five minutes have passed since the last check (or when none
    is recorded), the provider is probed: OpenAI is reachable exactly when
    both [OPENAI_API_KEY] and [OPENAI_API_BASE] are set and non-empty, any
    other remote provider is reachable; the outcome and the instant are
    recorded, so the same question asked again at that instant gets the
    same answer from the record. *)
Theorem check_connectivity_probes_after_cooldown (s : State) (provider : AIProvider) :
  provider <> FALLBACK ->
  five_minutes <= now s - default datetime_min (last_sync_attempt s !! provider) ->
  let connected :=
    if decide (provider = OPENAI)
    then env_nonempty "OPENAI_API_KEY" s && env_nonempty "OPENAI_API_BASE" s
    else true in
  let s' := snd (check_connectivity provider s) in
  fst (check_connectivity provider s) = Ok connected /\
  connectivity_status s' !! provider = Some connected /\
  last_sync_attempt s' !! provider = Some (now s) /\
  (forall other, other <> provider ->
     connectivity_status s' !! other = connectivity_status s !! other /\
     last_sync_attempt s' !! other = last_sync_attempt s !! other) /\
  fst (check_connectivity provider s') = Ok connected.
Proof.
  intros Hp Hwin connected s'. subst s'.
  assert (check_connectivity provider s
          = (Ok connected,
             with_connectivity (<[provider := connected]> (connectivity_status s))
               (<[provider := now s]> (last_sync_attempt s))
               (log (EvCheckConnectivity provider) s))) as ->.
  { unfold check_connectivity. rewrite decide_False by done.
    cbn [now log last_sync_attempt connectivity_status].
    destruct (Z.ltb_spec (now s - default datetime_min (last_sync_attempt s !! provider))
                five_minutes); [lia|done]. }
  cbn [fst snd connectivity_status last_sync_attempt with_connectivity].
  rewrite !lookup_insert_eq. split; [done|]. split; [done|]. split; [done|]. split.
  - intros other Hne. by rewrite !lookup_insert_ne.
  - unfold check_connectivity. rewrite decide_False by done.
    cbn [now log last_sync_attempt connectivity_status with_connectivity].
    rewrite !lookup_insert_eq. cbn [default from_option id].
    rewrite Z.sub_diag. done.
Qed.

Lemma check_connectivity_probes_after_cooldown_witness :
  let s := with_now (scenario_clock + five_minutes) (manager_init ∅ scenario_clock) in
  fst (check_connectivity OPENAI s) = Ok false /\
  connectivity_status (snd (check_connectivity OPENAI s)) !! OPENAI = Some false.
Proof.
  intros s.
  destruct (check_connectivity_probes_after_cooldown s OPENAI) as (H1 & H2 & _).
  - discriminate.
  - vm_compute. discriminate.
  - split; [exact H1|exact H2].
Defined.

(** X3. A service started at some instant treats every remote provider as
    reachable for the next five minutes, also when no credential is set:
    the start-up records say so and no probe is made before they age. *)
Theorem providers_reachable_after_startup (environment : gmap string string)
    (clock t : Z) (provider : AIProvider) :
  clock <= t < clock + five_minutes ->
  fst (check_connectivity provider (with_now t (manager_init environment clock)))
  = Ok true.
Proof.
  intros Ht. unfold check_connectivity.
  destruct (decide (provider = FALLBACK)); [done|].
  cbn [now log with_now last_sync_attempt connectivity_status manager_init].
  assert (list_to_map (map (fun p => (p, clock)) [OPENAI; ANTHROPIC; LOCAL])
            !! provider = Some clock /\
          (list_to_map (map (fun p => (p, true)) [OPENAI; ANTHROPIC; LOCAL])
             : gmap AIProvider bool) !! provider = Some true) as [-> ->].
  { destruct provider; try done; split; reflexivity. }
  cbn [default from_option id].
  destruct (Z.ltb_spec (t - clock) five_minutes); [done|lia].
Qed.

Lemma providers_reachable_after_startup_witness :
  fst (check_connectivity OPENAI
         (with_now (scenario_clock + 1000000) (manager_init ∅ scenario_clock)))
  = Ok true.
Proof.
  apply (providers_reachable_after_startup ∅ scenario_clock
           (scenario_clock + 1000000) OPENAI).
  vm_compute. split; discriminate || reflexivity.
Defined.

(** ** Writing and reading the cache *)

(** X4. What [cache_response] stores under a key, [get_cached_response]
    returns for that key at every instant before the write instant plus the
    duration, and the read changes nothing; entries under other keys are
    not affected by the write. *)
Theorem cached_response_read_back (s : State) (key : CacheKey) (response : loc)
    (duration_hours t : Z) :
  datetime_min <= now s + duration_hours * microseconds_per_hour <= datetime_max ->
  t < now s + duration_hours * microseconds_per_hour ->
  let written := snd (cache_response key response duration_hours s) in
  fst (cache_response key response duration_hours s) = Ok tt /\
  get_cached_response key (with_now t written) = (Ok (Some response), with_now t written) /\
  forall other, other <> key ->
    response_cache written !! other = response_cache s !! other.
Proof.
  intros Hrange Ht written. subst written. unfold cache_response.
  destruct (Z.leb_spec datetime_min (now s + duration_hours * microseconds_per_hour));
    [|lia].
  destruct (Z.leb_spec (now s + duration_hours * microseconds_per_hour) datetime_max);
    [|lia].
  cbn [andb fst snd]. split; [done|]. split.
  - unfold get_cached_response.
    cbn [response_cache with_now with_response_cache now].
    rewrite lookup_insert_eq. cbn [entry_expiry entry_response].
    destruct (Z.ltb_spec t (now s + duration_hours * microseconds_per_hour)); [done|lia].
  - intros other Hne. cbn [response_cache with_response_cache].
    by rewrite lookup_insert_ne.
Qed.

Lemma cached_response_read_back_witness :
  let key : CacheKey := _generate_cache_key MOTIVATION [("mood", PStr "gentle")] in
  let written := snd (cache_response key 7%positive 24 scenario_state) in
  get_cached_response key (with_now (scenario_clock + 23 * microseconds_per_hour) written)
  = (Ok (Some 7%positive), with_now (scenario_clock + 23 * microseconds_per_hour) written).
Proof.
  intros key written.
  destruct (cached_response_read_back scenario_state key 7%positive 24
              (scenario_clock + 23 * microseconds_per_hour)) as (_ & H & _).
  - vm_compute. split; discriminate.
  - vm_compute. reflexivity.
  - exact H.
Defined.

(** X5. A duration of zero hours or less stores an entry that is already
    expired: the very next read, even at the write instant, misses and
    removes it. *)
Theorem nonpositive_duration_never_hits (s : State) (key : CacheKey) (response : loc)
    (duration_hours t : Z) :
  duration_hours <= 0 ->
  datetime_min <= now s + duration_hours * microseconds_per_hour ->
  now s <= datetime_max ->
  now s <= t ->
  let written := snd (cache_response key response duration_hours s) in
  is_Some (response_cache written !! key) /\
  fst (get_cached_response key (with_now t written)) = Ok None /\
  response_cache (snd (get_cached_response key (with_now t written))) !! key = None.
Proof.
  intros Hdur Hmin Hmax Ht written. subst written. unfold cache_response.
  assert (duration_hours * microseconds_per_hour <= 0) as Hneg.
  { unfold microseconds_per_hour. lia. }
  destruct (Z.leb_spec datetime_min (now s + duration_hours * microseconds_per_hour));
    [|lia].
  destruct (Z.leb_spec (now s + duration_hours * microseconds_per_hour) datetime_max);
    [|lia].
  cbn [andb snd response_cache with_response_cache].
  split; [rewrite lookup_insert_eq; by eexists|].
  unfold get_cached_response. cbn [response_cache with_now with_response_cache now].
  rewrite lookup_insert_eq. cbn [entry_expiry].
  destruct (Z.ltb_spec t (now s + duration_hours * microseconds_per_hour)); [lia|].
  cbn [fst snd response_cache with_response_cache]. split; [done|].
  apply lookup_delete_eq.
Qed.

Lemma nonpositive_duration_never_hits_witness :
  let key : CacheKey := _generate_cache_key MOTIVATION [] in
  let written := snd (cache_response key 7%positive 0 scenario_state) in
  fst (get_cached_response key written) = Ok None.
Proof.
  intros key written.
  destruct (nonpositive_duration_never_hits scenario_state key 7%positive 0
              scenario_clock) as (_ & H & _).
  - lia.
  - vm_compute. discriminate.
  - vm_compute. discriminate.
  - vm_compute. discriminate.
  - exact H.
Defined.

(** ** Added responses *)

Lemma moods_ok_same_responses s s' :
  fallback_responses s' = fallback_responses s -> moods_ok s = true ->
  moods_ok s' = true.
Proof. intros H. unfold moods_ok, subject_responses. by rewrite H. Qed.

Lemma add_fallback_response_responses s response subject :
  subject_responses (snd (add_fallback_response response s)) subject
  = if decide (FallbackResponse.subject response = subject)
    then subject_responses s subject ++ [response]
    else subject_responses s subject.
Proof.
  unfold add_fallback_response, modify, subject_responses.
  cbn [snd fallback_responses with_fallback_responses].
  destruct (decide (FallbackResponse.subject response = subject)) as [<-|Hne].
  - by rewrite lookup_insert_eq.
  - by rewrite lookup_insert_ne.
Qed.

(** X6. A response added for a subject for which nothing was authored is
    what the lookup returns for that subject from then on, for every
    context type and mood asked for, provided its weight is positive: the
    synthesized generic response is no longer used. *)
Theorem added_response_replaces_generic (env : Env) (s : State)
    (response : FallbackResponse.t) (context_type mood : prim) :
  subject_responses s (FallbackResponse.subject response) = [] ->
  0 < FallbackResponse.weight response ->
  let s' := snd (add_fallback_response response s) in
  fst (get_fallback_response env (FallbackResponse.subject response) context_type mood s)
    = Ok (generic_fallback (FallbackResponse.subject response) context_type (now s)) /\
  fst (get_fallback_response env (FallbackResponse.subject response) context_type mood s')
    = Ok response.
Proof.
  intros Hnone Hweight s'.
  pose proof (add_fallback_response_responses s response
                (FallbackResponse.subject response)) as Hadd.
  rewrite decide_True in Hadd by done.
  fold s' in Hadd. rewrite Hnone in Hadd. cbn [app] in Hadd.
  unfold get_fallback_response. unfold subject_responses in Hnone, Hadd.
  rewrite Hnone, Hadd. split; [done|].
  assert (fallback_candidates [response] context_type mood = [response]) as ->.
  { rewrite fallback_candidates_unfold. cbv zeta.
    assert (forall f, filter_or_ignore f [response] = [response]) as Hone.
    { intros f. unfold filter_or_ignore. cbn [existsb List.filter].
      by destruct (f response). }
    rewrite !Hone. by destruct (truthy mood). }
  cbn [map].
  destruct (random_choices_ok env [response] [FallbackResponse.weight response] s')
    as (x & Hx & ->); [done|done|simpl; lia|].
  apply list_elem_of_singleton in Hx. by subst x.
Qed.

Lemma added_response_replaces_generic_witness :
  let response := FallbackResponse.mk GOAL_SETTING (PStr "general") "cheerful"
                    "Set one goal at a time!" "bounce" 1 scenario_clock in
  fst (get_fallback_response answering_env GOAL_SETTING (PStr "streak") (PStr "excited")
         (snd (add_fallback_response response scenario_state)))
  = Ok response.
Proof.
  intros response.
  destruct (added_response_replaces_generic answering_env scenario_state response
              (PStr "streak") (PStr "excited")) as (_ & H).
  - vm_compute. reflexivity.
  - vm_compute. reflexivity.
  - exact H.
Defined.

(** ** The selected response *)

Lemma filter_or_ignore_all_match {A} (matches : A -> bool) (l : list A) x :
  existsb matches l = true -> In x (filter_or_ignore matches l) -> matches x = true.
Proof.
  unfold filter_or_ignore. intros ->. rewrite filter_In. tauto.
Qed.

Lemma get_fallback_response_member env s subject context_type mood r0 rs :
  subject_responses s subject = r0 :: rs ->
  Forall (fun r => 1 <= FallbackResponse.weight r) (r0 :: rs) ->
  exists r, fst (get_fallback_response env subject context_type mood s) = Ok r /\
            In r (fallback_candidates (r0 :: rs) context_type mood).
Proof.
  intros Hrs Hw. unfold get_fallback_response. unfold subject_responses in Hrs.
  rewrite Hrs.
  set (candidates := fallback_candidates (r0 :: rs) context_type mood).
  assert (candidates <> []) as Hne by (by apply fallback_candidates_nonempty).
  destruct (random_choices_ok env candidates (map FallbackResponse.weight candidates) s)
    as (r & Hin & Hrun).
  - done.
  - by rewrite length_map.
  - pose proof (foldr_add_lower_bound (map FallbackResponse.weight candidates)) as Hb.
    rewrite length_map in Hb.
    assert (0 < Z.of_nat (length candidates)) by (destruct candidates; simpl; [done|lia]).
    enough (Forall (fun w => 1 <= w) (map FallbackResponse.weight candidates))
      as HF by (specialize (Hb HF); lia).
    apply Forall_forall. intros w Hwin. apply list_elem_of_In, in_map_iff in Hwin.
    destruct Hwin as (r & <- & Hr).
    rewrite Forall_forall in Hw. apply Hw, list_elem_of_In.
    by eapply fallback_candidates_incl.
  - exists r. rewrite Hrun. split; [done|]. by apply list_elem_of_In.
Qed.

(** X7. When some response authored for the subject has the context type
    asked for, the response selected has that context type; when, for a mood
    that is given, some response has both the context type and the mood, the
    response selected has both. *)
Theorem selected_response_matches_request (env : Env) (s : State)
    (subject : SubjectMatter) (context_type mood : prim) :
  Forall (fun r => 1 <= FallbackResponse.weight r) (subject_responses s subject) ->
  existsb (fun r => py_eq (FallbackResponse.context_type r) context_type)
          (subject_responses s subject) = true ->
  exists r,
    fst (get_fallback_response env subject context_type mood s) = Ok r /\
    In r (subject_responses s subject) /\
    py_eq (FallbackResponse.context_type r) context_type = true /\
    (truthy mood = true ->
     existsb (fun r' => py_eq (FallbackResponse.context_type r') context_type
                        && str_eq_prim (FallbackResponse.mood r') mood)
             (subject_responses s subject) = true ->
     str_eq_prim (FallbackResponse.mood r) mood = true).
Proof.
  intros Hw Hctx.
  destruct (subject_responses s subject) as [|r0 rs] eqn:Hrs; [done|].
  destruct (get_fallback_response_member env s subject context_type mood r0 rs Hrs Hw)
    as (r & Hrun & Hin).
  exists r. split; [done|]. split; [by eapply fallback_candidates_incl|].
  rewrite fallback_candidates_unfold in Hin. cbv zeta in Hin.
  set (by_context := filter_or_ignore _ (r0 :: rs)) in Hin.
  assert (forall x, In x by_context ->
            py_eq (FallbackResponse.context_type x) context_type = true) as Hall.
  { intros x Hx.
    apply (filter_or_ignore_all_match
             (fun r => py_eq (FallbackResponse.context_type r) context_type)
             (r0 :: rs) x Hctx Hx). }
  split.
  - destruct (truthy mood); [apply filter_or_ignore_incl in Hin|]; by apply Hall.
  - intros Hmood Hboth. rewrite Hmood in Hin.
    apply (filter_or_ignore_all_match
             (fun r => str_eq_prim (FallbackResponse.mood r) mood) by_context r);
      [|exact Hin].
    apply existsb_exists in Hboth as (x & Hx & Hxb).
    apply andb_true_iff in Hxb as [Hxc Hxm].
    apply existsb_exists. exists x. split; [|done].
    subst by_context. unfold filter_or_ignore. rewrite Hctx.
    apply filter_In. done.
Qed.

Lemma selected_response_matches_request_witness :
  exists r,
    fst (get_fallback_response answering_env TASK_CREATION (PStr "difficult")
           (PStr "supportive") scenario_state) = Ok r /\
    FallbackResponse.animation_type r = "warm_glow".
Proof.
  destruct (selected_response_matches_request answering_env scenario_state
              TASK_CREATION (PStr "difficult") (PStr "supportive"))
    as (r & Hr & _).
  - vm_compute. repeat constructor; discriminate.
  - vm_compute. reflexivity.
  - exists r. split; [exact Hr|].
    vm_compute in Hr. injection Hr as <-. reflexivity.
Defined.

(** ** What reaches the cache *)

Lemma try_except_bind_ok {A B} (c : M A) (k : A -> M B) (h : Exc -> M B) s a s0 :
  c s = (Ok a, s0) ->
  try_except (bind c k) h s = try_except (k a) h s0.
Proof. intros H. unfold try_except, bind. by rewrite H. Qed.

Section CacheWrites.
Context (env : Env).

Lemma try_primary_cache s subject context config :
  weights_ok s = true ->
  let res := try_except (attempt_primary env subject context config)
                        (on_failure env subject context config) s in
  exists r, fst res = Ok r /\
    ((AIResponse.source r = "ai" /\
      fst (_generate_ai_response env config context s) = Ok r /\
      snd res = if SubjectMatterConfig.cache_responses config
                then stored (_generate_cache_key subject context) r
                       (SubjectMatterConfig.cache_duration_hours config)
                       (snd (_generate_ai_response env config context s))
                else snd (_generate_ai_response env config context s)) \/
     (AIResponse.source r <> "ai" /\ response_cache (snd res) = response_cache s)).
Proof.
  intros Hw res. subst res. unfold try_except.
  pose proof (attempt_primary_spec env s subject context config) as (Hq & Hres).
  set (s1 := snd (_generate_ai_response env config context s)) in *.
  destruct (attempt_primary env subject context config s) as [[r|e] s2].
  - simpl in *. destruct Hres as (Hsrc & Hgen & ->). exists r. split; [done|].
    left. done.
  - simpl in Hres.
    assert (weights_ok s2 = true /\ response_cache s2 = response_cache s) as [Hw2 Hc2].
    { destruct Hres as [(_ & ->)|(r' & d & _ & _ & _ & ->)].
      - split; [by eapply quiet_weights_ok|by destruct Hq].
      - split; [|by destruct Hq].
        unfold weights_ok, subject_responses in *. simpl.
        by rewrite (quiet_responses _ _ Hq). }
    pose proof (on_failure_spec env s2 subject context config e Hw2) as [Hout Hq2].
    destruct (on_failure env subject context config e s2) as [[r|e'] s3]; simpl in *;
      [|done].
    exists r. split; [done|]. right. split.
    + intros Hai. rewrite Hai in Hout. destruct Hout; discriminate.
    + rewrite (quiet_cache _ _ Hq2). done.
Qed.

(** A call that is forced, or that finds nothing under its key, returns,
    and leaves the cache as it was unless it returns a live answer. *)
Lemma miss_leaves_cache s subject context config force_ai :
  weights_ok s = true ->
  subject_configs s !! subject = Some config ->
  (force_ai = false -> SubjectMatterConfig.cache_responses config = true ->
   response_cache s !! _generate_cache_key subject context = None) ->
  let res := generate_response env subject context force_ai s in
  exists r, fst res = Ok r /\
    (AIResponse.source r <> "ai" -> response_cache (snd res) = response_cache s).
Proof.
  intros Hw Hconfig Hcold res. subst res.
  rewrite (generate_response_miss_eq env s subject context config force_ai Hconfig Hcold).
  destruct force_ai; cbn [negb].
  - destruct (try_primary_cache s subject context config Hw) as (r & Hr & Hcases).
    exists r. split; [exact Hr|]. intros Hsrc.
    destruct Hcases as [(Hai & _)|(_ & Hc)]; [done|exact Hc].
  - destruct (check_connectivity_frame
                (AIModelConfig.provider (SubjectMatterConfig.primary_model config)) s)
      as (b & Hb & _ & Hf & _ & Hc0 & _).
    destruct (check_connectivity _ s) as [res0 s0] eqn:Hcheck.
    simpl in Hb, Hf, Hc0. subst res0.
    rewrite (try_except_bind_ok _ _ _ s b s0 Hcheck).
    pose proof (weights_ok_same_responses _ _ Hf Hw) as Hw0.
    destruct b; cbn [negb].
    + destruct (try_primary_cache s0 subject context config Hw0) as (r & Hr & Hcases).
      exists r. split; [exact Hr|]. intros Hsrc.
      destruct Hcases as [(Hai & _)|(_ & Hc)]; [done|].
      rewrite <- Hc0. exact Hc.
    + pose proof (_try_fallback_model_spec env subject context config s0 Hw0)
        as [Hout Hq].
      unfold try_except.
      destruct (_try_fallback_model env subject context config s0) as [[r|e] s1];
        simpl in Hout, Hq |- *; [|done].
      exists r. split; [done|]. intros _. rewrite (quiet_cache _ _ Hq). done.
Qed.

(** An unforced call that finds an expired entry under its key goes on as
    the same call does once that entry is deleted. *)
Lemma expired_entry_run s subject context config e :
  subject_configs s !! subject = Some config ->
  SubjectMatterConfig.cache_responses config = true ->
  response_cache s !! _generate_cache_key subject context = Some e ->
  entry_expiry e <= now s ->
  generate_response env subject context false s
  = generate_response env subject context false
      (with_response_cache
         (delete (_generate_cache_key subject context) (response_cache s)) s).
Proof.
  intros Hconfig Heligible Hentry Hexpired.
  rewrite (generate_response_unforced_eq env s subject context config Hconfig), Heligible.
  unfold get_cached_response at 1. rewrite Hentry.
  destruct (Z.ltb_spec (now s) (entry_expiry e)) as [?|_]; [lia|].
  rewrite (generate_response_miss_eq env _ subject context config false); [done|done|].
  intros _ _. cbn [response_cache with_response_cache]. apply lookup_delete_eq.
Qed.

(** X10. Only a live answer of the primary model is ever written to the
    cache. Whatever the state (the stored weights being at least 1), the
    subject (configured or not), the context and the flag, a call that
    returns a response whose source is not [ai]
    (one of the fallback model or a static one) has added nothing to the
    cache: the cache is as it was, but for an expired entry under the key of
    the call, which the lookup of an unforced call deletes. Such a call
    does return whenever it is forced or finds no entry that is still
    valid. *)
Theorem fallback_responses_are_not_cached (s : State) (subject : SubjectMatter)
    (context : pydict) (force_ai : bool) :
  weights_ok s = true ->
  let res := generate_response env subject context force_ai s in
  let key := _generate_cache_key subject context in
  (forall r, fst res = Ok r -> AIResponse.source r <> "ai" ->
     response_cache (snd res) = response_cache s \/
     (force_ai = false /\
      exists config e,
        subject_configs s !! subject = Some config /\
        SubjectMatterConfig.cache_responses config = true /\
        response_cache s !! key = Some e /\ entry_expiry e <= now s /\
        response_cache (snd res) = delete key (response_cache s))) /\
  ((force_ai = true \/
    forall e, response_cache s !! key = Some e -> entry_expiry e <= now s) ->
   exists r, fst res = Ok r).
Proof.
  intros Hw res key. subst res.
  destruct (subject_configs s !! subject) as [config|] eqn:Hconfig.
  2:{ assert (generate_response env subject context force_ai s
              = _get_fallback_response env subject context s) as ->.
      { unfold generate_response, get_subject_config. run. by rewrite Hconfig. }
      pose proof (_get_fallback_response_counters env s subject context)
        as (_ & _ & Hcache).
      split; [intros r _ _; by left|]. intros _.
      destruct (_get_fallback_response_ok env s subject context Hw)
        as (fb & s' & _ & -> & _). by eexists. }
  assert ((force_ai = false -> SubjectMatterConfig.cache_responses config = true ->
           response_cache s !! key = None) ->
          (forall r, fst (generate_response env subject context force_ai s) = Ok r ->
             AIResponse.source r <> "ai" ->
             response_cache (snd (generate_response env subject context force_ai s))
             = response_cache s) /\
          exists r, fst (generate_response env subject context force_ai s) = Ok r)
    as Hmiss.
  { intros Hcold.
    destruct (miss_leaves_cache s subject context config force_ai Hw Hconfig Hcold)
      as (r & Hr & Hc).
    split; [|by exists r]. intros r' Hr' Hsrc. rewrite Hr in Hr'. injection Hr' as <-.
    by apply Hc. }
  destruct force_ai.
  { destruct Hmiss as [Hsame Hreturns]; [discriminate|].
    split; [|done]. intros r Hr Hsrc. left. by apply (Hsame r). }
  destruct (SubjectMatterConfig.cache_responses config) eqn:Heligible.
  2:{ destruct Hmiss as [Hsame Hreturns]; [discriminate|].
      split; [|done]. intros r Hr Hsrc. left. by apply (Hsame r). }
  destruct (response_cache s !! key) as [e|] eqn:Hentry.
  2:{ destruct Hmiss as [Hsame Hreturns]; [done|].
      split; [|done]. intros r Hr Hsrc. left. by apply (Hsame r). }
  clear Hmiss.
  destruct (Z.lt_ge_cases (now s) (entry_expiry e)) as [Hfresh|Hexpired].
  - assert (exists err, fst (generate_response env subject context false s) = Raise err)
      as [err Herr].
    { rewrite (generate_response_unforced_eq env s subject context config Hconfig),
        Heligible.
      unfold get_cached_response. fold key. rewrite Hentry.
      destruct (Z.ltb_spec (now s) (entry_expiry e)) as [_|?]; [|lia].
      apply serve_cached_raises. }
    rewrite Herr. split; [discriminate|].
    intros [?|Hold]; [done|]. specialize (Hold e eq_refl). lia.
  - rewrite (expired_entry_run s subject context config e Hconfig Heligible Hentry
               Hexpired).
    fold key.
    set (s0 := with_response_cache (delete key (response_cache s)) s).
    destruct (miss_leaves_cache s0 subject context config false) as (r & Hr & Hc).
    + exact Hw.
    + exact Hconfig.
    + intros _ _. cbn [s0 response_cache with_response_cache]. apply lookup_delete_eq.
    + split; [|by exists r]. intros r' Hr' Hsrc. right. split; [done|].
      exists config, e. do 4 (split; [done|]).
      rewrite Hr in Hr'. injection Hr' as <-. by rewrite Hc.
Qed.

End CacheWrites.

Lemma fallback_responses_are_not_cached_witness :
  let res := generate_response failing_three_times MOTIVATION [] true backup_state in
  exists r,
    fst res = Ok r /\ AIResponse.source r = "fallback_ai" /\
    response_cache (snd res) = response_cache backup_state.
Proof.
  intros res.
  destruct (fallback_responses_are_not_cached failing_three_times backup_state MOTIVATION
              [] true) as (Hcache & Hreturns).
  - vm_compute. reflexivity.
  - destruct Hreturns as [r Hr]; [by left|].
    fold res in Hr, Hcache.
    assert (AIResponse.source r = "fallback_ai") as Hsrc.
    { vm_compute in Hr. injection Hr as <-. reflexivity. }
    exists r. split; [exact Hr|]. split; [exact Hsrc|].
    destruct (Hcache r Hr) as [Hsame|(Hforced & _)].
    + rewrite Hsrc. discriminate.
    + exact Hsame.
    + discriminate Hforced.
Defined.

(** ** Tiers that are skipped *)

Section Skipped.
Context (env : Env).

Lemma provider_call_state p client system_prompt user_prompt context s :
  let req := mkRequest client system_prompt user_prompt context in
  snd (provider_generate_response env p client system_prompt user_prompt context s)
  = with_now (now s + Z.of_N (elapsed (model_reply env (calls s) req)))
      (with_calls (S (calls s)) (log (EvCall p req) s)).
Proof.
  intros req. unfold provider_generate_response. fold req.
  destruct (completion _); [|done|done]. by destruct (_parse_response_metadata _).
Qed.

Lemma _get_fallback_response_static s subject context :
  weights_ok s = true ->
  exists r, fst (_get_fallback_response env subject context s) = Ok r /\
            AIResponse.source r = "fallback" /\
            calls (snd (_get_fallback_response env subject context s)) = calls s /\
            trace (snd (_get_fallback_response env subject context s)) = trace s /\
            response_cache (snd (_get_fallback_response env subject context s))
              = response_cache s.
Proof.
  intros Hw.
  destruct (_get_fallback_response_ok env s subject context Hw)
    as (fb & s' & Hlookup & Hrun & Hq).
  pose proof (_get_fallback_response_counters env s subject context)
    as (Hcalls & Htrace & Hcache).
  rewrite Hrun in *. eexists. split; [reflexivity|]. split; [reflexivity|]. done.
Qed.

Lemma _try_fallback_model_static s subject context config :
  static_only s config ->
  _try_fallback_model env subject context config s
  = _get_fallback_response env subject context s.
Proof.
  unfold static_only, _try_fallback_model. intros Hstatic. run.
  destruct (SubjectMatterConfig.fallback_model config) as [fallback_model|]; [|done].
  destruct (decide (AIModelConfig.provider fallback_model = FALLBACK)); [done|].
  destruct Hstatic as [?|Hnone]; [done|]. by rewrite Hnone.
Qed.

(** X11. A live answer is lost when its expiry cannot be represented: if
    the prompt formats and the hours to cache push the expiry past the last
    representable date, the answer of the primary model is dropped, the
    caller gets a static response, and nothing is cached although the model
    was called. *)
Theorem unrepresentable_expiry_loses_live_answer (s : State) (subject : SubjectMatter)
    (context : pydict) (config : SubjectMatterConfig.t) (client : AIModelConfig.t)
    (prompt : string) :
  let primary := SubjectMatterConfig.primary_model config in
  weights_ok s = true ->
  subject_configs s !! subject = Some config ->
  providers s !! AIModelConfig.provider primary = Some client ->
  0 < AIModelConfig.retry_attempts primary ->
  fst (_format_user_prompt env (SubjectMatterConfig.subject config) context s)
    = Ok prompt ->
  (forall r, completed (completion (model_reply env (calls s) r)) = true) ->
  SubjectMatterConfig.cache_responses config = true ->
  (forall r, datetime_max <
             now s + Z.of_N (elapsed (model_reply env (calls s) r))
             + SubjectMatterConfig.cache_duration_hours config * microseconds_per_hour) ->
  let res := generate_response env subject context true s in
  exists r, fst res = Ok r /\ AIResponse.source r = "fallback" /\
            calls (snd res) = S (calls s) /\
            response_cache (snd res) = response_cache s.
Proof.
  intros primary Hw Hconfig Hclient Hattempts Hformat Hanswer Heligible Hover res.
  subst res.
  rewrite (generate_response_forced_eq env s subject context config Hconfig).
  pose proof (_format_user_prompt_eq env (SubjectMatterConfig.subject config) context s)
    as Hprompt.
  rewrite Hformat in Hprompt.
  set (req := mkRequest client (SubjectMatterConfig.system_prompt config) prompt context).
  destruct (provider_call_answers env (AIModelConfig.provider primary) client
              (SubjectMatterConfig.system_prompt config) prompt context s (Hanswer req))
    as (r1 & s1 & Hcall & Hq1 & Ht1).
  pose proof (provider_call_state (AIModelConfig.provider primary) client
                (SubjectMatterConfig.system_prompt config) prompt context s) as Hs1.
  rewrite Hcall in Hs1. cbn [snd] in Hs1. fold req in Hs1.
  assert (_generate_ai_response env config context s = (Ok r1, s1)) as Hgen.
  { unfold _generate_ai_response. run. fold primary. rewrite Hclient, Hprompt.
    destruct (Z.to_nat (AIModelConfig.retry_attempts primary)) as [|n] eqn:E; [lia|].
    cbn [retry_loop]. unfold try_except. fold primary. by rewrite Hcall. }
  set (s2 := with_heap (<[fresh (dom (heap s1)) := to_dict r1]> (heap s1)) s1).
  assert (attempt_primary env subject context config s
          = (Raise (OverflowError "date value out of range"), s2)) as Hattempt.
  { unfold attempt_primary. run. rewrite Hgen, Heligible.
    unfold new_dict, cache_response. cbn [now with_heap]. fold s2.
    specialize (Hover req).
    assert (now s1 = now s + Z.of_N (elapsed (model_reply env (calls s) req))) as ->
      by (by rewrite Hs1).
    destruct (Z.leb_spec (now s + Z.of_N (elapsed (model_reply env (calls s) req))
                          + SubjectMatterConfig.cache_duration_hours config
                            * microseconds_per_hour) datetime_max); [lia|].
    by rewrite andb_false_r. }
  unfold try_except. rewrite Hattempt. cbn [on_failure].
  assert (weights_ok s2 = true) as Hw2.
  { unfold weights_ok, subject_responses in *. subst s2. simpl.
    by rewrite (quiet_responses _ _ Hq1). }
  destruct (_get_fallback_response_static s2 subject context Hw2)
    as (r & Hr & Hsrc & Hcalls & _ & Hcache).
  exists r. split; [done|]. split; [done|]. split.
  - rewrite Hcalls. subst s2. cbn [calls with_heap]. by rewrite Hs1.
  - rewrite Hcache. subst s2. cbn [response_cache with_heap].
    apply (quiet_cache _ _ Hq1).
Qed.


(** X13. When the service holds no client for the primary provider (as when
    the OpenAI package cannot be loaded) or the primary allows no attempt,
    a forced call makes no call to the primary model; it is exactly the
    fallback tier when the client is missing, and also when no attempt is
    allowed and the prompt formats. In both cases, with no remote model
    behind the primary the answer is static and no model is called at
    all, whether the prompt formats or not. *)
Theorem primary_skipped_without_client_or_attempts (s : State)
    (subject : SubjectMatter) (context : pydict) (config : SubjectMatterConfig.t) :
  let primary := SubjectMatterConfig.primary_model config in
  subject_configs s !! subject = Some config ->
  providers s !! AIModelConfig.provider primary = None \/
    AIModelConfig.retry_attempts primary <= 0 ->
  (providers s !! AIModelConfig.provider primary = None \/
   (exists prompt,
      fst (_format_user_prompt env (SubjectMatterConfig.subject config) context s)
      = Ok prompt) ->
   generate_response env subject context true s
   = _try_fallback_model env subject context config s) /\
  (weights_ok s = true -> static_only s config ->
   exists r, fst (generate_response env subject context true s) = Ok r /\
             AIResponse.source r = "fallback" /\
             calls (snd (generate_response env subject context true s)) = calls s).
Proof.
  intros primary Hconfig Hskip.
  assert (exists e, _generate_ai_response env config context s = (Raise e, s) /\
            (providers s !! AIModelConfig.provider primary = None \/
             (exists prompt,
                fst (_format_user_prompt env (SubjectMatterConfig.subject config)
                       context s) = Ok prompt) ->
             exists msg, e = AIServiceError msg)) as (e & Hgen & Hkind).
  { unfold _generate_ai_response. run. fold primary.
    destruct (providers s !! AIModelConfig.provider primary) as [client|] eqn:Hclient.
    - destruct Hskip as [?|Hzero]; [done|].
      rewrite (_format_user_prompt_eq env (SubjectMatterConfig.subject config) context s).
      destruct (fst (_format_user_prompt env _ context s)) as [prompt|e].
      + replace (Z.to_nat (AIModelConfig.retry_attempts primary)) with O by lia.
        eexists. split; [done|]. intros _. by eexists.
      + exists e. split; [done|]. intros [?|[prompt ?]]; done.
    - eexists. split; [done|]. intros _. by eexists. }
  assert (generate_response env subject context true s
          = on_failure env subject context config e s) as Heq.
  { rewrite (generate_response_forced_eq env s subject context config Hconfig).
    unfold try_except, attempt_primary. run. by rewrite Hgen. }
  split.
  - intros Hformat. destruct (Hkind Hformat) as [msg ->]. exact Heq.
  - intros Hw Hstatic. rewrite Heq.
    assert (on_failure env subject context config e s
            = _get_fallback_response env subject context s) as ->.
    { destruct e; try reflexivity. by apply _try_fallback_model_static. }
    destruct (_get_fallback_response_static s subject context Hw)
      as (r & Hr & Hsrc & Hc & _).
    exists r. done.
Qed.

End Skipped.

Lemma unrepresentable_expiry_loses_live_answer_witness :
  let config :=
    SubjectMatterConfig.mk MOTIVATION (default_openai scenario_environ)
      (Some fallback_config) (default_system_prompt MOTIVATION)
      (default_context_template MOTIVATION) "text" 1000 true 100000000 in
  let s := with_subject_configs (<[MOTIVATION := config]> (subject_configs scenario_state))
             scenario_state in
  exists r, fst (generate_response answering_env MOTIVATION [] true s) = Ok r /\
            AIResponse.source r = "fallback" /\
            calls (snd (generate_response answering_env MOTIVATION [] true s)) = 1%nat.
Proof.
  intros config s.
  destruct (unrepresentable_expiry_loses_live_answer answering_env s MOTIVATION []
              config (default_openai scenario_environ)
              "Generate a response for motivation with available context: {}")
    as (r & Hr & Hsrc & Hc & _).
  - vm_compute. reflexivity.
  - vm_compute. reflexivity.
  - vm_compute. reflexivity.
  - vm_compute. reflexivity.
  - vm_compute. reflexivity.
  - intros r. reflexivity.
  - reflexivity.
  - intros r. vm_compute. reflexivity.
  - exists r. split; [exact Hr|]. split; [exact Hsrc|exact Hc].
Defined.


Lemma primary_skipped_without_client_or_attempts_witness :
  let s := _initialize_providers false (manager_init scenario_environ scenario_clock) in
  exists r, fst (generate_response answering_env TASK_CREATION [] true s) = Ok r /\
            AIResponse.source r = "fallback" /\
            calls (snd (generate_response answering_env TASK_CREATION [] true s)) = O.
Proof.
  intros s.
  destruct (primary_skipped_without_client_or_attempts answering_env s TASK_CREATION []
              (default_subject_config scenario_environ TASK_CREATION)) as (_ & H).
  - vm_compute. reflexivity.
  - left. vm_compute. reflexivity.
  - apply H; [vm_compute; reflexivity|]. left. reflexivity.
Defined.

(** ** The first answer ends the retries *)

Section FirstAnswer.
Context (env : Env).

Lemma retry_loop_answers_after n failures attempt last_error config client
    user_prompt context s :
  let primary := SubjectMatterConfig.primary_model config in
  let req := mkRequest client (SubjectMatterConfig.system_prompt config)
                       user_prompt context in
  (failures < n)%nat ->
  attempt + Z.of_nat n = AIModelConfig.retry_attempts primary ->
  (forall i r, (i < failures)%nat ->
     completed (completion (model_reply env (calls s + i) r)) = false) ->
  (forall r, completed (completion (model_reply env (calls s + failures) r)) = true) ->
  exists r s',
    retry_loop env n attempt last_error config client user_prompt context s = (Ok r, s') /\
    AIResponse.source r = "ai" /\
    trace s' = trace s ++ backoff_from (AIModelConfig.provider primary) req
                            (AIModelConfig.retry_delay primary) (attempt + 1)
                            (S failures) /\
    calls s' = (calls s + S failures)%nat.
Proof.
  intros primary req. revert n attempt last_error s.
  induction failures as [|j IH]; intros n attempt last_error s Hlt Hsum Hfail Hanswer.
  - destruct n as [|m]; [lia|]. cbn [retry_loop]. unfold try_except. fold primary.
    rewrite Nat.add_0_r in Hanswer.
    destruct (provider_call_answers env (AIModelConfig.provider primary) client
                (SubjectMatterConfig.system_prompt config) user_prompt context s
                (Hanswer req)) as (r & s1 & Hcall & Hq & Ht).
    pose proof (provider_generate_response_spec env (AIModelConfig.provider primary)
                  client (SubjectMatterConfig.system_prompt config) user_prompt
                  context s) as (Hlive & _ & _ & _ & Hc & _).
    rewrite Hcall in Hlive, Hc |- *. simpl in Hlive, Hc.
    exists r, s1. split; [done|]. split; [done|]. split; [done|lia].
  - destruct n as [|m]; [lia|]. cbn [retry_loop]. unfold try_except. fold primary.
    destruct (provider_call_fails env (AIModelConfig.provider primary) client
                (SubjectMatterConfig.system_prompt config) user_prompt context s)
      as (msg & s1 & -> & Hq1 & Ht1 & Hc1).
    { specialize (Hfail O req). rewrite Nat.add_0_r in Hfail. apply Hfail. lia. }
    unfold bind. fold req in Ht1.
    destruct (Z.ltb_spec attempt (AIModelConfig.retry_attempts primary - 1)); [|lia].
    set (s2 := snd (asyncio_sleep (AIModelConfig.retry_delay primary
                                   * inject_Z (attempt + 1)) s1)).
    change (asyncio_sleep _ s1) with (Ok tt, s2).
    assert (calls s2 = S (calls s)) as Hc2 by (subst s2; simpl; done).
    destruct (IH m (attempt + 1) (Some (AIServiceError msg)) s2)
      as (r & s' & -> & Hsrc & Ht & Hc).
    + lia.
    + lia.
    + intros i r Hi. rewrite Hc2.
      replace (S (calls s) + i)%nat with (calls s + S i)%nat by lia. apply Hfail. lia.
    + intros r. rewrite Hc2.
      replace (S (calls s) + j)%nat with (calls s + S j)%nat by lia. apply Hanswer.
    + exists r, s'. split; [done|]. split; [done|]. split.
      * rewrite Ht. subst s2. cbn [trace asyncio_sleep modify snd with_now log].
        rewrite Ht1, backoff_from_step, <- !app_assoc. reflexivity.
      * rewrite Hc, Hc2. lia.
Qed.

(** X14. [_generate_ai_response] stops at the first answer: when the
    prompt formats and the primary fails [failures] times and then answers,
    within the allowed attempts, it returns that live answer after exactly
    [failures + 1] calls, each made with that prompt, having slept after
    each failed try for [retry_delay] times the number of that try, and
    makes no further call. *)
Theorem primary_answer_ends_retries (s : State) (config : SubjectMatterConfig.t)
    (context : pydict) (client : AIModelConfig.t) (failures : nat) (prompt : string) :
  let primary := SubjectMatterConfig.primary_model config in
  providers s !! AIModelConfig.provider primary = Some client ->
  fst (_format_user_prompt env (SubjectMatterConfig.subject config) context s)
    = Ok prompt ->
  Z.of_nat failures < AIModelConfig.retry_attempts primary ->
  (forall i r, (i < failures)%nat ->
     completed (completion (model_reply env (calls s + i) r)) = false) ->
  (forall r, completed (completion (model_reply env (calls s + failures) r)) = true) ->
  let res := _generate_ai_response env config context s in
  exists r,
    fst res = Ok r /\
    AIResponse.source r = "ai" /\
    trace (snd res)
    = trace s ++ backoff_trace (AIModelConfig.provider primary)
                   (mkRequest client (SubjectMatterConfig.system_prompt config)
                              prompt context)
                   (AIModelConfig.retry_delay primary) (S failures) /\
    calls (snd res) = (calls s + S failures)%nat /\
    sleeps (backoff_trace (AIModelConfig.provider primary)
              (mkRequest client (SubjectMatterConfig.system_prompt config) prompt context)
              (AIModelConfig.retry_delay primary) (S failures))
    = map (fun k => (AIModelConfig.retry_delay primary * inject_Z (1 + Z.of_nat k))%Q)
          (seq 0 failures).
Proof.
  intros primary Hclient Hformat Hlt Hfail Hanswer res. subst res.
  pose proof (_format_user_prompt_eq env (SubjectMatterConfig.subject config) context s)
    as Hprompt.
  rewrite Hformat in Hprompt.
  destruct (retry_loop_answers_after (Z.to_nat (AIModelConfig.retry_attempts primary))
              failures 0 None config client prompt context s)
    as (r & s' & Hloop & Hsrc & Ht & Hc); [lia| |done|done|].
  { fold primary. rewrite Z2Nat.id; lia. }
  exists r. unfold _generate_ai_response. run. fold primary.
  rewrite Hclient, Hprompt, Hloop. cbn [fst snd].
  split; [done|]. split; [done|]. split; [exact Ht|].
  split; [exact Hc|]. unfold backoff_trace. rewrite backoff_sleeps.
  by replace (S failures - 1)%nat with failures by lia.
Qed.

End FirstAnswer.

Lemma primary_answer_ends_retries_witness :
  exists r,
    fst (_generate_ai_response failing_once
           (default_subject_config scenario_environ MOTIVATION) [] scenario_state) = Ok r /\
    AIResponse.mood r = "excited" /\
    calls (snd (_generate_ai_response failing_once
                  (default_subject_config scenario_environ MOTIVATION) []
                  scenario_state)) = 2%nat.
Proof.
  destruct (primary_answer_ends_retries failing_once scenario_state
              (default_subject_config scenario_environ MOTIVATION) []
              (default_openai scenario_environ) 1
              "Generate a response for motivation with available context: {}")
    as (r & Hr & _ & _ & Hc & _).
  - vm_compute. reflexivity.
  - vm_compute. reflexivity.
  - vm_compute. reflexivity.
  - intros i r Hi. assert (i = O) as -> by lia. reflexivity.
  - intros r. reflexivity.
  - exists r. split; [exact Hr|]. split; [|exact Hc].
    vm_compute in Hr. injection Hr as <-. reflexivity.
Defined.

(** ** Synchronising the stored responses *)

Section Sync.
Context (env : Env).

Lemma provider_mood_named p client system_prompt user_prompt context s r :
  fst (provider_generate_response env p client system_prompt user_prompt context s) = Ok r ->
  AIResponse.mood r <> "".
Proof.
  unfold provider_generate_response.
  destruct (completion _) as [text tokens| |why]; [|done|done].
  pose proof (parsed_mood_named text) as Hnamed.
  destruct (_parse_response_metadata text) as [mood animation].
  simpl. by intros [= <-].
Qed.

Lemma retry_loop_mood_named n attempt last_error config client user_prompt context s r :
  fst (retry_loop env n attempt last_error config client user_prompt context s) = Ok r ->
  AIResponse.mood r <> "".
Proof.
  revert attempt last_error s. induction n as [|n IH]; intros attempt last_error s.
  - simpl. unfold raise. simpl. done.
  - cbn [retry_loop]. unfold try_except.
    pose proof (provider_mood_named
                  (AIModelConfig.provider (SubjectMatterConfig.primary_model config))
                  client (SubjectMatterConfig.system_prompt config) user_prompt
                  context s) as Hp.
    destruct (provider_generate_response _ _ _ _ _ _ s) as [[r'|e] s1]; simpl in Hp |- *.
    + intros [= <-]. by apply Hp.
    + destruct e; try done. unfold bind.
      destruct (attempt <? _); simpl; apply IH.
Qed.

Lemma _generate_ai_response_mood_named config context s r :
  fst (_generate_ai_response env config context s) = Ok r -> AIResponse.mood r <> "".
Proof.
  unfold _generate_ai_response. run.
  destruct (providers s !! _) as [client|]; [|done].
  rewrite (_format_user_prompt_eq env (SubjectMatterConfig.subject config) context s).
  destruct (fst (_format_user_prompt env _ context s)) as [prompt|e]; [|done].
  apply retry_loop_mood_named.
Qed.

(** A forced call, as [sync_with_ai] sees it. *)
Lemma forced_call_for_sync s subject context :
  weights_ok s = true ->
  let res := generate_response env subject context true s in
  exists r, fst res = Ok r /\
    (AIResponse.source r = "ai" ->
     AIResponse.mood r <> "" /\ is_Some (subject_configs s !! subject)) /\
    fallback_responses (snd res) = fallback_responses s /\
    subject_configs (snd res) = subject_configs s.
Proof.
  intros Hw res. subst res.
  destruct (subject_configs s !! subject) as [config|] eqn:Hconfig.
  - rewrite (generate_response_forced_eq env s subject context config Hconfig).
    destruct (try_primary_cache env s subject context config Hw) as (r & Hr & Hcases).
    pose proof (try_primary_spec env s subject context config Hw)
      as (_ & Hc & Hf & _).
    exists r. split; [done|]. split; [|done].
    intros Hai. split; [|by eexists].
    destruct Hcases as [(_ & Hgen & _)|(Hne & _)]; [|done].
    by eapply _generate_ai_response_mood_named.
  - assert (generate_response env subject context true s
            = _get_fallback_response env subject context s) as ->.
    { unfold generate_response, get_subject_config. run. by rewrite Hconfig. }
    destruct (_get_fallback_response_ok env s subject context Hw)
      as (fb & s' & _ & -> & Hq).
    eexists. split; [reflexivity|]. cbn [snd AIResponse.source].
    split; [discriminate|]. by destruct Hq.
Qed.

Lemma sync_scenarios_loop_spec subject scenarios s :
  weights_ok s = true -> moods_ok s = true ->
  Forall (fun scenario => is_Some (dict_get "context_type" scenario)) scenarios ->
  fst (sync_scenarios_loop env subject scenarios s) = Ok tt /\
  synced_from subject (length scenarios) s
    (snd (sync_scenarios_loop env subject scenarios s)).
Proof.
  revert s. induction scenarios as [|scenario rest IH]; intros s Hw Hm Hkeys.
  - cbn. split; [done|]. split; [done|]. split; [done|]. split; [done|].
    split; [done|]. exists []. rewrite app_nil_r.
    split; [done|]. split; [done|]. split; [constructor|done].
  - inversion Hkeys as [|? ? [context_type Hct] Hrest]; subst.
    cbn [sync_scenarios_loop]. unfold bind.
    destruct (forced_call_for_sync s subject scenario Hw) as (r & Hr & Hai & Hf & Hc).
    destruct (generate_response env subject scenario true s) as [res1 s1].
    simpl in Hr, Hf, Hc. subst res1.
    pose proof (weights_ok_same_responses _ _ Hf Hw) as Hw1.
    pose proof (moods_ok_same_responses _ _ Hf Hm) as Hm1.
    assert (forall x, subject_responses s1 x = subject_responses s x) as Hsame.
    { intros x. unfold subject_responses. by rewrite Hf. }
    destruct (String.eqb (AIResponse.source r) "ai") eqn:Hsrc.
    + apply String.eqb_eq in Hsrc. destruct (Hai Hsrc) as [Hmood Hconfigured].
      rewrite Hct. unfold get_state.
      set (response := FallbackResponse.mk subject context_type (AIResponse.mood r)
                         (AIResponse.text r) (AIResponse.animation_type r) 1 (now s1)).
      set (s2 := snd (add_fallback_response response s1)).
      change (add_fallback_response response s1) with (Ok tt, s2).
      assert (weights_ok s2 = true /\ moods_ok s2 = true) as [Hw2 Hm2].
      { split.
        - apply (forallb_subject_responses_insert
                   (fun r => 1 <=? FallbackResponse.weight r)); [exact Hw1|reflexivity].
        - apply (forallb_subject_responses_insert
                   (fun r => negb (String.eqb (FallbackResponse.mood r) "")));
            [exact Hm1|].
          subst response. cbn [FallbackResponse.mood].
          apply negb_true_iff. apply String.eqb_neq. exact Hmood. }
      destruct (IH s2 Hw2 Hm2 Hrest) as (Hok & Hw' & Hm' & Hc' & Hother & added & Hadd & Hlen & Hall & _).
      split; [done|]. split; [done|]. split; [done|].
      split; [by rewrite Hc'|]. split.
      * intros other Hne. rewrite Hother by done. subst s2.
        rewrite add_fallback_response_responses. cbn [FallbackResponse.subject response].
        rewrite decide_False by done. apply Hsame.
      * exists (response :: added). rewrite Hadd. subst s2.
        rewrite add_fallback_response_responses. cbn [FallbackResponse.subject response].
        rewrite decide_True by done. rewrite Hsame, <- app_assoc.
        split; [done|]. split; [simpl; lia|]. split; [by constructor|].
        intros Hnone. rewrite Hnone in Hconfigured. by destruct Hconfigured.
    + cbn [ret].
      destruct (IH s1 Hw1 Hm1 Hrest) as (Hok & Hw' & Hm' & Hc' & Hother & added & Hadd & Hlen & Hall & Hnone).
      split; [done|]. split; [done|]. split; [done|].
      split; [by rewrite Hc'|]. split.
      * intros other Hne. rewrite Hother by done. apply Hsame.
      * exists added. rewrite Hadd, Hsame. split; [done|]. split; [simpl; lia|].
        split; [done|]. intros Hn. apply Hnone. by rewrite Hc.
Qed.

Lemma sync_subjects_spec subjects sync_results s :
  weights_ok s = true -> moods_ok s = true ->
  NoDup subjects ->
  let res := sync_subjects env subjects sync_results s in
  fst res = Ok (sync_results ++ map (fun subject => (subject_value subject, "synced"))
                                    subjects) /\
  weights_ok (snd res) = true /\ moods_ok (snd res) = true /\
  subject_configs (snd res) = subject_configs s /\
  forall subject, exists added,
    subject_responses (snd res) subject = subject_responses s subject ++ added /\
    (length added <= length sync_scenarios)%nat /\
    Forall (fun r => FallbackResponse.weight r = 1 /\
                     FallbackResponse.subject r = subject) added /\
    (subject_configs s !! subject = None \/ ~ In subject subjects -> added = []).
Proof.
  revert sync_results s. induction subjects as [|subject rest IH];
    intros sync_results s Hw Hm Hnodup.
  - cbn. rewrite app_nil_r. split; [done|]. split; [done|]. split; [done|].
    split; [done|]. intros subject. exists [].
    rewrite app_nil_r. split; [done|]. split; [simpl; lia|]. split; [constructor|done].
  - apply NoDup_cons in Hnodup as [Hnotin Hnodup].
    cbn [sync_subjects]. unfold bind, try_except.
    destruct (sync_scenarios_loop_spec subject sync_scenarios s Hw Hm)
      as (Hok & Hw1 & Hm1 & Hc1 & Hother & added1 & Hadd1 & Hlen1 & Hall1 & Hnone1).
    { repeat constructor; by eexists. }
    destruct (sync_scenarios_loop env subject sync_scenarios s) as [res1 s1].
    simpl in Hok, Hw1, Hm1, Hc1, Hother, Hadd1. subst res1. cbn [ret].
    destruct (IH (sync_results ++ [(subject_value subject, "synced")]) s1 Hw1 Hm1 Hnodup)
      as (Hres & Hw' & Hm' & Hc' & Hresp).
    split; [rewrite Hres, <- app_assoc; done|].
    split; [done|]. split; [done|]. split; [by rewrite Hc'|].
    intros x. destruct (Hresp x) as (added & Hadd & Hlen & Hall & Hnone).
    destruct (decide (x = subject)) as [->|Hne].
    + exists added1. rewrite Hadd, Hadd1.
      rewrite (Hnone (or_intror (fun Hin => Hnotin (proj2 (list_elem_of_In _ _) Hin)))),
        app_nil_r.
      split; [done|]. split; [done|]. split; [done|].
      intros [Hn|Hn]; [by apply Hnone1|]. exfalso. apply Hn. by left.
    + exists added. rewrite Hadd, (Hother x Hne).
      split; [done|]. split; [done|]. split; [done|].
      intros [Hn|Hn]; apply Hnone; [left; by rewrite Hc1|right].
      intros Hin. apply Hn. by right.
Qed.

(** X15. [sync_with_ai] only ever appends: with the stored weights
    positive and moods named, it reports every subject as synced, leaves the
    configuration alone, and for each subject keeps the responses it had,
    followed by at most three new ones of weight 1 for that subject; the
    weights stay positive and the moods named, and a subject without
    configuration gains nothing. *)
Theorem sync_with_ai_only_appends (s : State) (force : bool) :
  weights_ok s = true -> moods_ok s = true ->
  let res := sync_with_ai env force s in
  fst res = Ok (map (fun subject => (subject_value subject, "synced")) all_subjects) /\
  weights_ok (snd res) = true /\ moods_ok (snd res) = true /\
  subject_configs (snd res) = subject_configs s /\
  forall subject, exists added,
    subject_responses (snd res) subject = subject_responses s subject ++ added /\
    (length added <= 3)%nat /\
    Forall (fun r => FallbackResponse.weight r = 1 /\
                     FallbackResponse.subject r = subject) added /\
    (subject_configs s !! subject = None -> added = []).
Proof.
  intros Hw Hm res. subst res. unfold sync_with_ai.
  destruct (sync_subjects_spec all_subjects [] s Hw Hm) as (H1 & H2 & H3 & H4 & H5).
  { apply NoDup_ListNoDup. repeat constructor; simpl; intuition discriminate. }
  split; [exact H1|]. split; [done|]. split; [done|]. split; [done|].
  intros subject. destruct (H5 subject) as (added & Ha & Hl & Hf & Hn).
  exists added. split; [done|]. split; [exact Hl|]. split; [done|].
  intros Hnone. apply Hn. by left.
Qed.

End Sync.

Lemma sync_with_ai_only_appends_witness :
  let res := sync_with_ai answering_env false scenario_state in
  weights_ok (snd res) = true /\
  length (subject_responses (snd res) MOTIVATION) = 5%nat /\
  subject_responses (snd res) GOAL_SETTING = [].
Proof.
  intros res.
  destruct (sync_with_ai_only_appends answering_env scenario_state false)
    as (_ & Hw & _ & _ & _).
  - vm_compute. reflexivity.
  - vm_compute. reflexivity.
  - split; [exact Hw|]. vm_compute. split; reflexivity.
Defined.

(** ** The connectivity report *)

(** The answer of a check depends on the clock, the environment and the
    provider's own records only. *)
Lemma check_connectivity_answer_ext p s s' :
  now s = now s' -> environ s = environ s' ->
  last_sync_attempt s !! p = last_sync_attempt s' !! p ->
  connectivity_status s !! p = connectivity_status s' !! p ->
  fst (check_connectivity p s) = fst (check_connectivity p s').
Proof.
  intros Hnow Henv Hlast Hstatus. unfold check_connectivity.
  destruct (decide (p = FALLBACK)); [done|].
  cbn [now log last_sync_attempt connectivity_status].
  rewrite Hnow, Hlast, Hstatus.
  destruct (now s' - default datetime_min (last_sync_attempt s' !! p) <? five_minutes);
    [done|].
  unfold env_nonempty. cbn [fst environ log]. by rewrite Henv.
Qed.

(** Checking one provider does not change the answer for another. *)
Lemma check_connectivity_independent p q s :
  p <> q ->
  fst (check_connectivity p (snd (check_connectivity q s)))
  = fst (check_connectivity p s).
Proof.
  intros Hne. apply check_connectivity_answer_ext; unfold check_connectivity;
    destruct (decide (q = FALLBACK)); try done;
    cbn [now log last_sync_attempt connectivity_status];
    destruct (now s - default datetime_min (last_sync_attempt s !! q) <? five_minutes);
    try done; cbn [snd last_sync_attempt connectivity_status with_connectivity];
    by rewrite lookup_insert_ne.
Qed.

(** X16. [test_connectivity] reports the four providers in the order of
    the enumeration: for OpenAI, Anthropic and the local provider the status
    is what [check_connectivity] answers for that provider in the state the
    report starts from (one check never changes the answer of another), and
    the static provider is always available; no entry is an error. *)
Theorem test_connectivity_report (env : Env) (s : State) :
  exists results,
    fst (test_connectivity env s) = Ok results /\
    map fst results = ["openai"; "anthropic"; "local"; "fallback"] /\
    map (fun kv => probe_status (snd kv)) results
      = [status_of (fst (check_connectivity OPENAI s));
         status_of (fst (check_connectivity ANTHROPIC s));
         status_of (fst (check_connectivity LOCAL s));
         "always_available"] /\
    Forall (fun kv => probe_status (snd kv) <> "error" /\ probe_error (snd kv) = None)
           results.
Proof.
  unfold test_connectivity, all_providers. cbn [test_connectivity_loop].
  destruct (decide (OPENAI = FALLBACK)); [done|].
  destruct (decide (ANTHROPIC = FALLBACK)); [done|].
  destruct (decide (LOCAL = FALLBACK)); [done|].
  destruct (decide (FALLBACK = FALLBACK)); [|done].
  unfold bind, get_state, try_except, ret. cbn [test_connectivity_loop ret app].
  destruct (check_connectivity_frame OPENAI s) as (b1 & Hb1 & _).
  pose proof (check_connectivity_independent ANTHROPIC OPENAI s ltac:(done)) as H2.
  pose proof (check_connectivity_independent LOCAL OPENAI s ltac:(done)) as H3.
  destruct (check_connectivity OPENAI s) as [r1 s1]. cbn [fst snd] in Hb1, H2, H3.
  rewrite Hb1 in *. clear Hb1 r1.
  destruct (check_connectivity_frame ANTHROPIC s1) as (b2 & Hb2 & _).
  pose proof (check_connectivity_independent LOCAL ANTHROPIC s1 ltac:(done)) as H3'.
  destruct (check_connectivity ANTHROPIC s1) as [r2 s2]. cbn [fst snd] in Hb2, H2, H3'.
  rewrite Hb2 in *. clear Hb2 r2.
  destruct (check_connectivity_frame LOCAL s2) as (b3 & Hb3 & _).
  destruct (check_connectivity LOCAL s2) as [r3 s3]. cbn [fst snd] in Hb3, H3'.
  rewrite Hb3 in *. clear Hb3 r3.
  cbn [fst snd]. eexists. split; [reflexivity|]. split; [reflexivity|].
  cbn [map fst snd probe_status probe_error app].
  rewrite <- H2, <- H3, <- H3'. cbn [status_of].
  split.
  - by destruct b1, b2, b3.
  - by destruct b1, b2, b3; repeat apply Forall_cons_2; try apply Forall_nil_2.
Qed.

(** ** Routes of the administration *)

Section AdminRoutes.
Context (env : Env).


(** X18. Asked not to force, the test route answers 500 whenever the
    cache holds an unexpired entry for the subject and context: the error
    of the cache hit surfaces as a failed test. *)
Theorem test_subject_ai_fails_on_cache_hit (s : State) (subject : SubjectMatter)
    (context : pydict) (config : SubjectMatterConfig.t) (e : CacheEntry)
    (d : ResponseDict.t) :
  subject_configs s !! subject = Some config ->
  SubjectMatterConfig.cache_responses config = true ->
  response_cache s !! _generate_cache_key subject context = Some e ->
  now s < entry_expiry e ->
  heap s !! entry_response e = Some d ->
  fst (test_subject_ai env (subject_value subject) (Some context) (Some false) s)
  = mkTestAnswer (mkHttp 500 false "AI test failed") None.
Proof.
  intros Hconfig Heligible Hentry Hfresh Hdict. unfold test_subject_ai.
  rewrite subject_of_value_value. cbn [default from_option id].
  by rewrite (cache_hit_run env s subject context config e d).
Qed.

(** X19. Clearing the cache through its route answers 200 and empties the
    cache: the first unforced call after it, whatever its subject, its
    context and its instant and whatever the cache held, returns a response
    and cannot hit. That call may write the cache again, so nothing is said
    of the calls that follow it. *)
Theorem clear_ai_cache_restores_responses (s : State) (subject : SubjectMatter)
    (context : pydict) (t : Z) :
  weights_ok s = true ->
  let cleared := snd (clear_ai_cache s) in
  http_status (fst (clear_ai_cache s)) = 200 /\
  response_cache cleared = ∅ /\
  exists r, fst (generate_response env subject context false (with_now t cleared)) = Ok r /\
            AIResponse.source r <> "cache".
Proof.
  intros Hw cleared. subst cleared. unfold clear_ai_cache, clear_cache, modify.
  cbn [fst snd http_status]. split; [done|]. split; [done|].
  apply generate_response_returns_without_hit; [exact Hw|].
  intros config _ _ _. cbn [response_cache with_now with_response_cache].
  apply lookup_empty.
Qed.

End AdminRoutes.


Lemma test_subject_ai_fails_on_cache_hit_witness :
  let s1 := snd (generate_response answering_env MOTIVATION [] false scenario_state) in
  fst (test_subject_ai answering_env "motivation" (Some []) (Some false) s1)
  = mkTestAnswer (mkHttp 500 false "AI test failed") None.
Proof.
  intros s1.
  eapply (test_subject_ai_fails_on_cache_hit answering_env s1 MOTIVATION []
            (default_subject_config scenario_environ MOTIVATION));
    vm_compute; reflexivity.
Defined.

Lemma clear_ai_cache_restores_responses_witness :
  let s1 := snd (generate_response answering_env MOTIVATION [] false scenario_state) in
  response_cache s1 <> ∅ /\
  exists r, fst (generate_response answering_env MOTIVATION [] false
                   (with_now (now s1) (snd (clear_ai_cache s1)))) = Ok r /\
            AIResponse.source r <> "cache".
Proof.
  intros s1. split.
  - intros H. apply (f_equal (fun m => m !! _generate_cache_key MOTIVATION [])) in H.
    vm_compute in H. discriminate H.
  - apply (clear_ai_cache_restores_responses answering_env s1 MOTIVATION [] (now s1)).
    vm_compute. reflexivity.
Defined.

(** ** Dictionaries as association lists *)

Lemma dict_set_keep {V} (k : string) (v : V) (d : list (string * V)) :
  (forall kv, In kv d -> fst kv = k -> snd kv = v) ->
  In k (map fst d) -> dict_set k v d = d.
Proof.
  intros Hsame Hin. unfold dict_set.
  assert (existsb (String.eqb k) (map fst d) = true) as ->.
  { apply existsb_exists. exists k. split; [done|apply String.eqb_refl]. }
  rewrite <- (map_id d) at 2. apply map_ext_in. intros [k' v'] Hkv.
  cbn [fst]. destruct (String.eqb_spec k' k) as [->|]; [|done].
  by rewrite <- (Hsame _ Hkv eq_refl).
Qed.

Lemma dict_set_fresh {V} (k : string) (v : V) (d : list (string * V)) :
  ~ In k (map fst d) -> dict_set k v d = d ++ [(k, v)].
Proof.
  intros Hnotin. unfold dict_set.
  destruct (existsb (String.eqb k) (map fst d)) eqn:Hex; [|done].
  apply existsb_exists in Hex as (k' & Hin & Heq).
  apply String.eqb_eq in Heq. by subst k'.
Qed.

(** The loop over the requested names keeps one entry per name seen, each
    with the outcome of that name. *)
Lemma record_names_spec (names : list string) (results : list (string * string)) :
  List.NoDup (map fst results) ->
  (forall kv, In kv results -> snd kv = name_outcome (fst kv)) ->
  let final :=
    fold_left (fun results subject_name =>
                 dict_set subject_name (name_outcome subject_name) results)
              names results in
  List.NoDup (map fst final) /\
  (forall kv, In kv final -> snd kv = name_outcome (fst kv)) /\
  (forall n, In n (map fst final) <-> In n (map fst results) \/ In n names).
Proof.
  revert results. induction names as [|name names IH]; intros results Hnodup Hout; cbn.
  - split; [done|]. split; [done|]. intros n. tauto.
  - destruct (in_dec string_dec name (map fst results)) as [Hin|Hnotin].
    + rewrite dict_set_keep; [|intros kv Hkv <-; by apply Hout|done].
      destruct (IH results Hnodup Hout) as (H1 & H2 & H3).
      split; [done|]. split; [done|]. intros n. rewrite H3.
      split; [tauto|]. intros [H|[<-|H]]; tauto.
    + rewrite dict_set_fresh by done.
      destruct (IH (results ++ [(name, name_outcome name)])) as (H1 & H2 & H3).
      * rewrite map_app. cbn. apply NoDup_ListNoDup, NoDup_app.
        split; [by apply NoDup_ListNoDup|]. split.
        -- intros x Hx Hx'. apply list_elem_of_In in Hx.
           apply list_elem_of_singleton in Hx'. by subst x.
        -- apply NoDup_singleton.
      * intros kv [Hkv|[<-|[]]]%in_app_or; [by apply Hout|done].
      * split; [done|]. split; [done|]. intros n. rewrite H3, map_app, in_app_iff.
        cbn. tauto.
Qed.

(** X20. Given a list of subject names, the sync route runs no sync at
    all: the state is left as it was, and the answer holds exactly one
    entry per requested name, [synced] for a name of the enumeration and
    [invalid_subject] for any other. *)
Theorem sync_ai_fallbacks_with_names_runs_nothing (env : Env) (s : State)
    (force : option bool) (name : string) (names : list string) :
  let res := sync_ai_fallbacks env force (name :: names) s in
  let sync_results := snd (fst res) in
  snd res = s /\
  http_status (fst (fst res)) = 200 /\
  List.NoDup (map fst sync_results) /\
  (forall n, In n (map fst sync_results) <-> In n (name :: names)) /\
  (forall n outcome, In (n, outcome) sync_results ->
     outcome = match subject_of_value n with
               | Some _ => "synced"
               | None => "invalid_subject"
               end).
Proof.
  intros res sync_results. subst sync_results res. unfold sync_ai_fallbacks.
  cbn [fst snd http_status]. split; [done|]. split; [done|].
  destruct (record_names_spec (name :: names) []) as (H1 & H2 & H3);
    [constructor|by intros ? []|].
  split; [exact H1|]. split.
  - intros n. rewrite H3. cbn. tauto.
  - intros n outcome Hin. specialize (H2 _ Hin). cbn in H2. subst outcome.
    reflexivity.
Qed.

Lemma sync_ai_fallbacks_with_names_runs_nothing_witness :
  let res := sync_ai_fallbacks answering_env None ["motivation"; "baking"; "motivation"]
               scenario_state in
  snd res = scenario_state /\
  snd (fst res) = [("motivation", "synced"); ("baking", "invalid_subject")].
Proof.
  intros res. split; [|reflexivity].
  destruct (sync_ai_fallbacks_with_names_runs_nothing answering_env scenario_state None
              "motivation" ["baking"; "motivation"]) as (H & _).
  exact H.
Defined.

(** ** More on the configuration route *)

(** X21. Whatever the request, the configuration route touches nothing but
    the stored configuration of the subject it names: every other part of
    the state and every other subject's configuration stay as they were,
    and an answer other than 200 (unknown subject, missing configuration,
    unknown provider) leaves the whole state unchanged. *)
Theorem update_subject_configuration_frame (subject : string) (data : UpdateData)
    (s : State) :
  let res := update_subject_configuration subject data s in
  (http_status (fst res) = 200 \/ http_status (fst res) = 404 \/
   http_status (fst res) = 422) /\
  (http_status (fst res) <> 200 -> snd res = s) /\
  (forall other, subject_of_value subject <> Some other ->
     subject_configs (snd res) !! other = subject_configs s !! other) /\
  fallback_responses (snd res) = fallback_responses s /\
  response_cache (snd res) = response_cache s /\
  providers (snd res) = providers s /\
  connectivity_status (snd res) = connectivity_status s.
Proof.
  intros res. subst res. unfold update_subject_configuration.
  destruct (subject_of_value subject) as [subject_enum|]; [|cbn; tauto].
  destruct (subject_configs s !! subject_enum) as [current_config|]; [|cbn; tauto].
  destruct (upd_primary_model data) as [model_data|].
  - destruct (provider_of_value _) as [provider|]; [|cbn; tauto].
    unfold update_subject_config, modify. cbn. repeat split; try tauto.
    intros other Hother. apply lookup_insert_ne. congruence.
  - unfold update_subject_config, modify. cbn. repeat split; try tauto.
    intros other Hother. apply lookup_insert_ne. congruence.
Qed.

Lemma update_subject_configuration_frame_witness :
  let data :=
    mkUpdateData (Some (mkModelData (Some "mainframe") None None None None (Some 2%Q) None))
                 (Some "Be brief.") None None None in
  http_status (fst (update_subject_configuration "motivation" data scenario_state)) = 422 /\
  snd (update_subject_configuration "motivation" data scenario_state) = scenario_state.
Proof.
  intros data. split; [reflexivity|].
  destruct (update_subject_configuration_frame "motivation" data scenario_state)
    as (_ & H & _).
  apply H. vm_compute. discriminate.
Defined.

(** X22. An accepted update that carries a [primary_model] object rebuilds
    the model without its retry settings: whatever they were, the stored
    primary model has the defaults (three attempts, a delay of one second)
    afterwards, even when the request names no retry setting at all; the
    fallback model of the subject is kept. *)
Theorem model_update_resets_retry_settings (subject : SubjectMatter)
    (data : UpdateData) (model_data : ModelData) (s : State)
    (config : SubjectMatterConfig.t) :
  subject_configs s !! subject = Some config ->
  upd_primary_model data = Some model_data ->
  let res := update_subject_configuration (subject_value subject) data s in
  http_status (fst res) = 200 ->
  exists updated,
    subject_configs (snd res) !! subject = Some updated /\
    AIModelConfig.retry_attempts (SubjectMatterConfig.primary_model updated) = 3 /\
    AIModelConfig.retry_delay (SubjectMatterConfig.primary_model updated) = 1%Q /\
    SubjectMatterConfig.fallback_model updated = SubjectMatterConfig.fallback_model config.
Proof.
  intros Hconfig Hmodel res. subst res. unfold update_subject_configuration.
  rewrite subject_of_value_value, Hconfig, Hmodel.
  destruct (provider_of_value _) as [provider|]; [|cbn; discriminate].
  intros _. unfold update_subject_config, modify.
  cbn [snd subject_configs with_subject_configs]. rewrite lookup_insert_eq.
  eexists. split; [reflexivity|]. cbn. done.
Qed.

Lemma model_update_resets_retry_settings_witness :
  let data :=
    mkUpdateData (Some (mkModelData None (Some "gpt-4") None None None None None))
                 None None None None in
  (exists config,
     subject_configs patient_state !! MOTIVATION = Some config /\
     AIModelConfig.retry_attempts (SubjectMatterConfig.primary_model config) = 5) /\
  exists updated,
    subject_configs (snd (update_subject_configuration "motivation" data patient_state))
      !! MOTIVATION = Some updated /\
    AIModelConfig.retry_attempts (SubjectMatterConfig.primary_model updated) = 3.
Proof.
  intros data. split.
  - eexists. split; [vm_compute; reflexivity|reflexivity].
  - destruct (model_update_resets_retry_settings MOTIVATION data
                (mkModelData None (Some "gpt-4") None None None None None) patient_state
                (default (default_subject_config scenario_environ MOTIVATION)
                         (subject_configs patient_state !! MOTIVATION)))
      as (updated & H1 & H2 & _).
    + vm_compute. reflexivity.
    + reflexivity.
    + vm_compute. reflexivity.
    + exists updated. split; [exact H1|exact H2].
Defined.

(** ** The source of a returned response *)

Section Sources.
Context (env : Env).

Lemma _get_fallback_response_source subject context s r :
  fst (_get_fallback_response env subject context s) = Ok r ->
  AIResponse.source r = "fallback".
Proof.
  unfold _get_fallback_response. run.
  destruct (get_fallback_response _ _ _ _ s) as [[fb|e] s']; simpl; [|done].
  by intros [= <-].
Qed.

Lemma _try_fallback_model_source subject context config s r :
  fst (_try_fallback_model env subject context config s) = Ok r ->
  AIResponse.source r = "fallback_ai" \/ AIResponse.source r = "fallback".
Proof.
  unfold _try_fallback_model.
  assert (forall s1, fst (_get_fallback_response env subject context s1) = Ok r ->
            AIResponse.source r = "fallback_ai" \/ AIResponse.source r = "fallback")
    as Hstatic.
  { intros s1 H. right. by eapply _get_fallback_response_source. }
  run.
  destruct (SubjectMatterConfig.fallback_model config) as [fallback_model|];
    [|apply Hstatic].
  destruct (decide (AIModelConfig.provider fallback_model = FALLBACK)); [apply Hstatic|].
  destruct (providers s !! _) as [client|]; [|apply Hstatic].
  rewrite (_format_user_prompt_eq env subject context s).
  destruct (fst (_format_user_prompt env subject context s)) as [prompt|e];
    [|apply Hstatic].
  destruct (provider_generate_response _ _ _ _ _ _ s) as [[r0|e] s1]; simpl.
  - intros [= <-]. by left.
  - apply Hstatic.
Qed.

Lemma on_failure_source subject context config e s r :
  fst (on_failure env subject context config e s) = Ok r ->
  AIResponse.source r = "fallback_ai" \/ AIResponse.source r = "fallback".
Proof.
  unfold on_failure. intros H.
  destruct e; try (right; by eapply _get_fallback_response_source).
  by eapply _try_fallback_model_source.
Qed.

Lemma try_primary_source subject context config s r :
  fst (try_except (attempt_primary env subject context config)
                  (on_failure env subject context config) s) = Ok r ->
  AIResponse.source r = "ai" \/ AIResponse.source r = "fallback_ai" \/
  AIResponse.source r = "fallback".
Proof.
  unfold try_except.
  pose proof (attempt_primary_spec env s subject context config) as (_ & Hres).
  destruct (attempt_primary env subject context config s) as [[r0|e] s1]; simpl in *.
  - intros [= <-]. left. tauto.
  - intros H. right. by eapply on_failure_source.
Qed.

Lemma generate_response_source s subject context force_ai r :
  fst (generate_response env subject context force_ai s) = Ok r ->
  AIResponse.source r = "ai" \/ AIResponse.source r = "fallback_ai" \/
  AIResponse.source r = "fallback".
Proof.
  destruct (subject_configs s !! subject) as [config|] eqn:Hconfig.
  - destruct force_ai.
    + rewrite (generate_response_forced_eq env s subject context config Hconfig).
      apply try_primary_source.
    + rewrite (generate_response_unforced_eq env s subject context config Hconfig).
      assert (forall s0,
                fst (try_except
                       (provider_available <-
                          check_connectivity
                            (AIModelConfig.provider
                               (SubjectMatterConfig.primary_model config));;
                        if negb provider_available
                        then _try_fallback_model env subject context config
                        else attempt_primary env subject context config)
                       (on_failure env subject context config) s0) = Ok r ->
                AIResponse.source r = "ai" \/ AIResponse.source r = "fallback_ai" \/
                AIResponse.source r = "fallback") as Hmiss.
      { intros s0. unfold try_except at 1, bind.
        destruct (check_connectivity_frame
                    (AIModelConfig.provider (SubjectMatterConfig.primary_model config)) s0)
          as (b & Hb & _).
        destruct (check_connectivity _ s0) as [res0 s1]. simpl in Hb. subst res0.
        destruct b; cbn [negb].
        - apply try_primary_source.
        - destruct (_try_fallback_model env subject context config s1) as [[r0|e] s2] eqn:E.
          + simpl. intros [= <-]. right.
            apply (_try_fallback_model_source subject context config s1). by rewrite E.
          + simpl. intros H. right. by eapply on_failure_source. }
      destruct (SubjectMatterConfig.cache_responses config); [|apply Hmiss].
      destruct (get_cached_response _ s) as [[[l|]|e] s0]; [|apply Hmiss|done].
      destruct (serve_cached_raises l s0) as [e ->]. done.
  - assert (generate_response env subject context force_ai s
            = _get_fallback_response env subject context s) as ->.
    { unfold generate_response, get_subject_config. run. by rewrite Hconfig. }
    intros H. right. right. by eapply _get_fallback_response_source.
Qed.

(** X23. In no state, for no subject, context or flag does
    [generate_response] return a response labelled [cache]: a response it
    returns comes from the primary model, from the fallback model or from
    the stored responses. *)
Theorem returned_response_is_never_from_cache (s : State) (subject : SubjectMatter)
    (context : pydict) (force_ai : bool) (r : AIResponse.t) :
  fst (generate_response env subject context force_ai s) = Ok r ->
  In (AIResponse.source r) ["ai"; "fallback_ai"; "fallback"] /\
  AIResponse.source r <> "cache".
Proof.
  intros H. apply generate_response_source in H.
  destruct H as [H|[H|H]]; rewrite H; (split; [cbn; tauto|discriminate]).
Qed.

(** ** [get_cake_response_ai] *)

Lemma get_cake_response_static_total draw category user_mood user_level :
  exists response_text,
    get_cake_response_static draw category user_mood user_level
    = Ok (mkCake response_text user_mood "bounce" category "static_fallback" None) /\
    In response_text (concat (map snd (concat (map snd CAKE_RESPONSES)))).
Proof.
  unfold get_cake_response_static.
  assert (draw mod 2 = 0 \/ draw mod 2 = 1)%nat as Hdraw.
  { pose proof (Nat.mod_upper_bound draw 2). lia. }
  assert (forall a b : string,
            exists x, random_choice draw [a; b] = Ok x /\ (x = a \/ x = b)) as Hpick.
  { intros a b. unfold random_choice. cbn [length].
    destruct Hdraw as [-> | ->]; eexists; (split; [reflexivity|tauto]). }
  unfold CAKE_RESPONSES, encouragement_responses. cbn [dict_lookup].
  destruct (String.eqb category "task_created");
    [|destruct (String.eqb category "task_completed");
      [|destruct (String.eqb category "encouragement")]];
    cbn [default from_option id map snd];
    match goal with
    | |- context [random_choice draw [?a; ?b]] =>
        destruct (Hpick a b) as (x & -> & [-> | ->])
    end;
    eexists; (split; [reflexivity|]); cbn; tauto.
Qed.

(** X24. [get_cake_response_ai] always answers, in every state and
    whatever the service does. When the unforced call to the service for the
    mapped subject and the enhanced context returns a response, the answer
    is that response field by field: its text, its mood, its animation type
    as [animation], its source (one of [ai], [fallback_ai] and [fallback]),
    its metadata, and the category asked for. When that call raises, the
    answer is one of the six built-in sentences, labelled
    [static_fallback], in the mood asked for, with the [bounce] animation
    and no metadata. The category is handed back unchanged, the source is
    never [cache], and the state is the one the service call left. *)
Theorem get_cake_response_ai_always_answers (draw : nat) (category user_mood : string)
    (user_level : Z) (context : option pydict) (s : State) :
  let subject := default ENCOURAGEMENT (dict_lookup category subject_mapping) in
  let ctx := enhanced_context category user_mood user_level (default [] context) in
  let served := generate_response env subject ctx false s in
  let res := get_cake_response_ai env draw category user_mood user_level context s in
  snd res = snd served /\
  exists response,
    fst res = Ok response /\
    cake_category response = category /\
    cake_source response <> "cache" /\
    match fst served with
    | Ok r =>
        response = mkCake (AIResponse.text r) (AIResponse.mood r)
                          (AIResponse.animation_type r) category (AIResponse.source r)
                          (Some (AIResponse.metadata r)) /\
        In (AIResponse.source r) ["ai"; "fallback_ai"; "fallback"]
    | Raise _ =>
        cake_source response = "static_fallback" /\
        In (cake_text response) (concat (map snd (concat (map snd CAKE_RESPONSES)))) /\
        cake_mood response = user_mood /\
        cake_animation response = "bounce" /\
        cake_metadata response = None
    end.
Proof.
  intros subject ctx served res. subst served res.
  unfold get_cake_response_ai, try_except, bind, ret. fold subject. fold ctx.
  destruct (generate_response env subject ctx false s) as [[r|e] s1] eqn:E.
  - apply (f_equal fst) in E. cbn [fst] in E.
    apply generate_response_source in E.
    split; [reflexivity|].
    eexists. split; [reflexivity|].
    cbn [fst cake_category cake_source].
    split; [done|].
    destruct E as [H|[H|H]]; rewrite H;
      (split; [discriminate|split; [reflexivity|cbn; tauto]]).
  - destruct (get_cake_response_static_total draw category user_mood user_level)
      as (response_text & Hstatic & Hin).
    split; [reflexivity|].
    cbn [fst]. rewrite Hstatic. eexists. split; [reflexivity|]. cbn [cake_category
      cake_source cake_text cake_mood cake_animation cake_metadata].
    split; [done|]. split; [discriminate|]. tauto.
Qed.

(** X25. When the cache holds an unexpired entry for the context the
    function builds, the answer is the static one: the error of the cache
    hit is absorbed and the cached response is not shown. *)
Theorem cake_response_is_static_on_cache_hit (draw : nat) (category user_mood : string)
    (user_level : Z) (context : option pydict) (s : State)
    (config : SubjectMatterConfig.t) (e : CacheEntry) (d : ResponseDict.t) :
  let subject := default ENCOURAGEMENT (dict_lookup category subject_mapping) in
  let ctx := enhanced_context category user_mood user_level (default [] context) in
  subject_configs s !! subject = Some config ->
  SubjectMatterConfig.cache_responses config = true ->
  response_cache s !! _generate_cache_key subject ctx = Some e ->
  now s < entry_expiry e ->
  heap s !! entry_response e = Some d ->
  fst (get_cake_response_ai env draw category user_mood user_level context s)
  = get_cake_response_static draw category user_mood user_level.
Proof.
  intros subject ctx Hconfig Heligible Hentry Hfresh Hdict.
  unfold get_cake_response_ai, try_except, bind. fold subject. fold ctx.
  by rewrite (cache_hit_run env s subject ctx config e d).
Qed.

End Sources.

Lemma returned_response_is_never_from_cache_witness :
  exists r,
    fst (generate_response answering_env MOTIVATION [] false scenario_state) = Ok r /\
    AIResponse.source r <> "cache".
Proof.
  eexists. split; [vm_compute; reflexivity|].
  apply (returned_response_is_never_from_cache answering_env scenario_state
           MOTIVATION [] false).
  vm_compute. reflexivity.
Defined.

Lemma cake_response_is_static_on_cache_hit_witness :
  let first :=
    get_cake_response_ai answering_env 1 "motivation" "cheerful" 1 None scenario_state in
  cake_source <$> match fst first with Ok r => Some r | Raise _ => None end = Some "ai" /\
  fst (get_cake_response_ai answering_env 1 "motivation" "cheerful" 1 None (snd first))
  = get_cake_response_static 1 "motivation" "cheerful" 1.
Proof.
  intros first. split; [vm_compute; reflexivity|].
  eapply (cake_response_is_static_on_cache_hit answering_env 1 "motivation" "cheerful" 1
            None (snd first) (default_subject_config scenario_environ MOTIVATION));
    vm_compute; reflexivity.
Defined.

(** ** Mood and animation *)

(** X26. The animation [_parse_response_metadata] gives a text is the one
    [get_animation_for_mood] of [cake.py] gives the mood parsed from it, for
    every text. *)
Theorem parsed_animation_agrees_with_mood_table (response_text : string) :
  get_animation_for_mood (fst (_parse_response_metadata response_text))
  = snd (_parse_response_metadata response_text).
Proof.
  unfold _parse_response_metadata.
  repeat (destruct (any_word_in _ response_text); [reflexivity|]). reflexivity.
Qed.

(** ** Experience, streaks and completion *)

Lemma add_xp_total amount u :
  User.total_xp (snd (add_xp amount u)) = User.total_xp u + amount.
Proof. unfold add_xp. by destruct (_ <? _). Qed.

(** X27. Awarding experience in two parts, the second not negative, ends in
    the same user as awarding the sum at once, and a level-up is reported
    by one of the two calls exactly when the single call reports one. *)
Theorem add_xp_split_award (a b : Z) (u : User.t) :
  0 <= b ->
  let first := add_xp a u in
  let second := add_xp b (snd first) in
  snd second = snd (add_xp (a + b) u) /\
  fst first || fst second = fst (add_xp (a + b) u).
Proof.
  intros Hb first second. subst first second. unfold add_xp.
  pose proof (Z.div_le_mono (User.total_xp u + a) (User.total_xp u + a + b) 1000
                ltac:(lia) ltac:(lia)) as Hmono.
  replace (User.total_xp u + (a + b)) with (User.total_xp u + a + b) by lia.
  set (q1 := (User.total_xp u + a) / 1000) in *.
  set (q2 := (User.total_xp u + a + b) / 1000) in *.
  destruct (Z.ltb_spec (User.carrot_personality_level u) (Z.min 10 (q1 + 1)));
    cbn [fst snd User.total_xp User.carrot_personality_level User.current_streak
         User.longest_streak User.last_task_completion];
    fold q2;
    destruct (Z.ltb_spec (User.carrot_personality_level u) (Z.min 10 (q2 + 1)));
    try destruct (Z.ltb_spec (Z.min 10 (q1 + 1)) (Z.min 10 (q2 + 1)));
    cbn [fst snd orb]; try lia; (split; [|done]); f_equal; lia.
Qed.

Lemma add_xp_split_award_witness :
  let u := User.mk 900 1 0 0 None in
  snd (add_xp 1200 (snd (add_xp 150 u))) = snd (add_xp 1350 u) /\
  User.carrot_personality_level (snd (add_xp 1350 u)) = 3.
Proof.
  intros u. split; [|reflexivity].
  apply (add_xp_split_award 150 1200 u). lia.
Defined.

(** X28. [update_streak] counts days, not completions: a second
    completion on the same calendar day leaves both streaks as the first
    one set them, and after any update the longest streak is at least the
    current one and not below its old value. *)
Theorem update_streak_counts_days (first_instant second_instant : Z) (u : User.t) :
  date_of second_instant = date_of first_instant ->
  let once := update_streak first_instant u in
  let twice := update_streak second_instant once in
  User.current_streak twice = User.current_streak once /\
  User.longest_streak twice = User.longest_streak once /\
  User.current_streak once <= User.longest_streak once /\
  User.longest_streak u <= User.longest_streak once.
Proof.
  intros Hday once twice. subst once twice. unfold update_streak.
  cbn [User.current_streak User.longest_streak User.last_task_completion].
  rewrite Hday, Z.sub_diag.
  change (0 =? 1) with false. change (1 <? 0) with false. cbv iota.
  set (current := match User.last_task_completion u with
                  | Some _ => _ | None => _ end).
  destruct (Z.ltb_spec (User.longest_streak u) current).
  - rewrite Z.ltb_irrefl. lia.
  - destruct (Z.ltb_spec (User.longest_streak u) current); lia.
Qed.

Lemma update_streak_counts_days_witness :
  let u := User.mk 0 1 4 6 (Some 1700000000000000) in
  let once := update_streak 1700090000000000 u in
  User.current_streak once = 5 /\
  User.current_streak (update_streak 1700092000000000 once) = 5.
Proof.
  intros u once. split; [reflexivity|].
  destruct (update_streak_counts_days 1700090000000000 1700092000000000 u) as (H & _).
  - reflexivity.
  - exact H.
Defined.

(** X29. A task is completed once: whatever the task and its user, after
    [mark_completed] a further call returns [False] and changes neither the
    task nor the user, so the experience of a task is awarded one time at
    most; the first call awards [xp_reward + bonus_xp] exactly when it
    returns [True]. *)
Theorem mark_completed_awards_once (t1 t2 t3 t4 : Z) (task : Task.t) (u : User.t) :
  let first := mark_completed t1 t2 task (Some u) in
  let again := mark_completed t3 t4 (fst (snd first)) (snd (snd first)) in
  Task.status (fst (snd first)) = "completed" /\
  fst again = false /\
  snd again = snd first /\
  exists u', snd (snd first) = Some u' /\
    User.total_xp u'
    = User.total_xp u + (if fst first then Task.xp_reward task + Task.bonus_xp task else 0).
Proof.
  intros first again. subst first again. unfold mark_completed.
  destruct (String.eqb (Task.status task) "completed") eqn:Hstatus;
    cbn [negb fst snd Task.status].
  - rewrite Hstatus. cbn [negb fst snd]. apply String.eqb_eq in Hstatus.
    split; [done|]. split; [done|]. split; [done|]. exists u. split; [done|lia].
  - cbn [String.eqb Ascii.eqb Bool.eqb negb fst snd andb]. split; [done|].
    split; [done|]. split; [done|].
    eexists. split; [reflexivity|]. unfold update_streak. cbn [User.total_xp].
    apply add_xp_total.
Qed.

(** The induction principle of [TaskTree] with the subtasks covered. *)
Lemma TaskTree_forall_ind (P : TaskTree -> Prop) :
  (forall progress subtasks, Forall P subtasks -> P (TaskNode progress subtasks)) ->
  forall task, P task.
Proof.
  intros Hnode. fix IH 1. intros [progress subtasks]. apply Hnode.
  induction subtasks as [|subtask rest IHrest]; constructor; [apply IH|exact IHrest].
Qed.

Lemma total_progress_bounds (subtasks : list TaskTree) (start : Z) :
  Forall (fun subtask => 0 <= get_completion_percentage subtask <= 100) subtasks ->
  let total :=
    fold_left (fun total_progress subtask =>
                 total_progress + get_completion_percentage subtask) subtasks start in
  start <= total <= start + 100 * Z.of_nat (length subtasks).
Proof.
  intros Hall. revert start. induction Hall as [|subtask rest Hsub _ IH]; intros start.
  - cbn. lia.
  - cbn [fold_left length]. specialize (IH (start + get_completion_percentage subtask)).
    cbv zeta in IH. lia.
Qed.

(** X30. When every progress column in a task's tree of subtasks is a
    percentage, so is the completion percentage of the task. *)
Theorem completion_percentage_in_range (task : TaskTree) :
  progress_in_range task = true ->
  0 <= get_completion_percentage task <= 100.
Proof.
  induction task as [progress subtasks IH] using TaskTree_forall_ind.
  cbn [progress_in_range]. intros Hrange.
  apply andb_prop in Hrange as [Hown Hsubs]. apply andb_prop in Hown as [Hlo Hhi].
  apply Z.leb_le in Hlo, Hhi.
  assert (Forall (fun subtask => 0 <= get_completion_percentage subtask <= 100) subtasks)
    as Hall.
  { apply Forall_forall. intros subtask Hin. rewrite Forall_forall in IH.
    apply IH; [done|]. rewrite forallb_forall in Hsubs. apply Hsubs.
    by apply list_elem_of_In. }
  destruct subtasks as [|subtask rest]; [cbn; lia|].
  cbn [get_completion_percentage].
  pose proof (total_progress_bounds (subtask :: rest) progress Hall) as Hb.
  cbv zeta in Hb.
  set (total := fold_left _ (subtask :: rest) progress) in *.
  set (n := Z.of_nat (length (subtask :: rest))) in *.
  assert (0 <= n) by (subst n; lia).
  split.
  - apply Z.div_pos; lia.
  - apply Z.div_le_upper_bound; lia.
Qed.

Lemma completion_percentage_in_range_witness :
  let task := TaskNode 50 [TaskNode 100 []; TaskNode 0 [TaskNode 100 []]] in
  get_completion_percentage task = 66 /\ 0 <= get_completion_percentage task <= 100.
Proof.
  intros task. split; [reflexivity|].
  apply (completion_percentage_in_range task). reflexivity.
Defined.

